(** * Documentation governance scripts: a shallow embedding

    This development embeds the two documentation scripts of the repository,
    [scripts/check_docs_governance.py] (the validator) and
    [scripts/generate_release_notes.py] (the release-notes generator), and
    proves properties of them.

    Conventions of the embedding:
    - A Python [str] is a [string]; a character is an [ascii], read as the
      code point of the same number (0..255).  Texts with code points above
      255 are outside the model.
    - The [errors: list[str]] accumulator that the validators append to is a
      [list string] threaded through every function and returned.
    - The files below the repository root are a finite map from the path
      relative to the root to the text of the file. *)

From Stdlib Require Import Ascii String NArith.
From Stdlib Require OrderedTypeEx Sorted.
From stdpp Require Import base option list strings gmap fin_maps.

(** ** Python string primitives *)

Module Py.

Definition nl : ascii := "010"%char.
Definition cr : ascii := "013"%char.

Definition ascii_eqb (a b : ascii) : bool := Ascii.eqb a b.

(** [str.isspace] on one character, which is also the class [\s] of [re]
    for [str] patterns: TAB..CR, FS..US, SPACE, NEL and NBSP. *)
Definition isspace (c : ascii) : bool :=
  let n := N_of_ascii c in
  ((9 <=? n) && (n <=? 13) || (28 <=? n) && (n <=? 31)
   || (n =? 32) || (n =? 133) || (n =? 160))%N.

(** The class [\d] of [re]: below code point 256 the decimal digits are
    exactly 0..9. *)
Definition isdigit (c : ascii) : bool :=
  let n := N_of_ascii c in ((48 <=? n) && (n <=? 57))%N.

(** The line boundaries of [str.splitlines]: LF, VT, FF, CR, FS, GS, RS
    and NEL (CR LF is handled in [splitlines]). *)
Definition islinebreak (c : ascii) : bool :=
  let n := N_of_ascii c in
  ((10 <=? n) && (n <=? 13) || (28 <=? n) && (n <=? 30) || (n =? 133))%N.

Definition is_empty (s : string) : bool :=
  match s with EmptyString => true | String _ _ => false end.

(** [s[n:]] *)
Fixpoint slice_from (n : nat) (s : string) : string :=
  match n, s with
  | O, _ => s
  | S n', String _ s' => slice_from n' s'
  | S _, EmptyString => EmptyString
  end.

(** [s[:n]] *)
Fixpoint slice_to (n : nat) (s : string) : string :=
  match n, s with
  | S n', String c s' => String c (slice_to n' s')
  | _, _ => EmptyString
  end.

(** [s.startswith(p)] *)
Definition startswith (s p : string) : bool := String.prefix p s.

(** [needle in hay] *)
Fixpoint contains (needle hay : string) : bool :=
  String.prefix needle hay ||
  match hay with
  | EmptyString => false
  | String _ hay' => contains needle hay'
  end.

Fixpoint drop_while (p : ascii -> bool) (s : string) : string :=
  match s with
  | EmptyString => EmptyString
  | String c s' => if p c then drop_while p s' else s
  end.

Fixpoint take_while (p : ascii -> bool) (s : string) : string :=
  match s with
  | EmptyString => EmptyString
  | String c s' => if p c then String c (take_while p s') else EmptyString
  end.

(** Removal of the trailing characters that satisfy [p]. *)
Fixpoint drop_while_end (p : ascii -> bool) (s : string) : string :=
  match s with
  | EmptyString => EmptyString
  | String c s' =>
      let r := drop_while_end p s' in
      if is_empty r && p c then EmptyString else String c r
  end.

Definition lstrip (s : string) : string := drop_while isspace s.
Definition rstrip (s : string) : string := drop_while_end isspace s.
(** [s.strip()] *)
Definition strip (s : string) : string := rstrip (lstrip s).
(** [s.strip(c)] for a one-character argument *)
Definition strip_char (c : ascii) (s : string) : string :=
  drop_while_end (ascii_eqb c) (drop_while (ascii_eqb c) s).

(** [s.endswith(c)] for a one-character argument *)
Fixpoint endswith_char (c : ascii) (s : string) : bool :=
  match s with
  | EmptyString => false
  | String a EmptyString => ascii_eqb a c
  | String _ s' => endswith_char c s'
  end.

(** [s[:-1]] *)
Fixpoint drop_last (s : string) : string :=
  match s with
  | EmptyString => EmptyString
  | String _ EmptyString => EmptyString
  | String a s' => String a (drop_last s')
  end.

(** [s.split(c)] for a one-character separator *)
Fixpoint split (c : ascii) (s : string) : list string :=
  match s with
  | EmptyString => [EmptyString]
  | String a s' =>
      if ascii_eqb a c then EmptyString :: split c s'
      else match split c s' with
           | l :: ls => String a l :: ls
           | [] => [String a EmptyString]
           end
  end.

(** [sep.join(ls)] *)
Fixpoint join (sep : string) (ls : list string) : string :=
  match ls with
  | [] => EmptyString
  | [l] => l
  | l :: ls' => l +:+ sep +:+ join sep ls'
  end.

(** [s.splitlines()].  [cur] is the line being read; [after_cr] says that
    the previous character was CR, so that a LF now belongs to the same
    boundary. *)
Fixpoint splitlines_from (cur : string) (after_cr : bool) (s : string)
  : list string :=
  match s with
  | EmptyString => if is_empty cur then [] else [cur]
  | String c s' =>
      if after_cr && ascii_eqb c nl then splitlines_from cur false s'
      else if islinebreak c
           then cur :: splitlines_from EmptyString (ascii_eqb c cr) s'
           else splitlines_from (cur +:+ String c EmptyString) false s'
  end.

Definition splitlines (s : string) : list string :=
  splitlines_from EmptyString false s.

(** [set(s) == {c}]: [s] is not empty and every character of it is [c]. *)
Fixpoint all_char (c : ascii) (s : string) : bool :=
  match s with
  | EmptyString => true
  | String a s' => ascii_eqb a c && all_char c s'
  end.

Definition only_char (c : ascii) (s : string) : bool :=
  negb (is_empty s) && all_char c s.

End Py.

(** ** The regular expressions of the scripts

    Every pattern of the two scripts that is used with [re.search] starts
    with [^] under [re.MULTILINE].  [search_bol] is that search: it tries
    the rest of the pattern at every line start from left to right and
    returns the first success.  The rest of each pattern is written out as a
    function on the text that follows the position. *)

Module Re.

Import Py.

Definition not_nl (c : ascii) : bool := negb (ascii_eqb c nl).

(** [re.search(r"^...", text, re.MULTILINE)], where [m] matches the part
    after [^].  [bol] says that the current position is a line start:
    the start of the text or the position after a LF. *)
Fixpoint search_from {A} (m : string -> option A) (bol : bool) (s : string)
  : option A :=
  match (if bol then m s else None) with
  | Some r => Some r
  | None =>
      match s with
      | EmptyString => None
      | String c s' => search_from m (ascii_eqb c nl) s'
      end
  end.

Definition search_bol {A} (m : string -> option A) (s : string) : option A :=
  search_from m true s.

(** [(?P<body>.*?)(?=^TERM|\Z)] under [re.MULTILINE | re.DOTALL]: the
    shortest text up to a line start where [term] follows, or up to the
    end of the text. *)
Fixpoint lazy_body (term : string) (bol : bool) (s : string) : string :=
  match s with
  | EmptyString => EmptyString
  | String c s' =>
      if bol && String.prefix term s then EmptyString
      else String c (lazy_body term (ascii_eqb c nl) s')
  end.

(** [^HEADING\n(?P<body>.*?)(?=^TERM|\Z)] at a line start: the group
    [body]. *)
Definition section_at (heading term : string) (s : string) : option string :=
  let h := heading +:+ String nl EmptyString in
  if String.prefix h s
  then Some (lazy_body term true (slice_from (String.length h) s))
  else None.

(** The last character of [s] that is not LF. *)
Fixpoint last_not_nl (s : string) : option ascii :=
  match s with
  | EmptyString => None
  | String c s' =>
      match last_not_nl s' with
      | Some x => Some x
      | None => if ascii_eqb c nl then None else Some c
      end
  end.

(** [\s*(.+)$] under [re.MULTILINE], on the text after the label: group 1.
    [\s*] is greedy and also runs over line ends.  When a character that
    is not white space follows the run, [.+] takes the rest of that line.
    When the run reaches the end of the text, the matcher gives white
    space back until [.+] can start on a character other than LF; the
    group is then that one white space character. *)
Definition spaces_then_rest (s : string) : option string :=
  match drop_while isspace s with
  | String _ _ as r => Some (take_while not_nl r)
  | EmptyString =>
      match last_not_nl s with
      | Some c => Some (String c EmptyString)
      | None => None
      end
  end.

(** A sequence of character classes, one character each, at the start of
    the text: the text matched and the text after it. *)
Fixpoint match_classes (classes : list (ascii -> bool)) (s : string)
  : option (string * string) :=
  match classes with
  | [] => Some (EmptyString, s)
  | p :: classes' =>
      match s with
      | String c s' =>
          if p c then
            match match_classes classes' s' with
            | Some (d, rest) => Some (String c d, rest)
            | None => None
            end
          else None
      | EmptyString => None
      end
  end.

(** [\d{4}-\d{2}-\d{2}] *)
Definition DATE : list (ascii -> bool) :=
  [isdigit; isdigit; isdigit; isdigit; ascii_eqb "-"%char;
   isdigit; isdigit; ascii_eqb "-"%char; isdigit; isdigit].

(** [$] under [re.MULTILINE]: the end of the text or the position before
    a LF. *)
Definition at_eol (s : string) : bool :=
  match s with
  | EmptyString => true
  | String c _ => ascii_eqb c nl
  end.

(** [\s*(\d{4}-\d{2}-\d{2})$] under [re.MULTILINE], on the text after the
    label: group 1.  A digit is not white space, so only the whole run of
    white space can be followed by the date. *)
Definition spaces_then_date (s : string) : option string :=
  match match_classes DATE (drop_while isspace s) with
  | Some (d, rest) => if at_eol rest then Some d else None
  | None => None
  end.

(** [^LABEL REST] at a line start, for a literal [label]. *)
Definition labelled {A} (label : string) (rest : string -> option A)
  (s : string) : option A :=
  if String.prefix label s then rest (slice_from (String.length label) s) else None.

End Re.

(** ** [scripts/check_docs_governance.py] *)

Module Governance.

Import Py Re.

(** The paths, relative to [ROOT]. *)
Definition ROADMAP_PATH : string := "docs/project/roadmap.md".
Definition CHANGELOG_PATH : string := "CHANGELOG.md".
Definition PLAN_LIFECYCLE_PATH : string := "docs/plans/PLAN_LIFECYCLE.md".
Definition RELEASE_TEMPLATE_PATH : string :=
  "docs/project/RELEASE_NOTES_TEMPLATE.md".

(** [ROOT / "docs/plans" / rel], for a [rel] that is a plain relative path:
    an absolute [rel] or dot segments in it are outside the model. *)
Definition plans_path (rel : string) : string := "docs/plans/" +:+ rel.

Definition LIFECYCLE_STATUSES : list string :=
  ["Active"; "Superseded"; "Archived"].

Definition REQUIRED_TEMPLATE_HEADINGS : list string :=
  ["## Milestone"; "## Release Summary"; "### Added"; "### Changed";
   "### Deprecated"; "### Removed"; "### Fixed"; "### Security"].

(** [x in xs] for strings *)
Definition mem (x : string) (xs : list string) : bool :=
  existsb (String.eqb x) xs.

Definition read_text (fs : gmap string string) (path : string)
  (errors : list string) : string * list string :=
  match fs !! path with
  | None => (EmptyString, errors ++ ["Missing required file: " +:+ path])
  | Some text => (text, errors)
  end.

(** [^## \[Unreleased\]\n(?P<body>.*?)(?=^## \[|\Z)] *)
Definition unreleased_match (changelog : string) : option string :=
  search_bol (section_at "## [Unreleased]" "## [") changelog.

Definition missing_unreleased_error : string :=
  "CHANGELOG.md is missing a [Unreleased] section".

Definition extract_unreleased (changelog : string) (errors : list string)
  : string * list string :=
  match unreleased_match changelog with
  | None =>
      (EmptyString, errors ++ [missing_unreleased_error])
  | Some body => (body, errors)
  end.

(** [^\*\*Current Phase:\*\*\s*(.+)$] *)
Definition phase_match (roadmap : string) : option string :=
  search_bol (labelled "**Current Phase:**" spaces_then_rest) roadmap.

(** [^\*\*Last Updated:\*\*\s*(\d{4}-\d{2}-\d{2})$] *)
Definition date_match (roadmap : string) : option string :=
  search_bol (labelled "**Last Updated:**" spaces_then_date) roadmap.

(** [m.group(1).strip() if m else ""] *)
Definition group_or_empty (m : option string) : string :=
  match m with
  | Some g => strip g
  | None => EmptyString
  end.

Definition missing_phase_error : string :=
  "Roadmap is missing '**Current Phase:**' metadata".

Definition missing_date_error : string :=
  "Roadmap is missing '**Last Updated:**' metadata".

Definition parse_roadmap_metadata (roadmap : string) (errors : list string)
  : (string * string) * list string :=
  let errors :=
    match phase_match roadmap with
    | None => errors ++ [missing_phase_error]
    | Some _ => errors
    end in
  let errors :=
    match date_match roadmap with
    | None => errors ++ [missing_date_error]
    | Some _ => errors
    end in
  ((group_or_empty (phase_match roadmap), group_or_empty (date_match roadmap)),
   errors).

(** [\((\.\./plans/[^)]+\.md)\)] at a position: group 1 and the length of
    the whole match.  [[^)]+] cannot cross a closing parenthesis, so the
    run of other characters after the prefix has to end in [.md], with at
    least one character before it, and a closing parenthesis follows. *)
Definition not_rparen (c : ascii) : bool := negb (ascii_eqb c ")"%char).

Definition link_at (s : string) : option (string * nat) :=
  if String.prefix "(../plans/" s then
    let rest := slice_from 10 s in
    let run := take_while not_rparen rest in
    let n := String.length run in
    if (4 <=? n)%nat
       && String.eqb (slice_from (n - 3) run) ".md"
       && String.prefix ")" (slice_from n rest)
    then Some ("../plans/" +:+ run, 10 + n + 1)
    else None
  else None.

(** [re.findall]: matches from left to right that do not overlap; [skip]
    counts the characters still covered by the last match. *)
Fixpoint findall_links (skip : nat) (s : string) : list string :=
  match s with
  | EmptyString => []
  | String _ s' =>
      match skip with
      | S k => findall_links k s'
      | O =>
          match link_at s with
          | Some (g, n) => g :: findall_links (n - 1) s'
          | None => findall_links 0 s'
          end
      end
  end.

(** [sorted(set(xs))] *)
Fixpoint insert_sorted (x : string) (xs : list string) : list string :=
  match xs with
  | [] => [x]
  | y :: ys =>
      if String.eqb x y then xs
      else if String.ltb x y then x :: xs
      else y :: insert_sorted x ys
  end.

Definition sorted_set (xs : list string) : list string :=
  foldr insert_sorted [] xs.

(** [(ROADMAP_PATH.parent / rel).resolve()] relative to [ROOT], for a
    [rel] that starts with [../plans/]; dot segments further inside [rel]
    are left as they are. *)
Definition resolve_link (rel : string) : string := plans_path (slice_from 9 rel).

Definition validate_roadmap_links (fs : gmap string string)
  (roadmap : string) (errors : list string) : list string :=
  foldl (fun errors rel =>
           match fs !! resolve_link rel with
           | None => errors ++ ["Roadmap link target does not exist: " +:+ rel]
           | Some _ => errors
           end)
        errors (sorted_set (findall_links 0 roadmap)).

(** [^### Roadmap Alignment\n(?P<body>.*?)(?=^### |\Z)] *)
Definition block_match (unreleased : string) : option string :=
  search_bol (section_at "### Roadmap Alignment" "### ") unreleased.

(** [^- Current roadmap phase:\s*(.+)$] *)
Definition block_phase_match (block : string) : option string :=
  search_bol (labelled "- Current roadmap phase:" spaces_then_rest) block.

(** [^- Roadmap last updated:\s*(\d{4}-\d{2}-\d{2})$] *)
Definition block_updated_match (block : string) : option string :=
  search_bol (labelled "- Roadmap last updated:" spaces_then_date) block.

Definition phase_mismatch (roadmap_phase changelog_phase : string) : string :=
  "Roadmap/Changelog phase mismatch: " +:+
  "roadmap='" +:+ roadmap_phase +:+ "', changelog='" +:+ changelog_phase +:+ "'".

Definition updated_mismatch (roadmap_date changelog_date : string) : string :=
  "Roadmap/Changelog last-updated mismatch: " +:+
  "roadmap='" +:+ roadmap_date +:+ "', changelog='" +:+ changelog_date +:+ "'".

Definition missing_block_error : string :=
  "CHANGELOG [Unreleased] is missing '### Roadmap Alignment' block".

Definition missing_block_phase_error : string :=
  "Roadmap Alignment block missing '- Current roadmap phase:'".

Definition missing_block_updated_error : string :=
  "Roadmap Alignment block missing '- Roadmap last updated:'".

Definition validate_roadmap_alignment_block
  (roadmap_phase roadmap_last_updated unreleased : string)
  (errors : list string) : list string :=
  match block_match unreleased with
  | None => errors ++ [missing_block_error]
  | Some block =>
      let phase_match := block_phase_match block in
      let updated_match := block_updated_match block in
      let errors :=
        match phase_match with
        | None => errors ++ [missing_block_phase_error]
        | Some _ => errors
        end in
      let errors :=
        match updated_match with
        | None => errors ++ [missing_block_updated_error]
        | Some _ => errors
        end in
      let errors :=
        match phase_match with
        | Some g =>
            if String.eqb (strip g) roadmap_phase then errors
            else errors ++ [phase_mismatch roadmap_phase (strip g)]
        | None => errors
        end in
      match updated_match with
      | Some g =>
          if String.eqb (strip g) roadmap_last_updated then errors
          else errors ++ [updated_mismatch roadmap_last_updated (strip g)]
      | None => errors
      end
  end.

(** The cells of a table line: [[cell.strip() for cell in
    line.strip("|").split("|")]], for a [line] that is already stripped. *)
Definition line_cells (line : string) : list string :=
  map strip (split "|"%char (strip_char "|"%char line)).

(** One turn of the loop of [parse_table_rows]. *)
Definition parse_table_line (rows : list (list string)) (line : string)
  : list (list string) :=
  let line := strip line in
  if negb (startswith line "|") then rows
  else
    let cells := line_cells line in
    if (length cells <? 4)%nat then rows
    else
      match cells with
      | cell0 :: _ =>
          if String.eqb cell0 "Plan" || only_char "-"%char cell0 then rows
          else rows ++ [take 4 cells]
      | [] => rows
      end.

Definition parse_table_rows (markdown : string) : list (list string) :=
  foldl parse_table_line [] (splitlines markdown).

Definition parse_code_path (cell : string) : option string :=
  let cell := strip cell in
  if String.eqb cell "-" then Some "-"
  else if startswith cell "`" && endswith_char "`"%char cell
       then Some (drop_last (slice_from 1 cell))
       else None.

(** [not rel or rel == "-"], for the result of [parse_code_path] *)
Definition no_path (rel : option string) : bool :=
  match rel with
  | None => true
  | Some r => is_empty r || String.eqb r "-"
  end.

(** The messages of [validate_plan_lifecycle] that the theorems name. *)
Definition missing_file_error (plan_rel : string) : string :=
  "Lifecycle entry references missing file: docs/plans/" +:+ plan_rel.

Definition superseded_marker_error (plan_rel : string) : string :=
  "Superseded plan missing lifecycle marker: docs/plans/" +:+ plan_rel.

Definition no_target_error (plan_rel : string) : string :=
  "Superseded plan must define 'Superseded By' target: docs/plans/" +:+ plan_rel.

Definition target_missing_error (superseded_rel : string) : string :=
  "Superseded target does not exist: docs/plans/" +:+ superseded_rel.

Definition unreferenced_error (superseded_rel plan_rel : string) : string :=
  "Superseded source missing explicit target reference '" +:+ superseded_rel +:+
  "': docs/plans/" +:+ plan_rel.

Definition active_marker_error (plan_rel : string) : string :=
  "Active plan missing lifecycle marker: docs/plans/" +:+ plan_rel.

Definition invalid_path_error (plan_cell : string) : string :=
  "Invalid plan path cell in PLAN_LIFECYCLE.md: " +:+ plan_cell.

(** [', '.join(sorted(LIFECYCLE_STATUSES))] is [Active, Archived, Superseded]. *)
Definition invalid_status_error (status plan_rel : string) : string :=
  "Invalid lifecycle status '" +:+ status +:+ "' for plan '" +:+ plan_rel +:+
  "' (allowed: Active, Archived, Superseded)".

Definition no_history_error : string :=
  "PLAN_LIFECYCLE.md should include at least one Superseded entry".

Definition no_rows_error : string :=
  "PLAN_LIFECYCLE.md must define at least one lifecycle row".

Definition active_check (status plan_rel plan_text : string)
  (errors : list string) : list string :=
  if String.eqb status "Active"
     && negb (contains "**Lifecycle:** Active" plan_text)
  then errors ++ [active_marker_error plan_rel]
  else errors.

(** The body of the loop of [validate_plan_lifecycle], on the state
    [(errors, superseded_count)].  A [continue] is a return from this
    function.  The loop unpacks every row into four names; a row of
    another length, which [parse_table_rows] never returns, leaves the
    state as it is. *)
Definition lifecycle_row (fs : gmap string string)
  (st : list string * nat) (row : list string) : list string * nat :=
  let '(errors, superseded_count) := st in
  match row with
  | [plan_cell; status; superseded_by_cell; _notes] =>
      match parse_code_path plan_cell with
      | Some plan_rel =>
          if no_path (Some plan_rel) then
            (errors ++ [invalid_path_error plan_cell], superseded_count)
          else
            let errors :=
              if mem status LIFECYCLE_STATUSES then errors
              else errors ++ [invalid_status_error status plan_rel] in
            match fs !! plans_path plan_rel with
            | None =>
                (errors ++ [missing_file_error plan_rel], superseded_count)
            | Some plan_text =>
                if String.eqb status "Superseded" then
                  let superseded_count := S superseded_count in
                  let errors :=
                    if contains "**Lifecycle:** Superseded" plan_text then errors
                    else errors ++ [superseded_marker_error plan_rel] in
                  match parse_code_path superseded_by_cell with
                  | Some superseded_rel =>
                      if no_path (Some superseded_rel) then
                        (errors ++ [no_target_error plan_rel], superseded_count)
                      else
                        let errors :=
                          match fs !! plans_path superseded_rel with
                          | None => errors ++ [target_missing_error superseded_rel]
                          | Some _ => errors
                          end in
                        let errors :=
                          if contains superseded_rel plan_text then errors
                          else errors ++ [unreferenced_error superseded_rel plan_rel] in
                        (active_check status plan_rel plan_text errors,
                         superseded_count)
                  | None =>
                      (errors ++ [no_target_error plan_rel], superseded_count)
                  end
                else
                  (active_check status plan_rel plan_text errors, superseded_count)
            end
      | None =>
          (errors ++ [invalid_path_error plan_cell], superseded_count)
      end
  | _ => st
  end.

(** The loop over the rows and the check after it. *)
Definition lifecycle_rows (fs : gmap string string)
  (rows : list (list string)) (errors : list string) : list string :=
  let '(errors, superseded_count) := foldl (lifecycle_row fs) (errors, 0) rows in
  if (superseded_count =? 0)%nat
  then errors ++ [no_history_error]
  else errors.

Definition validate_plan_lifecycle (fs : gmap string string)
  (errors : list string) : list string :=
  let '(lifecycle, errors) := read_text fs PLAN_LIFECYCLE_PATH errors in
  if is_empty lifecycle then errors
  else
    let rows := parse_table_rows lifecycle in
    match rows with
    | [] => errors ++ [no_rows_error]
    | _ :: _ => lifecycle_rows fs rows errors
    end.

Definition validate_release_template (fs : gmap string string)
  (errors : list string) : list string :=
  let '(template, errors) := read_text fs RELEASE_TEMPLATE_PATH errors in
  if is_empty template then errors
  else
    foldl (fun errors heading =>
             if contains heading template then errors
             else errors ++
               ["Release notes template missing required heading '" +:+ heading +:+ "'"])
          errors REQUIRED_TEMPLATE_HEADINGS.

(** The part of [main] under [if roadmap and changelog:]. *)
Definition check_alignment (roadmap changelog : string) (errors : list string)
  : list string :=
  let '((roadmap_phase, roadmap_last_updated), errors) :=
    parse_roadmap_metadata roadmap errors in
  let '(unreleased, errors) := extract_unreleased changelog errors in
  if negb (is_empty roadmap_phase) && negb (is_empty roadmap_last_updated)
     && negb (is_empty unreleased)
  then validate_roadmap_alignment_block
         roadmap_phase roadmap_last_updated unreleased errors
  else errors.

(** The errors that [main] collects. *)
Definition main_errors (fs : gmap string string) : list string :=
  let errors := [] in
  let '(roadmap, errors) := read_text fs ROADMAP_PATH errors in
  let '(changelog, errors) := read_text fs CHANGELOG_PATH errors in
  let errors :=
    if negb (is_empty roadmap) then validate_roadmap_links fs roadmap errors
    else errors in
  let errors :=
    if negb (is_empty roadmap) && negb (is_empty changelog)
    then check_alignment roadmap changelog errors
    else errors in
  let errors := validate_plan_lifecycle fs errors in
  validate_release_template fs errors.

(** [main]: the exit status and the lines printed. *)
Definition main (fs : gmap string string) : nat * list string :=
  match main_errors fs with
  | [] => (0, ["Docs governance checks passed."])
  | errors =>
      (1, "Docs governance checks failed:" :: map (fun err => "- " +:+ err) errors)
  end.

End Governance.

(** ** [scripts/generate_release_notes.py] *)

Module ReleaseNotes.

Import Py Re.

Definition SECTIONS : list string :=
  ["Added"; "Changed"; "Deprecated"; "Removed"; "Fixed"; "Security"].

(** The two exceptions that [main] catches, with their message. *)
Inductive exn : Type :=
| FileNotFoundError (msg : string)
| ValueError (msg : string).

Definition message (e : exn) : string :=
  match e with
  | FileNotFoundError msg => msg
  | ValueError msg => msg
  end.

(** A computation that returns or raises. *)
Definition result (A : Type) : Type := exn + A.

Definition raise {A} (e : exn) : result A := inl e.

#[export] Instance result_ret : MRet result := fun A x => inr x.
#[export] Instance result_bind : MBind result := fun A B k c =>
  match c with
  | inl e => inl e
  | inr x => k x
  end.

Definition read_text (fs : gmap string string) (path : string) : result string :=
  match fs !! path with
  | None => raise (FileNotFoundError ("Missing file: " +:+ path))
  | Some text => mret text
  end.

(** [^## \[Unreleased\]\n(?P<body>.*?)(?=^## \[|\Z)] *)
Definition extract_unreleased (changelog : string) : result string :=
  match search_bol (section_at "## [Unreleased]" "## [") changelog with
  | None => raise (ValueError "CHANGELOG.md is missing a [Unreleased] section")
  | Some body => mret body
  end.

Definition parse_roadmap_metadata (roadmap : string) : result (string * string) :=
  let phase_match :=
    search_bol (labelled "**Current Phase:**" spaces_then_rest) roadmap in
  let date_match :=
    search_bol (labelled "**Last Updated:**" spaces_then_date) roadmap in
  match phase_match, date_match with
  | Some p, Some d => mret (strip p, strip d)
  | _, _ =>
      raise (ValueError
               "Roadmap metadata is incomplete (Current Phase / Last Updated)")
  end.

(** [re.match(r"^###\s+(.+)$", line)]: group 1.  [line] is the result of
    [rstrip] on a line of [splitlines]: it holds no LF and does not end in
    white space, so the run of [\s+] is followed by another character and
    the matcher never has to give white space back; that case is [None]
    here. *)
Definition heading_match (line : string) : option string :=
  if String.prefix "###" line then
    let r := slice_from 3 line in
    match r with
    | String c _ =>
        if isspace c then
          match drop_while isspace r with
          | String _ _ as r' =>
              let g := take_while not_nl r' in
              let after := slice_from (String.length g) r' in
              if is_empty after || String.eqb after (String nl EmptyString)
              then Some g else None
          | EmptyString => None
          end
        else None
    | EmptyString => None
    end
  else None.

(** [re.match(r"^\s*-\s+", line)] as a truth value *)
Definition bullet_match (line : string) : bool :=
  match drop_while isspace line with
  | String d (String c _) => ascii_eqb d "-"%char && isspace c
  | _ => false
  end.

(** [{section: [] for section in SECTIONS}] *)
Definition empty_items : gmap string (list string) :=
  foldr (fun section items => <[section := []]> items) ∅ SECTIONS.

(** One turn of the loop of [collect_section_items], on the state
    [(items, current_section)]. *)
Definition collect_line (st : gmap string (list string) * option string)
  (raw_line : string) : gmap string (list string) * option string :=
  let '(items, current_section) := st in
  let line := rstrip raw_line in
  match heading_match line with
  | Some g =>
      let heading := strip g in
      (items,
       match items !! heading with
       | Some _ => Some heading
       | None => None
       end)
  | None =>
      match current_section with
      | Some section =>
          if bullet_match line
          then (<[section := default [] (items !! section) ++ [line]]> items,
                current_section)
          else st
      | None => st
      end
  end.

Definition collect_section_items (unreleased : string)
  : gmap string (list string) :=
  fst (foldl collect_line (empty_items, None) (splitlines unreleased)).

(** The lines that the loop of [render_release_notes] adds for one
    section. *)
Definition section_lines (section_items : gmap string (list string))
  (section : string) : list string :=
  ["### " +:+ section] ++
  match default [] (section_items !! section) with
  | [] => ["- None"]
  | entries => entries
  end ++ [EmptyString].

Definition render_lines (version roadmap_phase roadmap_last_updated : string)
  (section_items : gmap string (list string)) : list string :=
  ["## Milestone";
   "- Version: " +:+ version;
   "- Roadmap phase: " +:+ roadmap_phase;
   "- Roadmap last updated: " +:+ roadmap_last_updated;
   EmptyString;
   "## Release Summary";
   "- Notes generated from `CHANGELOG.md` `[Unreleased]` entries.";
   "- Sections follow Keep a Changelog categories.";
   EmptyString]
  ++ foldl (fun lines section => lines ++ section_lines section_items section)
       [] SECTIONS.

Definition render_release_notes
  (version roadmap_phase roadmap_last_updated : string)
  (section_items : gmap string (list string)) : string :=
  rstrip (join (String nl EmptyString)
            (render_lines version roadmap_phase roadmap_last_updated section_items))
  +:+ String nl EmptyString.

(** The command line of [main]. *)
Record args : Type := Args {
  version : string;
  changelog : string;
  roadmap : string;
  output : string
}.

(** What a run of [main] leaves: the exit status, the line printed and
    the files. *)
Record outcome : Type := Outcome {
  status : nat;
  printed : string;
  files : gmap string string
}.

(** The body of the [try] block up to the rendered text; the write
    follows it in [main]. *)
Definition generate (a : args) (fs : gmap string string) : result string :=
  changelog_text ← read_text fs (changelog a);
  roadmap_text ← read_text fs (roadmap a);
  unreleased ← extract_unreleased changelog_text;
  '(roadmap_phase, roadmap_last_updated) ← parse_roadmap_metadata roadmap_text;
  let section_items := collect_section_items unreleased in
  mret (render_release_notes (version a) roadmap_phase roadmap_last_updated
          section_items).

Definition main (a : args) (fs : gmap string string) : outcome :=
  match generate a fs with
  | inr text =>
      Outcome 0 ("Generated release notes at " +:+ output a)
              (<[output a := text]> fs)
  | inl err => Outcome 1 ("Error: " +:+ message err) fs
  end.

End ReleaseNotes.

(** ** Vocabulary of the statements *)

Module Rows.

Import Py Governance.

(** The status cell of a row. *)
Definition row_status (row : list string) : string := nth 1 row EmptyString.

(** The row gets as far as the checks that depend on its status: its plan
    cell is a code-quoted path and the plan file exists. *)
Definition reaches_status_checks (fs : gmap string string) (row : list string)
  : bool :=
  match row with
  | [plan_cell; _; _; _] =>
      negb (no_path (parse_code_path plan_cell))
      && match parse_code_path plan_cell with
         | Some plan_rel => bool_decide (is_Some (fs !! plans_path plan_rel))
         | None => false
         end
  | _ => false
  end.

(** The rows that the loop counts as superseded. *)
Definition counted (fs : gmap string string) (row : list string) : bool :=
  reaches_status_checks fs row && String.eqb (row_status row) "Superseded".

(** What one row adds to an empty state. *)
Definition row_result (fs : gmap string string) (row : list string)
  : list string * nat :=
  lifecycle_row fs ([], 0) row.

(** The errors of the rows alone, before the check that follows the loop. *)
Definition row_errors (fs : gmap string string) (rows : list (list string))
  : list string :=
  concat (map (fun row => fst (row_result fs row)) rows).

End Rows.

Module Table.

Import Py Governance.

(** The line is a candidate: after trimming it starts with a pipe. *)
Definition candidate (line : string) : bool := startswith (strip line) "|".

(** The trimmed cells of a line. *)
Definition cells_of (line : string) : list string := line_cells (strip line).

Definition first_cell (line : string) : string := hd EmptyString (cells_of line).

(** The tests of the parser, read off its code: a candidate with at least
    four cells whose first cell is neither the header label nor a run of
    dashes. *)
Definition accepted (line : string) : bool :=
  candidate line
  && (4 <=? length (cells_of line))
  && negb (String.eqb (first_cell line) "Plan")
  && negb (only_char "-"%char (first_cell line)).

(** The row kept from an accepted line. *)
Definition row_of (line : string) : list string := take 4 (cells_of line).

(** The rejection tests in the words of the specification: fewer than four
    cells, a first cell equal to the header label, or every character
    across all cells a dash. *)
Definition stated_rejected (line : string) : bool :=
  (length (cells_of line) <? 4)
  || String.eqb (first_cell line) "Plan"
  || only_char "-"%char (fold_right String.append EmptyString (cells_of line)).

(** The parser in the words of the specification. *)
Definition stated_parse_rows (markdown : string) : list (list string) :=
  map row_of
    (List.filter (fun line => candidate line && negb (stated_rejected line))
       (splitlines markdown)).


End Table.

Module Kinds.

Import Py Governance.

(** The five messages of [validate_roadmap_alignment_block]: the three
    fixed ones and the two mismatch messages, which are known by their
    fixed beginning. *)
Definition is_alignment_error (e : string) : bool :=
  String.eqb e missing_block_error
  || String.eqb e missing_block_phase_error
  || String.eqb e missing_block_updated_error
  || String.prefix "Roadmap/Changelog phase mismatch: " e
  || String.prefix "Roadmap/Changelog last-updated mismatch: " e.

(** No error of the list comes from the alignment validator. *)
Definition no_alignment_error (errors : list string) : Prop :=
  Forall (fun e => is_alignment_error e = false) errors.

(** The values that the driver tests before it runs the alignment
    validator: the two texts it read, the two metadata values it parsed and
    the Unreleased body it extracted (each empty when absent). *)
Definition roadmap_of (fs : gmap string string) : string :=
  fst (read_text fs ROADMAP_PATH []).

Definition changelog_of (fs : gmap string string) : string :=
  fst (read_text fs CHANGELOG_PATH []).

Definition parsed_phase (roadmap : string) : string :=
  fst (fst (parse_roadmap_metadata roadmap [])).

Definition parsed_updated (roadmap : string) : string :=
  snd (fst (parse_roadmap_metadata roadmap [])).

Definition unreleased_body (changelog : string) : string :=
  fst (extract_unreleased changelog []).

(** The errors of the two parsing steps that come before the alignment
    validator in [check_alignment]. *)
Definition parsing_errors (roadmap changelog : string) (errors : list string)
  : list string :=
  snd (extract_unreleased changelog (snd (parse_roadmap_metadata roadmap errors))).

Definition all_present (roadmap changelog : string) : bool :=
  negb (is_empty (parsed_phase roadmap))
  && negb (is_empty (parsed_updated roadmap))
  && negb (is_empty (unreleased_body changelog)).

End Kinds.

Module Notes.

Import Py ReleaseNotes.


Fixpoint last_char (s : string) : option ascii :=
  match s with
  | EmptyString => None
  | String c EmptyString => Some c
  | String _ s' => last_char s'
  end.

(** The text is not empty and its last character is not white space. *)
Definition ends_nonspace (s : string) : bool :=
  match last_char s with
  | Some c => negb (isspace c)
  | None => false
  end.

(** The heading of a category followed by its collected entries, or by the
    placeholder when there is none. *)
Definition category_block (items : gmap string (list string)) (section : string)
  : list string :=
  ("### " +:+ section)
  :: match default [] (items !! section) with
     | [] => ["- None"]
     | entry :: entries => entry :: entries
     end.



End Notes.

Module Lines.

Import Py Re.

(** Every character of the text satisfies [p]. *)
Fixpoint every (p : ascii -> bool) (s : string) : bool :=
  match s with
  | EmptyString => true
  | String c s' => p c && every p s'
  end.

(** The text holds no line feed: it is one line, or a part of one. *)
Definition one_line (s : string) : bool := every not_nl s.

(** The text made of the given lines, each closed by a line feed. *)
Fixpoint unlines (ls : list string) : string :=
  match ls with
  | [] => EmptyString
  | l :: ls' => l +:+ String nl (unlines ls')
  end.

(** The rank of a heading line: the number of its leading marker
    characters; 0 for a line that is not a heading. *)
Definition heading_rank (s : string) : nat :=
  String.length (take_while (ascii_eqb "#"%char) s).

(** A section body in the words of the specification: the text up to the
    next line that is a heading of rank [rank] or of a higher rank (fewer
    markers), or up to the end of the text. *)
Fixpoint stated_body (rank : nat) (bol : bool) (s : string) : string :=
  match s with
  | EmptyString => EmptyString
  | String c s' =>
      if bol && (1 <=? heading_rank s) && (heading_rank s <=? rank)
      then EmptyString
      else String c (stated_body rank (ascii_eqb c nl) s')
  end.

Definition stated_section (heading : string) (rank : nat) (text : string)
  : option string :=
  search_bol
    (fun s =>
       let h := heading +:+ String nl EmptyString in
       if String.prefix h s
       then Some (stated_body rank true (slice_from (String.length h) s))
       else None)
    text.



(** The text is exactly a date of the shape YYYY-MM-DD. *)
Definition is_date (v : string) : bool :=
  match match_classes DATE v with
  | Some (_, EmptyString) => true
  | _ => false
  end.


(** A text laid out as: lines before the heading, none of them the heading;
    the heading line; the lines of the body, none of which starts with the
    term; and then either a last line without line feed that does not
    start with the term and ends the text, or a rest that starts with the
    term. *)
Definition section_text (heading : string) (before body : list string)
  (last rest : string) : string :=
  unlines before +:+ heading +:+ String nl (unlines body +:+ last +:+ rest).

Definition section_layout (heading term : string) (before body : list string)
  (last rest : string) : Prop :=
  Forall (fun line => one_line line = true) before
  /\ Forall (fun line => line <> heading) before
  /\ Forall (fun line => one_line line = true) body
  /\ Forall (fun line => String.prefix term line = false) body
  /\ one_line last = true
  /\ String.prefix term last = false
  /\ (rest = EmptyString \/ (last = EmptyString /\ String.prefix term rest = true)).

End Lines.

Module Shapes.

Import Py Governance.

(** The text consists of white space only (it may be empty). *)
Definition blank (s : string) : bool := Lines.every isspace s.

(** The text is not empty and its first character is not white space. *)
Definition starts_nonspace (s : string) : bool :=
  match s with
  | EmptyString => false
  | String c _ => negb (isspace c)
  end.

(** The text has no white space at either end (the empty text has none). *)
Definition trimmed (s : string) : bool :=
  is_empty s || starts_nonspace s && Notes.ends_nonspace s.

(** A path in code quotes, as the registry writes it. *)
Definition quoted (path : string) : string := "`" +:+ path +:+ "`".

(** The message of [validate_release_template] for a heading. *)
Definition template_error (heading : string) : string :=
  "Release notes template missing required heading '" +:+ heading +:+ "'".

(** The required headings that the template does not contain. *)
Definition missing_headings (template : string) : list string :=
  List.filter (fun heading => negb (contains heading template))
    REQUIRED_TEMPLATE_HEADINGS.

(** The message of [validate_roadmap_links] for a link. *)
Definition link_error (rel : string) : string :=
  "Roadmap link target does not exist: " +:+ rel.

(** The file that a link of the roadmap points to does not exist. *)
Definition target_missing (fs : gmap string string) (rel : string) : bool :=
  match fs !! resolve_link rel with
  | None => true
  | Some _ => false
  end.

(** [a < b] on [str]: the order by code points. *)
Definition before (a b : string) : Prop := String.ltb a b = true.

(** A line that the collector files as an entry: a bullet that is not a
    heading. *)
Definition entry (line : string) : Prop :=
  ReleaseNotes.bullet_match line = true /\ ReleaseNotes.heading_match line = None.

(** The state of the loop of [collect_section_items] after the lines
    [done]: the keys are the six categories, the current section is one of
    them, and every list holds entries taken from the lines read so far,
    in their order. *)
Definition collected (done : list string)
  (st : gmap string (list string) * option string) : Prop :=
  (forall key, is_Some (fst st !! key) <-> In key ReleaseNotes.SECTIONS)
  /\ (forall section, snd st = Some section -> In section ReleaseNotes.SECTIONS)
  /\ (forall key entries,
        fst st !! key = Some entries ->
        entries `sublist_of` map rstrip done /\ Forall entry entries).

(** The line is no heading of a category: it is no heading at all, or
    its trimmed text is not one of the six names. *)
Definition no_category (raw_line : string) : Prop :=
  match ReleaseNotes.heading_match (rstrip raw_line) with
  | Some g => ~ In (strip g) ReleaseNotes.SECTIONS
  | None => True
  end.

(** A cell as a table row writes it: no white space at its ends and no
    pipe in it (it may be empty). *)
Definition cell_text (cell : string) : bool :=
  trimmed cell && Lines.every (fun c => negb (ascii_eqb c "|"%char)) cell.

(** The cells of a table line between its outer pipes, each with a space
    on either side. *)
Fixpoint padded_cells (cells : list string) : string :=
  match cells with
  | [] => EmptyString
  | [cell] => " " +:+ cell +:+ " "
  | cell :: cells' => " " +:+ cell +:+ " |" +:+ padded_cells cells'
  end.

(** A table line: [| cell | cell | ... |]. *)
Definition table_line (cells : list string) : string :=
  "|" +:+ padded_cells cells +:+ "|".

(** The character is not an opening parenthesis. *)
Definition not_lparen (c : ascii) : bool := negb (ascii_eqb c "("%char).

End Shapes.

(** ** Concrete inputs used by the examples below *)

Module Fixtures.

(** A superseded plan that carries its marker but never names its
    successor, and a successor that does name the plan it replaces. *)
Definition old_plan_silent : string :=
  "# Old plan
**Lifecycle:** Superseded
".

Definition old_plan_citing : string :=
  "# Old plan
**Lifecycle:** Superseded
Superseded by new.md
".

Definition new_plan : string :=
  "# New plan
**Lifecycle:** Active
Replaces docs/plans/old.md
".

Definition plans_silent : gmap string string :=
  <["docs/plans/old.md" := old_plan_silent]>
    (<["docs/plans/new.md" := new_plan]> ∅).

Definition plans_citing : gmap string string :=
  <["docs/plans/old.md" := old_plan_citing]>
    (<["docs/plans/new.md" := new_plan]> ∅).

Definition superseded_row : list string :=
  ["`old.md`"; "Superseded"; "`new.md`"; "replaced"].

(** An Unreleased body whose alignment block declares phase M2. *)
Definition unreleased_m2 : string :=
  "### Roadmap Alignment
- Current roadmap phase: M2
- Roadmap last updated: 2024-05-01

### Added
- Thing one
".

Definition alignment_block_m2 : string :=
  "- Current roadmap phase: M2
- Roadmap last updated: 2024-05-01

".

Definition changelog : string :=
  "# Changelog

## [Unreleased]
### Roadmap Alignment
- Current roadmap phase: M3
- Roadmap last updated: 2024-05-01

### Security
- Patched the parser

### Fixed
- Thing two

## [0.1.0]
### Added
- First release
".

Definition roadmap : string :=
  "# Roadmap
**Current Phase:** M3
**Last Updated:** 2024-05-01
".

Definition docs : gmap string string :=
  <["CHANGELOG.md" := changelog]>
    (<["docs/project/roadmap.md" := roadmap]> ∅).

Definition cli : ReleaseNotes.args :=
  ReleaseNotes.Args "v0.3.0" "CHANGELOG.md" "docs/project/roadmap.md" "notes.md".

(** A registry whose only row is an Active plan without its marker. *)
Definition registry_active : string :=
  "| Plan | Status | Superseded By | Notes |
|------|--------|---------------|-------|
| `draft.md` | Active | - | in progress |
".

Definition draft_plan : string :=
  "# Draft
No marker here.
".

Definition repo_active : gmap string string :=
  <["docs/plans/PLAN_LIFECYCLE.md" := registry_active]>
    (<["docs/plans/draft.md" := draft_plan]> ∅).



(** A registry with the header and the separator only. *)
Definition registry_bare : string :=
  "| Plan | Status | Superseded By | Notes |
|------|--------|---------------|-------|
".

Definition repo_bare : gmap string string :=
  <["docs/plans/PLAN_LIFECYCLE.md" := registry_bare]> ∅.

(** A table line whose first cell is a run of dashes and whose other cells
    are not. *)
Definition dashed_first_cell : string := "| --- | a | b | c |".

(** A registry with a header, a separator and two rows, one of them with
    a fifth column. *)
Definition registry : string :=
  "# Plan lifecycle

| Plan | Status | Superseded By | Notes |
|------|--------|---------------|-------|
| `old.md` | Superseded | `new.md` | replaced | extra |
| `new.md` | Active | - | current |
".

(** A changelog whose Unreleased section is there but has no body. *)
Definition changelog_empty_unreleased : string :=
  "# Changelog

## [Unreleased]
## [0.1.0]
### Added
- First release
".

Definition repo_empty_unreleased : gmap string string :=
  <["CHANGELOG.md" := changelog_empty_unreleased]>
    (<["docs/project/roadmap.md" := roadmap]> ∅).

(** A changelog with a top-level heading inside its Unreleased section. *)
Definition changelog_appendix : string :=
  "## [Unreleased]
### Added
- Thing one
# Appendix
Not part of the release.
## [0.1.0]
- First release
".

(** An Unreleased body with a second-level heading after the alignment
    block. *)
Definition unreleased_notes : string :=
  "### Roadmap Alignment
- Current roadmap phase: M3
## Notes
- Thing one
".


(** A template with two of the required headings. *)
Definition template_short : string :=
  "# Release notes
## Milestone
Text before ### Added on one line
".

Definition repo_template : gmap string string :=
  {[ Governance.RELEASE_TEMPLATE_PATH := template_short ]}.

(** A roadmap that links one plan twice and another plan once. *)
Definition roadmap_linked : string :=
  "See [the old plan](../plans/old.md), [the new plan](../plans/new.md)
and again [the old one](../plans/old.md).
".

(** A changelog whose last line is the Unreleased heading, with no line
    feed after it. *)
Definition changelog_unterminated : string :=
  "# Changelog

## [Unreleased]".

(** A template with the eight required headings. *)
Definition template_full : string :=
  "## Milestone
## Release Summary
### Added
### Changed
### Deprecated
### Removed
### Fixed
### Security
".

(** A repository that passes every check. *)
Definition repo_passing : gmap string string :=
  <["docs/project/RELEASE_NOTES_TEMPLATE.md" := template_full]>
    (<["docs/plans/PLAN_LIFECYCLE.md" := registry]>
       (<["CHANGELOG.md" := changelog]>
          (<["docs/project/roadmap.md" := roadmap]> plans_citing))).

(** An Unreleased body whose headings are not category names. *)
Definition unreleased_unrecognised : string :=
  "### added
- Thing one
### Roadmap Alignment
- Current roadmap phase: M3
".

(** A roadmap that ends in a phase label with nothing but a space after
    it. *)
Definition roadmap_blank_phase : string :=
  "# Roadmap
**Last Updated:** 2024-05-01
**Current Phase:** ".

(** The four required files, all empty. *)
Definition repo_blank : gmap string string :=
  <["docs/project/roadmap.md" := EmptyString]>
    (<["CHANGELOG.md" := EmptyString]>
       (<["docs/plans/PLAN_LIFECYCLE.md" := EmptyString]>
          (<["docs/project/RELEASE_NOTES_TEMPLATE.md" := EmptyString]> ∅))).

End Fixtures.

(** * Properties *)

Import Py Re.

(** ** Plan lifecycle: supersession (C1) *)

Section Supersession.

Import Governance.

Variable fs : gmap string string.
Variables plan_cell superseded_by_cell notes : string.
Variables plan_rel superseded_rel plan_text target_text : string.
Variable errors : list string.
Variable superseded_count : nat.

Hypothesis plan_cell_ok : parse_code_path plan_cell = Some plan_rel.
Hypothesis plan_rel_ok : no_path (Some plan_rel) = false.
Hypothesis plan_exists : fs !! plans_path plan_rel = Some plan_text.
Hypothesis target_cell_ok : parse_code_path superseded_by_cell = Some superseded_rel.
Hypothesis target_rel_ok : no_path (Some superseded_rel) = false.
Hypothesis target_exists : fs !! plans_path superseded_rel = Some target_text.
Hypothesis marker : contains "**Lifecycle:** Superseded" plan_text = true.

(** The outcome of the loop body on such a row depends on one test only:
    whether the text of the superseded plan names the target. *)
Lemma superseded_row_outcome :
  lifecycle_row fs (errors, superseded_count)
    [plan_cell; "Superseded"; superseded_by_cell; notes]
  = (if contains superseded_rel plan_text then errors
     else errors ++ [unreferenced_error superseded_rel plan_rel],
     S superseded_count).
Proof.
  unfold lifecycle_row.
  rewrite plan_cell_ok, plan_rel_ok. simpl mem. cbv iota.
  rewrite plan_exists. simpl String.eqb. cbv iota.
  rewrite marker, target_cell_ok, target_rel_ok, target_exists.
  unfold active_check. simpl String.eqb. simpl andb.
  destruct (contains superseded_rel plan_text); reflexivity.
Qed.

End Supersession.

(** C1 (as amended).  A lifecycle row with status Superseded whose plan
    file and target file both exist and whose plan text holds the
    Superseded marker adds no error when the text of the superseded plan
    itself contains the target path, and adds exactly the one
    unreferenced-supersession error when it does not.  The text of the
    target file plays no part. *)
Theorem superseded_row_reference
  (fs : gmap string string)
  (plan_cell superseded_by_cell notes : string)
  (plan_rel superseded_rel plan_text target_text : string)
  (errors : list string) (superseded_count : nat) :
  Governance.parse_code_path plan_cell = Some plan_rel ->
  Governance.no_path (Some plan_rel) = false ->
  fs !! Governance.plans_path plan_rel = Some plan_text ->
  Governance.parse_code_path superseded_by_cell = Some superseded_rel ->
  Governance.no_path (Some superseded_rel) = false ->
  fs !! Governance.plans_path superseded_rel = Some target_text ->
  contains "**Lifecycle:** Superseded" plan_text = true ->
  let row := [plan_cell; "Superseded"; superseded_by_cell; notes] in
  (contains superseded_rel plan_text = true ->
   Governance.lifecycle_row fs (errors, superseded_count) row
   = (errors, S superseded_count))
  /\ (contains superseded_rel plan_text = false ->
      Governance.lifecycle_row fs (errors, superseded_count) row
      = (errors ++ [Governance.unreferenced_error superseded_rel plan_rel],
         S superseded_count)).
Proof.
  intros H1 H2 H3 H4 H5 H6 H7 row. subst row.
  rewrite (superseded_row_outcome fs plan_cell superseded_by_cell notes
             plan_rel superseded_rel plan_text target_text errors
             superseded_count H1 H2 H3 H4 H5 H6 H7).
  split; intros ->; reflexivity.
Qed.

Lemma superseded_row_reference_witness :
  Governance.lifecycle_row Fixtures.plans_citing ([], 0) Fixtures.superseded_row
  = ([], 1).
Proof.
  refine (proj1 (superseded_row_reference Fixtures.plans_citing
                   "`old.md`" "`new.md`" "replaced" "old.md" "new.md"
                   Fixtures.old_plan_citing Fixtures.new_plan [] 0
                   _ _ _ _ _ _ _) _);
    vm_compute; reflexivity.
Defined.

(** C1 as stated fails: here the target file names the superseded plan, the
    plan carries its marker and both files exist, yet the row is not free
    of errors, because the superseded plan does not name the target. *)
Lemma target_back_reference_counterexample :
  Fixtures.plans_silent !! "docs/plans/old.md" = Some Fixtures.old_plan_silent
  /\ Fixtures.plans_silent !! "docs/plans/new.md" = Some Fixtures.new_plan
  /\ contains "**Lifecycle:** Superseded" Fixtures.old_plan_silent = true
  /\ contains "docs/plans/old.md" Fixtures.new_plan = true
  /\ Governance.lifecycle_row Fixtures.plans_silent ([], 0) Fixtures.superseded_row
     = (["Superseded source missing explicit target reference 'new.md': docs/plans/old.md"],
        1).
Proof. repeat split; vm_compute; reflexivity. Qed.

(** ** Roadmap and changelog alignment (C3) *)

Lemma string_eqb_false (a b : string) : a <> b -> String.eqb a b = false.
Proof. intros H. apply String.eqb_neq. exact H. Qed.

(** The two mismatch messages can never be one and the same text. *)
Lemma mismatch_messages_differ (a b c d : string) :
  Governance.phase_mismatch a b <> Governance.updated_mismatch c d.
Proof. unfold Governance.phase_mismatch, Governance.updated_mismatch. discriminate. Qed.

(** A successful search has matched somewhere. *)
Lemma search_from_Some {A} (m : string -> option A) (bol : bool) (s : string)
  (r : A) :
  search_from m bol s = Some r -> exists t, m t = Some r.
Proof.
  revert bol. induction s as [|c s IH]; intros bol H; cbn [search_from] in H.
  - destruct bol; [|discriminate].
    destruct (m EmptyString) eqn:E; [|discriminate].
    injection H as <-. exists EmptyString. exact E.
  - destruct (if bol then m (String c s) else None) eqn:E.
    + injection H as <-. destruct bol; [|discriminate].
      exists (String c s). exact E.
    + apply (IH _ H).
Qed.

Lemma digit_not_space (c : ascii) : isdigit c = true -> isspace c = false.
Proof.
  destruct c as [[] [] [] [] [] [] [] []]; vm_compute; congruence.
Qed.

Lemma match_classes_first (p : ascii -> bool) (classes : list (ascii -> bool))
  (s d r : string) :
  match_classes (p :: classes) s = Some (d, r) ->
  exists c d', d = String c d' /\ p c = true.
Proof.
  cbn [match_classes]. destruct s as [|c s]; [discriminate|].
  destruct (p c) eqn:Hc; [|discriminate].
  destruct (match_classes classes s) as [[d' r']|]; [|discriminate].
  intros H. injection H as <- _. exists c, d'. split; [reflexivity | exact Hc].
Qed.

(** The date that the date pattern has matched is not changed by [strip]
    into the empty text. *)
Lemma date_group_not_blank (s d : string) :
  spaces_then_date s = Some d -> is_empty (strip d) = false.
Proof.
  unfold spaces_then_date.
  destruct (match_classes DATE (drop_while isspace s)) as [[d' rest]|] eqn:E;
    [|discriminate].
  destruct (at_eol rest); [|discriminate]. intros H. injection H as <-.
  unfold DATE in E. apply match_classes_first in E as (c & d0 & -> & Hc).
  unfold strip, lstrip, rstrip. cbn [drop_while].
  rewrite (digit_not_space c Hc). cbn [drop_while_end].
  rewrite (digit_not_space c Hc), andb_false_r. reflexivity.
Qed.

(** When the roadmap gives a phase that is not blank and a date, and the
    changelog has an Unreleased section with an alignment block, the driver
    runs the alignment validator on the parsed values and adds nothing
    else. *)
Lemma check_alignment_runs (roadmap changelog p d unreleased block : string)
  (errors : list string) :
  Governance.phase_match roadmap = Some p ->
  Governance.date_match roadmap = Some d ->
  is_empty (strip p) = false ->
  Governance.unreleased_match changelog = Some unreleased ->
  Governance.block_match unreleased = Some block ->
  Governance.check_alignment roadmap changelog errors
  = Governance.validate_roadmap_alignment_block (strip p) (strip d) unreleased
      errors.
Proof.
  intros Hp Hd Hphase Hu Hb.
  unfold Governance.check_alignment, Governance.parse_roadmap_metadata,
    Governance.extract_unreleased.
  rewrite Hp, Hd, Hu. cbn [Governance.group_or_empty]. rewrite Hphase.
  assert (Hdate : is_empty (strip d) = false).
  { unfold Governance.date_match, search_bol in Hd.
    apply search_from_Some in Hd as (t & Ht). unfold labelled in Ht.
    destruct (String.prefix _ t); [|discriminate].
    apply (date_group_not_blank _ _ Ht). }
  rewrite Hdate.
  destruct unreleased as [|c u]; [discriminate|]. reflexivity.
Qed.

(** With the block and both of its lines found, the validator compares the
    two fields one after the other and adds one message per field that
    differs. *)
Lemma alignment_block_errors
  (roadmap_phase roadmap_last_updated unreleased block phase updated : string)
  (errors : list string) :
  Governance.block_match unreleased = Some block ->
  Governance.block_phase_match block = Some phase ->
  Governance.block_updated_match block = Some updated ->
  Governance.validate_roadmap_alignment_block
    roadmap_phase roadmap_last_updated unreleased errors
  = errors
    ++ (if String.eqb (strip phase) roadmap_phase then []
        else [Governance.phase_mismatch roadmap_phase (strip phase)])
    ++ (if String.eqb (strip updated) roadmap_last_updated then []
        else [Governance.updated_mismatch roadmap_last_updated (strip updated)]).
Proof.
  intros Hb Hp Hu. unfold Governance.validate_roadmap_alignment_block.
  rewrite Hb, Hp, Hu.
  destruct (String.eqb (strip phase) roadmap_phase),
    (String.eqb (strip updated) roadmap_last_updated);
    simpl; rewrite ?app_nil_r, <- ?app_assoc; reflexivity.
Qed.

(** C3.  When the alignment block and both of its lines are present, the
    alignment validator adds nothing if the phase and the date of the
    changelog equal those of the roadmap; if exactly one of the two fields
    differs it adds exactly the mismatch message of that field; if both
    differ it adds the two messages, one per field, and the two are
    different messages.  For a roadmap that gives the phase (not blank) and
    the date, and a changelog whose Unreleased section holds the block,
    this is all that the driver adds for the pair. *)
Theorem alignment_one_error_per_differing_field
  (roadmap_phase roadmap_last_updated unreleased block phase updated : string)
  (errors : list string) :
  Governance.block_match unreleased = Some block ->
  Governance.block_phase_match block = Some phase ->
  Governance.block_updated_match block = Some updated ->
  let result :=
    Governance.validate_roadmap_alignment_block
      roadmap_phase roadmap_last_updated unreleased errors in
  let phase_error := Governance.phase_mismatch roadmap_phase (strip phase) in
  let updated_error :=
    Governance.updated_mismatch roadmap_last_updated (strip updated) in
  (strip phase = roadmap_phase -> strip updated = roadmap_last_updated ->
   result = errors)
  /\ (strip phase <> roadmap_phase -> strip updated = roadmap_last_updated ->
      result = errors ++ [phase_error])
  /\ (strip phase = roadmap_phase -> strip updated <> roadmap_last_updated ->
      result = errors ++ [updated_error])
  /\ (strip phase <> roadmap_phase -> strip updated <> roadmap_last_updated ->
      result = errors ++ [phase_error; updated_error])
  /\ phase_error <> updated_error
  /\ (forall roadmap changelog p d,
        Governance.phase_match roadmap = Some p ->
        Governance.date_match roadmap = Some d ->
        strip p = roadmap_phase -> strip d = roadmap_last_updated ->
        is_empty roadmap_phase = false ->
        Governance.unreleased_match changelog = Some unreleased ->
        Governance.check_alignment roadmap changelog errors = result).
Proof.
  intros Hb Hp Hu result phase_error updated_error.
  subst result phase_error updated_error.
  assert (Hpair : forall roadmap changelog p d,
            Governance.phase_match roadmap = Some p ->
            Governance.date_match roadmap = Some d ->
            strip p = roadmap_phase -> strip d = roadmap_last_updated ->
            is_empty roadmap_phase = false ->
            Governance.unreleased_match changelog = Some unreleased ->
            Governance.check_alignment roadmap changelog errors
            = Governance.validate_roadmap_alignment_block
                roadmap_phase roadmap_last_updated unreleased errors).
  { intros roadmap changelog p d H1 H2 <- <- H5 H6.
    apply (check_alignment_runs roadmap changelog p d unreleased block);
      assumption. }
  rewrite (alignment_block_errors _ _ _ _ _ _ _ Hb Hp Hu) in *.
  repeat split; [| | | | |exact Hpair].
  - intros H1 H2. rewrite H1, H2, !String.eqb_refl. simpl. apply app_nil_r.
  - intros H1 H2. rewrite (string_eqb_false _ _ H1), H2, String.eqb_refl.
    reflexivity.
  - intros H1 H2. rewrite H1, String.eqb_refl, (string_eqb_false _ _ H2).
    reflexivity.
  - intros H1 H2. rewrite (string_eqb_false _ _ H1), (string_eqb_false _ _ H2).
    reflexivity.
  - apply mismatch_messages_differ.
Qed.

Lemma alignment_one_error_per_differing_field_witness :
  Governance.validate_roadmap_alignment_block
    "M3" "2024-05-01" Fixtures.unreleased_m2 []
  = ["Roadmap/Changelog phase mismatch: roadmap='M3', changelog='M2'"].
Proof.
  refine (proj1 (proj2 (alignment_one_error_per_differing_field
                          "M3" "2024-05-01" Fixtures.unreleased_m2
                          Fixtures.alignment_block_m2 "M2" "2024-05-01" []
                          _ _ _)) _ _);
    vm_compute; first [reflexivity | discriminate].
Defined.

(** ** The generator never writes on failure (C7) *)

Section FailFast.

Import ReleaseNotes.

Variable a : args.
Variable fs : gmap string string.


End FailFast.



(** ** Plan lifecycle: the supersession history (C5) *)

Section History.

Import Governance Rows.

Variable fs : gmap string string.

(** The loop body only appends to the errors and only adds to the count. *)
Lemma lifecycle_row_appends (errors : list string) (n : nat) (row : list string) :
  lifecycle_row fs (errors, n) row
  = (errors ++ fst (row_result fs row), n + snd (row_result fs row)).
Proof.
  unfold row_result, lifecycle_row, active_check.
  repeat case_match; subst; cbn [fst snd app];
    rewrite ?app_nil_r, <- ?app_assoc; cbn [app];
    f_equal; lia.
Qed.

(** A row is counted exactly when it reaches the status checks with status
    Superseded. *)
Lemma row_result_count (row : list string) :
  snd (row_result fs row) = if counted fs row then 1 else 0.
Proof.
  unfold row_result, counted, reaches_status_checks, row_status, lifecycle_row,
    active_check.
  destruct row as [|plan_cell [|status [|by_cell [|notes [|]]]]];
    try reflexivity.
  cbn [nth].
  destruct (parse_code_path plan_cell) as [plan_rel|]; [|reflexivity].
  destruct (no_path (Some plan_rel)); [reflexivity|].
  destruct (fs !! plans_path plan_rel) as [plan_text|] eqn:Hfile.
  - rewrite bool_decide_eq_true_2 by eauto. cbn [negb andb].
    destruct (String.eqb status "Superseded"); [|reflexivity].
    repeat case_match; reflexivity.
  - rewrite bool_decide_eq_false_2 by (intros [? ?]; discriminate).
    cbn [negb andb]. repeat case_match; reflexivity.
Qed.


Lemma lifecycle_loop (rows : list (list string)) (errors : list string) (n : nat) :
  foldl (lifecycle_row fs) (errors, n) rows
  = (errors ++ row_errors fs rows, n + length (filter (fun row => counted fs row = true) rows)).
Proof.
  revert errors n. induction rows as [|row rows IH]; intros errors n.
  - cbn. rewrite app_nil_r. f_equal. lia.
  - cbn [foldl]. rewrite lifecycle_row_appends, IH.
    unfold row_errors. cbn [map concat]. rewrite <- app_assoc.
    rewrite row_result_count, filter_cons.
    destruct (counted fs row); cbn.
    + rewrite decide_True by reflexivity. cbn. f_equal. lia.
    + rewrite decide_False by discriminate. f_equal. lia.
Qed.

Lemma none_counted (rows : list (list string)) :
  (length (filter (fun row => counted fs row = true) rows) =? 0)
  = negb (existsb (counted fs) rows).
Proof.
  induction rows as [|row rows IH]; [reflexivity|].
  rewrite filter_cons. cbn [existsb].
  destruct (counted fs row).
  - rewrite decide_True by reflexivity. reflexivity.
  - rewrite decide_False by discriminate. exact IH.
Qed.

(** The whole of the loop and the check after it: the check adds its one
    message exactly when no row was counted. *)
Lemma lifecycle_rows_errors (rows : list (list string)) (errors : list string) :
  lifecycle_rows fs rows errors
  = errors ++ row_errors fs rows
    ++ (if existsb (counted fs) rows then [] else [no_history_error]).
Proof.
  unfold lifecycle_rows. rewrite lifecycle_loop. cbn [Nat.add].
  rewrite none_counted.
  destruct (existsb (counted fs) rows); cbn [negb].
  - rewrite app_nil_r. reflexivity.
  - rewrite <- app_assoc. reflexivity.
Qed.



End History.




(** ** The table parser (C4, C9) *)

Section TableParser.

Import Governance Table.

(** One turn of the loop keeps the first four cells of an accepted line and
    skips any other line. *)
Lemma parse_table_line_accepted (rows : list (list string)) (line : string) :
  parse_table_line rows line
  = if accepted line then rows ++ [row_of line] else rows.
Proof.
  unfold parse_table_line, accepted, row_of, first_cell, candidate, cells_of.
  destruct (startswith (strip line) "|"); [|reflexivity].
  cbn [negb andb].
  destruct (line_cells (strip line)) as [|cell0 cells] eqn:E.
  - reflexivity.
  - cbn [hd]. rewrite Nat.ltb_antisym.
    destruct (4 <=? length (cell0 :: cells)); [|reflexivity].
    cbn [negb andb]. rewrite <- negb_orb.
    destruct (String.eqb cell0 "Plan" || only_char "-"%char cell0); reflexivity.
Qed.

Lemma parse_table_loop (lines : list string) (rows : list (list string)) :
  foldl parse_table_line rows lines
  = rows ++ map row_of (List.filter accepted lines).
Proof.
  revert rows. induction lines as [|line lines IH]; intros rows.
  - cbn. rewrite app_nil_r. reflexivity.
  - cbn [foldl List.filter]. rewrite IH, parse_table_line_accepted.
    destruct (accepted line); [|reflexivity].
    cbn [map]. rewrite <- app_assoc. reflexivity.
Qed.

Lemma parse_table_rows_filter (markdown : string) :
  parse_table_rows markdown
  = map row_of (List.filter accepted (splitlines markdown)).
Proof. unfold parse_table_rows. rewrite parse_table_loop. reflexivity. Qed.


End TableParser.

Lemma filter_accepted_none (lines : list string) :
  Forall (fun line => Table.accepted line = false) lines ->
  List.filter Table.accepted lines = [].
Proof.
  induction 1 as [|line lines Hline _ IH]; [reflexivity|].
  cbn. rewrite Hline. exact IH.
Qed.

Lemma filter_accepted_all (lines : list string) :
  Forall (fun line => Table.accepted line = true) lines ->
  List.filter Table.accepted lines = lines.
Proof.
  induction 1 as [|line lines Hline _ IH]; [reflexivity|].
  cbn. rewrite Hline, IH. reflexivity.
Qed.

Lemma not_candidate_not_accepted (line : string) :
  Table.candidate line = false -> Table.accepted line = false.
Proof. unfold Table.accepted. intros ->. reflexivity. Qed.

Lemma header_not_accepted (line : string) :
  Table.first_cell line = "Plan" -> Table.accepted line = false.
Proof.
  unfold Table.accepted. intros ->. cbn. rewrite andb_false_r. reflexivity.
Qed.

Lemma separator_not_accepted (line : string) :
  only_char "-"%char (Table.first_cell line) = true ->
  Table.accepted line = false.
Proof. unfold Table.accepted. intros ->. apply andb_false_r. Qed.

(** C4 (as amended).  [parse_table_rows] yields, in document order, the
    first four trimmed cells of exactly the lines that, once trimmed, start
    with a pipe and pass three tests: at least four cells, a first cell
    other than the header label [Plan], and a first cell that is not a
    non-empty run of dashes.  So a document whose pipe lines are a header
    row, a separator row and N data rows yields exactly the N rows of the
    data lines in their order. *)
Theorem parse_rows_accepts_in_order (markdown : string) :
  Governance.parse_table_rows markdown
  = map Table.row_of (List.filter Table.accepted (splitlines markdown))
  /\ (forall before header separator data after,
        splitlines markdown = before ++ header :: separator :: data ++ after ->
        Forall (fun line => Table.candidate line = false) (before ++ after) ->
        Table.first_cell header = "Plan" ->
        only_char "-"%char (Table.first_cell separator) = true ->
        Forall (fun line => Table.accepted line = true) data ->
        Governance.parse_table_rows markdown = map Table.row_of data
        /\ length (Governance.parse_table_rows markdown) = length data).
Proof.
  split; [apply parse_table_rows_filter|].
  intros before header separator data after Hlines Hother Hheader Hsep Hdata.
  assert (Hrows : Governance.parse_table_rows markdown = map Table.row_of data).
  { rewrite parse_table_rows_filter, Hlines.
    apply Forall_app in Hother as [Hbefore Hafter].
    rewrite List.filter_app. cbn [List.filter].
    rewrite (header_not_accepted _ Hheader), (separator_not_accepted _ Hsep).
    rewrite List.filter_app.
    rewrite (filter_accepted_none before), (filter_accepted_none after),
      (filter_accepted_all data Hdata).
    - rewrite app_nil_r. reflexivity.
    - eapply Forall_impl; [exact Hafter|]. apply not_candidate_not_accepted.
    - eapply Forall_impl; [exact Hbefore|]. apply not_candidate_not_accepted. }
  split; [exact Hrows|]. rewrite Hrows. apply length_map.
Qed.

Lemma parse_rows_accepts_in_order_witness :
  Governance.parse_table_rows Fixtures.registry
  = [["`old.md`"; "Superseded"; "`new.md`"; "replaced"];
     ["`new.md`"; "Active"; "-"; "current"]].
Proof.
  refine (proj1 (proj2 (parse_rows_accepts_in_order Fixtures.registry)
            ["# Plan lifecycle"; ""]
            "| Plan | Status | Superseded By | Notes |"
            "|------|--------|---------------|-------|"
            ["| `old.md` | Superseded | `new.md` | replaced | extra |";
             "| `new.md` | Active | - | current |"]
            [] _ _ _ _ _)).
  - vm_compute. reflexivity.
  - repeat constructor.
  - vm_compute. reflexivity.
  - vm_compute. reflexivity.
  - repeat constructor.
Defined.

(** C4 as stated fails: this line starts with a pipe, has four cells, its
    first cell is not the header label and not all characters of its cells
    are dashes, so none of the three stated tests rejects it; the parser
    rejects it all the same, because its first cell is a run of dashes. *)
Lemma dashed_first_cell_counterexample :
  Table.candidate Fixtures.dashed_first_cell = true
  /\ Table.cells_of Fixtures.dashed_first_cell = ["---"; "a"; "b"; "c"]
  /\ Table.stated_rejected Fixtures.dashed_first_cell = false
  /\ Table.stated_parse_rows Fixtures.dashed_first_cell = [["---"; "a"; "b"; "c"]]
  /\ Governance.parse_table_rows Fixtures.dashed_first_cell = [].
Proof. repeat split; vm_compute; reflexivity. Qed.






(** ** The driver runs the alignment check on non-empty values only (C10) *)

Section Driver.

Import Governance Kinds.

Variable fs : gmap string string.

Lemma no_alignment_error_snoc (errors : list string) (e : string) :
  no_alignment_error errors -> is_alignment_error e = false ->
  no_alignment_error (errors ++ [e]).
Proof.
  intros H He. apply Forall_app. split; [exact H|].
  apply Forall_cons. split; [exact He | apply Forall_nil; exact I].
Qed.

Lemma read_text_clean (path : string) (errors : list string) :
  no_alignment_error errors ->
  no_alignment_error (snd (read_text fs path errors)).
Proof.
  intros H. unfold read_text. destruct (fs !! path); [exact H|].
  apply no_alignment_error_snoc; [exact H | reflexivity].
Qed.

Lemma validate_roadmap_links_clean (roadmap : string) (errors : list string) :
  no_alignment_error errors ->
  no_alignment_error (validate_roadmap_links fs roadmap errors).
Proof.
  unfold validate_roadmap_links.
  generalize (sorted_set (findall_links 0 roadmap)). intros links.
  revert errors. induction links as [|rel links IH]; intros errors H.
  - exact H.
  - cbn [foldl]. apply IH. destruct (fs !! resolve_link rel); [exact H|].
    apply no_alignment_error_snoc; [exact H | reflexivity].
Qed.

Lemma parse_roadmap_metadata_clean (roadmap : string) (errors : list string) :
  no_alignment_error errors ->
  no_alignment_error (snd (parse_roadmap_metadata roadmap errors)).
Proof.
  intros H. unfold parse_roadmap_metadata. cbn [snd].
  destruct (phase_match roadmap), (date_match roadmap);
    repeat (apply no_alignment_error_snoc; [|reflexivity]); exact H.
Qed.

Lemma extract_unreleased_clean (changelog : string) (errors : list string) :
  no_alignment_error errors ->
  no_alignment_error (snd (extract_unreleased changelog errors)).
Proof.
  intros H. unfold extract_unreleased.
  destruct (unreleased_match changelog); [exact H|].
  apply no_alignment_error_snoc; [exact H | reflexivity].
Qed.

Lemma row_result_clean (row : list string) :
  no_alignment_error (fst (Rows.row_result fs row)).
Proof.
  unfold Rows.row_result, lifecycle_row, active_check, no_alignment_error.
  repeat case_match; subst; cbn [fst app];
    repeat (apply Forall_app; split);
    repeat first [apply Forall_nil | apply Forall_cons; split].
  all: first [reflexivity | exact I].
Qed.

Lemma row_errors_clean (rows : list (list string)) :
  no_alignment_error (Rows.row_errors fs rows).
Proof.
  unfold Rows.row_errors. induction rows as [|row rows IH]; cbn.
  - constructor.
  - apply Forall_app. split; [apply row_result_clean | exact IH].
Qed.

Lemma validate_plan_lifecycle_clean (errors : list string) :
  no_alignment_error errors ->
  no_alignment_error (validate_plan_lifecycle fs errors).
Proof.
  intros H. unfold validate_plan_lifecycle.
  pose proof (read_text_clean PLAN_LIFECYCLE_PATH errors H) as Hread.
  destruct (read_text fs PLAN_LIFECYCLE_PATH errors) as [lifecycle errors'].
  cbn [snd] in Hread.
  destruct (is_empty lifecycle); [exact Hread|].
  destruct (parse_table_rows lifecycle) as [|row rows].
  - apply no_alignment_error_snoc; [exact Hread | reflexivity].
  - rewrite lifecycle_rows_errors.
    apply Forall_app. split; [exact Hread|].
    apply Forall_app. split; [apply row_errors_clean|].
    destruct (existsb _ _); [constructor|].
    apply Forall_cons. split; [reflexivity | constructor].
Qed.

Lemma validate_release_template_clean (errors : list string) :
  no_alignment_error errors ->
  no_alignment_error (validate_release_template fs errors).
Proof.
  intros H. unfold validate_release_template.
  pose proof (read_text_clean RELEASE_TEMPLATE_PATH errors H) as Hread.
  destruct (read_text fs RELEASE_TEMPLATE_PATH errors) as [template errors'].
  cbn [snd] in Hread.
  destruct (is_empty template); [exact Hread|].
  generalize REQUIRED_TEMPLATE_HEADINGS. intros headings.
  revert errors' Hread. induction headings as [|heading headings IH];
    intros errors' Hread.
  - exact Hread.
  - cbn [foldl]. apply IH. destruct (contains heading template); [exact Hread|].
    apply no_alignment_error_snoc; [exact Hread | reflexivity].
Qed.

(** What the alignment validator adds is made of alignment errors only, so
    the classification above is the one of its own messages. *)
Lemma alignment_block_adds_alignment_errors
  (roadmap_phase roadmap_last_updated unreleased : string) (errors : list string) :
  exists added,
    validate_roadmap_alignment_block roadmap_phase roadmap_last_updated
      unreleased errors = errors ++ added
    /\ Forall (fun e => is_alignment_error e = true) added.
Proof.
  unfold validate_roadmap_alignment_block.
  destruct (block_match unreleased) as [block|].
  - destruct (block_phase_match block) as [phase|],
      (block_updated_match block) as [updated|];
      repeat case_match;
      rewrite <- ?app_assoc;
      first [ eexists; split; [reflexivity|]
            | exists []; split; [symmetry; apply app_nil_r|] ];
      repeat constructor.
  - eexists. split; [reflexivity|]. repeat constructor.
Qed.

(** [check_alignment] parses, and then runs the alignment validator exactly
    when the three parsed values are not empty. *)
Lemma check_alignment_cases (roadmap changelog : string) (errors : list string) :
  check_alignment roadmap changelog errors
  = if all_present roadmap changelog
    then validate_roadmap_alignment_block
           (parsed_phase roadmap) (parsed_updated roadmap)
           (unreleased_body changelog) (parsing_errors roadmap changelog errors)
    else parsing_errors roadmap changelog errors.
Proof.
  unfold check_alignment, all_present, parsed_phase, parsed_updated,
    unreleased_body, parsing_errors, parse_roadmap_metadata, extract_unreleased.
  cbn [fst snd].
  destruct (unreleased_match changelog); reflexivity.
Qed.

Lemma check_alignment_clean (roadmap changelog : string) (errors : list string) :
  all_present roadmap changelog = false ->
  no_alignment_error errors ->
  no_alignment_error (check_alignment roadmap changelog errors).
Proof.
  intros Hskip H. rewrite check_alignment_cases, Hskip.
  apply extract_unreleased_clean, parse_roadmap_metadata_clean, H.
Qed.

(** When the driver does not run the alignment validator, none of its
    errors is an alignment error. *)
Lemma main_errors_clean :
  is_empty (roadmap_of fs) || is_empty (changelog_of fs)
  || negb (all_present (roadmap_of fs) (changelog_of fs)) = true ->
  no_alignment_error (main_errors fs).
Proof.
  unfold roadmap_of, changelog_of, main_errors. intros Hskip.
  assert (H0 : no_alignment_error []) by constructor.
  pose proof (read_text_clean ROADMAP_PATH [] H0) as H1.
  destruct (read_text fs ROADMAP_PATH []) as [roadmap errors1] eqn:E1.
  cbn [fst snd] in *.
  assert (Efst : fst (read_text fs CHANGELOG_PATH errors1)
                 = fst (read_text fs CHANGELOG_PATH [])).
  { unfold read_text. destruct (fs !! CHANGELOG_PATH); reflexivity. }
  pose proof (read_text_clean CHANGELOG_PATH errors1 H1) as H2.
  destruct (read_text fs CHANGELOG_PATH errors1) as [changelog errors2] eqn:E2.
  cbn [fst snd] in *. rewrite <- Efst in Hskip.
  apply validate_release_template_clean, validate_plan_lifecycle_clean.
  set (errors3 := if negb (is_empty roadmap)
                  then validate_roadmap_links fs roadmap errors2 else errors2).
  assert (H3 : no_alignment_error errors3).
  { subst errors3. destruct (negb (is_empty roadmap)); [|exact H2].
    apply validate_roadmap_links_clean, H2. }
  destruct (is_empty roadmap), (is_empty changelog); cbn [negb andb orb] in *;
    try exact H3.
  apply check_alignment_clean; [|exact H3].
  apply negb_true_iff, Hskip.
Qed.

End Driver.

(** C10.  The driver runs the alignment validator exactly when the parsed
    roadmap phase, the parsed roadmap date and the extracted Unreleased body
    are all non-empty (and only if both texts were read and are not empty).
    Whenever one of them is empty or absent, among them the case of an
    Unreleased section that is present with an empty body, no error of the
    whole run is an alignment error: not the missing-block error, not a
    missing-line error, not a mismatch.  The alignment errors are the
    messages that the alignment validator adds. *)
Theorem alignment_runs_on_present_values (fs : gmap string string) :
  (forall roadmap changelog errors,
     Governance.check_alignment roadmap changelog errors
     = if Kinds.all_present roadmap changelog
       then Governance.validate_roadmap_alignment_block
              (Kinds.parsed_phase roadmap) (Kinds.parsed_updated roadmap)
              (Kinds.unreleased_body changelog)
              (Kinds.parsing_errors roadmap changelog errors)
       else Kinds.parsing_errors roadmap changelog errors)
  /\ (is_empty (Kinds.roadmap_of fs) || is_empty (Kinds.changelog_of fs)
      || is_empty (Kinds.parsed_phase (Kinds.roadmap_of fs))
      || is_empty (Kinds.parsed_updated (Kinds.roadmap_of fs))
      || is_empty (Kinds.unreleased_body (Kinds.changelog_of fs)) = true ->
      Kinds.no_alignment_error (Governance.main_errors fs))
  /\ (forall changelog,
        fs !! Governance.CHANGELOG_PATH = Some changelog ->
        Governance.unreleased_match changelog = Some EmptyString ->
        Kinds.no_alignment_error (Governance.main_errors fs))
  /\ (forall roadmap_phase roadmap_last_updated unreleased errors,
        exists added,
          Governance.validate_roadmap_alignment_block
            roadmap_phase roadmap_last_updated unreleased errors
          = errors ++ added
          /\ Forall (fun e => Kinds.is_alignment_error e = true) added).
Proof.
  repeat apply conj.
  - apply check_alignment_cases.
  - intros Hskip. apply main_errors_clean. unfold Kinds.all_present.
    destruct (is_empty (Kinds.roadmap_of fs)),
      (is_empty (Kinds.changelog_of fs)),
      (is_empty (Kinds.parsed_phase (Kinds.roadmap_of fs))),
      (is_empty (Kinds.parsed_updated (Kinds.roadmap_of fs))),
      (is_empty (Kinds.unreleased_body (Kinds.changelog_of fs)));
      first [reflexivity | discriminate].
  - intros changelog Hfile Hbody. apply main_errors_clean.
    unfold Kinds.all_present, Kinds.unreleased_body, Kinds.changelog_of,
      Governance.read_text, Governance.extract_unreleased.
    rewrite Hfile. cbn [fst]. rewrite Hbody. cbn [fst is_empty negb].
    rewrite andb_false_r. cbn [negb]. apply orb_true_r.
  - apply alignment_block_adds_alignment_errors.
Qed.

Lemma alignment_runs_on_present_values_witness :
  Kinds.no_alignment_error (Governance.main_errors Fixtures.repo_empty_unreleased).
Proof.
  refine (proj1 (proj2 (proj2
            (alignment_runs_on_present_values Fixtures.repo_empty_unreleased)))
            Fixtures.changelog_empty_unreleased _ _);
    vm_compute; reflexivity.
Defined.

(** ** The rendered release notes (C6) *)

Section Rendering.

Import ReleaseNotes Notes.

Lemma append_cons (c : ascii) (a b : string) :
  String c a +:+ b = String c (a +:+ b).
Proof. reflexivity. Qed.

Lemma append_nil_l (s : string) : EmptyString +:+ s = s.
Proof. reflexivity. Qed.

Lemma append_nil_r (s : string) : s +:+ EmptyString = s.
Proof.
  induction s as [|c s IH]; [reflexivity|].
  rewrite append_cons, IH. reflexivity.
Qed.

Lemma append_assoc (a b c : string) : (a +:+ b) +:+ c = a +:+ (b +:+ c).
Proof.
  induction a as [|x a IH]; [reflexivity|].
  rewrite !append_cons, IH. reflexivity.
Qed.

Lemma last_char_cons (c : ascii) (s : string) :
  exists d, last_char (String c s) = Some d.
Proof.
  revert c. induction s as [|x s IH]; intros c.
  - exists c. reflexivity.
  - destruct (IH x) as [d Hd]. exists d. exact Hd.
Qed.

Lemma last_char_append (a b : string) :
  last_char (a +:+ b) = match last_char b with
                        | Some c => Some c
                        | None => last_char a
                        end.
Proof.
  induction a as [|x a IH].
  - rewrite append_nil_l. destruct (last_char b); reflexivity.
  - rewrite append_cons.
    destruct a as [|y a].
    + rewrite append_nil_l. destruct b as [|z b]; [reflexivity|].
      destruct (last_char_cons z b) as [d Hd].
      change (last_char (String x (String z b))) with (last_char (String z b)).
      rewrite Hd. reflexivity.
    + rewrite append_cons in *. cbn [last_char] in *. exact IH.
Qed.

Lemma ends_nonspace_append (a b : string) :
  ends_nonspace b = true -> ends_nonspace (a +:+ b) = true.
Proof.
  unfold ends_nonspace. rewrite last_char_append.
  destruct (last_char b); [trivial | discriminate].
Qed.

(** Trailing white space is all that [rstrip] removes. *)
Lemma drop_while_end_fixed (p : ascii -> bool) (s : string) :
  match last_char s with Some c => p c = false | None => True end ->
  drop_while_end p s = s.
Proof.
  induction s as [|c s IH]; [reflexivity|].
  intros H. cbn [drop_while_end].
  destruct s as [|d s].
  - cbn in *. rewrite H. reflexivity.
  - rewrite IH by exact H. reflexivity.
Qed.

Lemma rstrip_fixed (s : string) : ends_nonspace s = true -> rstrip s = s.
Proof.
  unfold ends_nonspace, rstrip. intros H. apply drop_while_end_fixed.
  destruct (last_char s); [|exact I]. apply negb_true_iff, H.
Qed.














End Rendering.


(** The scenario of the specification: one entry under Added and nothing
    else. *)
Example render_added_only :
  ReleaseNotes.render_release_notes "v0.3.0" "M3" "2024-05-01"
    (ReleaseNotes.collect_section_items "### Added
- Thing one")
  = "## Milestone
- Version: v0.3.0
- Roadmap phase: M3
- Roadmap last updated: 2024-05-01

## Release Summary
- Notes generated from `CHANGELOG.md` `[Unreleased]` entries.
- Sections follow Keep a Changelog categories.

### Added
- Thing one

### Changed
- None

### Deprecated
- None

### Removed
- None

### Fixed
- None

### Security
- None
".
Proof. vm_compute. reflexivity. Qed.

(** The order of the categories in the changelog does not show in the
    output: Security comes before Fixed in this changelog and after it in
    the notes written. *)
Example render_reorders_categories :
  ReleaseNotes.files (ReleaseNotes.main Fixtures.cli Fixtures.docs) !! "notes.md"
  = Some "## Milestone
- Version: v0.3.0
- Roadmap phase: M3
- Roadmap last updated: 2024-05-01

## Release Summary
- Notes generated from `CHANGELOG.md` `[Unreleased]` entries.
- Sections follow Keep a Changelog categories.

### Added
- None

### Changed
- None

### Deprecated
- None

### Removed
- None

### Fixed
- Thing two

### Security
- Patched the parser
".
Proof. vm_compute. reflexivity. Qed.

(** ** Texts as lines *)

Section LineFacts.

Import Lines.

Lemma ascii_eqb_eq (a b : ascii) : ascii_eqb a b = true <-> a = b.
Proof. apply Ascii.eqb_eq. Qed.

Lemma ascii_eqb_refl (a : ascii) : ascii_eqb a a = true.
Proof. apply Ascii.eqb_refl. Qed.

Lemma prefix_cons (a b : ascii) (s t : string) :
  String.prefix (String a s) (String b t) = ascii_eqb a b && String.prefix s t.
Proof.
  cbn [String.prefix]. destruct (ascii_dec a b) as [->|Hne].
  - rewrite ascii_eqb_refl. reflexivity.
  - destruct (ascii_eqb a b) eqn:E; [|reflexivity].
    apply ascii_eqb_eq in E. contradiction.
Qed.

Lemma prefix_nil (t : string) : String.prefix EmptyString t = true.
Proof. destruct t; reflexivity. Qed.

Lemma prefix_append (s t : string) : String.prefix s (s +:+ t) = true.
Proof.
  induction s as [|c s IH]; [apply prefix_nil|].
  rewrite append_cons, prefix_cons, ascii_eqb_refl. exact IH.
Qed.

Lemma slice_from_append (s t : string) :
  slice_from (String.length s) (s +:+ t) = t.
Proof. induction s as [|c s IH]; [reflexivity|]. exact IH. Qed.

(** At the end of a line, a term without a line feed is a prefix of the
    text if and only if it is a prefix of the line. *)
Lemma prefix_of_line (term line rest : string) :
  one_line term = true -> at_eol rest = true ->
  String.prefix term (line +:+ rest) = String.prefix term line.
Proof.
  intros Hterm Hrest. revert line.
  induction term as [|a term IH]; intros line.
  - rewrite !prefix_nil. reflexivity.
  - cbn [one_line every] in Hterm. apply andb_true_iff in Hterm as [Ha Hterm].
    destruct line as [|b line].
    + rewrite append_nil_l. destruct rest as [|c rest]; [reflexivity|].
      cbn [at_eol] in Hrest. apply ascii_eqb_eq in Hrest. subst c.
      rewrite prefix_cons. unfold not_nl in Ha.
      apply negb_true_iff in Ha. rewrite Ha. reflexivity.
    + rewrite append_cons, !prefix_cons, (IH Hterm). reflexivity.
Qed.

(** A line followed by a line feed starts with another line followed by a
    line feed only if the two lines are the same. *)
Lemma prefix_line_eq (h line rest : string) :
  one_line h = true -> one_line line = true ->
  String.prefix (h +:+ String nl EmptyString) (line +:+ String nl rest) = true ->
  h = line.
Proof.
  revert line. induction h as [|a h IH]; intros line Hh Hline H.
  - destruct line as [|b line]; [reflexivity|].
    rewrite append_nil_l, append_cons, prefix_cons in H.
    apply andb_true_iff in H as [H _]. apply ascii_eqb_eq in H. subst b.
    cbn in Hline. discriminate.
  - cbn [one_line every] in Hh. apply andb_true_iff in Hh as [Ha Hh].
    destruct line as [|b line].
    + rewrite append_nil_l, append_cons, prefix_cons in H.
      apply andb_true_iff in H as [H _]. apply ascii_eqb_eq in H. subst a.
      cbn in Ha. discriminate.
    + cbn [one_line every] in Hline.
      apply andb_true_iff in Hline as [Hb Hline].
      rewrite !append_cons, prefix_cons in H.
      apply andb_true_iff in H as [Hab H]. apply ascii_eqb_eq in Hab. subst b.
      f_equal. apply (IH line Hh Hline H).
Qed.

(** The search does not try the pattern inside a line. *)
Lemma search_skip_line {A} (m : string -> option A) (line rest : string) :
  one_line line = true ->
  search_from m false (line +:+ String nl rest) = search_from m true rest.
Proof.
  induction line as [|c line IH]; intros Hline.
  - rewrite append_nil_l. cbn [search_from]. rewrite ascii_eqb_refl. reflexivity.
  - cbn [one_line every] in Hline. apply andb_true_iff in Hline as [Hc Hline].
    rewrite append_cons. cbn [search_from].
    unfold not_nl in Hc. apply negb_true_iff in Hc. rewrite Hc.
    apply IH, Hline.
Qed.

(** A line at which the pattern fails is passed over. *)
Lemma search_next_line {A} (m : string -> option A) (line rest : string) :
  one_line line = true ->
  m (line +:+ String nl rest) = None ->
  search_from m true (line +:+ String nl rest) = search_from m true rest.
Proof.
  intros Hline Hm.
  destruct line as [|c line].
  - rewrite append_nil_l in *. cbn [search_from]. rewrite Hm, ascii_eqb_refl.
    reflexivity.
  - rewrite append_cons in *. cbn [search_from]. rewrite Hm.
    cbn [one_line every] in Hline. apply andb_true_iff in Hline as [Hc Hline].
    unfold not_nl in Hc. apply negb_true_iff in Hc. rewrite Hc.
    apply search_skip_line, Hline.
Qed.

(** The pattern matches at the start of the text. *)
Lemma search_found {A} (m : string -> option A) (s : string) (r : A) :
  m s = Some r -> search_from m true s = Some r.
Proof. intros H. destruct s; cbn [search_from]; rewrite H; reflexivity. Qed.

Lemma search_inside_line {A} (m : string -> option A) (last : string) :
  one_line last = true -> search_from m false last = None.
Proof.
  induction last as [|c last IH]; intros Hlast; [reflexivity|].
  cbn [one_line every] in Hlast. apply andb_true_iff in Hlast as [Hc Hlast].
  unfold not_nl in Hc. apply negb_true_iff in Hc.
  cbn [search_from]. rewrite Hc. apply IH, Hlast.
Qed.

(** A last line without a line feed at which the pattern fails ends the
    search. *)
Lemma search_last_line {A} (m : string -> option A) (last : string) :
  one_line last = true -> m last = None -> search_from m true last = None.
Proof.
  intros Hlast Hm. destruct last as [|c last].
  - cbn. rewrite Hm. reflexivity.
  - cbn [search_from]. rewrite Hm.
    cbn [one_line every] in Hlast. apply andb_true_iff in Hlast as [Hc Hlast].
    unfold not_nl in Hc. apply negb_true_iff in Hc. rewrite Hc.
    apply search_inside_line, Hlast.
Qed.

Lemma lazy_body_skip (term line rest : string) :
  one_line line = true ->
  lazy_body term false (line +:+ String nl rest)
  = line +:+ String nl (lazy_body term true rest).
Proof.
  induction line as [|c line IH]; intros Hline.
  - rewrite !append_nil_l. cbn [lazy_body andb]. rewrite ascii_eqb_refl.
    reflexivity.
  - cbn [one_line every] in Hline. apply andb_true_iff in Hline as [Hc Hline].
    unfold not_nl in Hc. apply negb_true_iff in Hc.
    rewrite !append_cons. cbn [lazy_body andb]. rewrite Hc, (IH Hline).
    reflexivity.
Qed.

(** A line that does not start with the term belongs to the body. *)
Lemma lazy_body_next_line (term line rest : string) :
  one_line term = true -> one_line line = true ->
  String.prefix term line = false ->
  lazy_body term true (line +:+ String nl rest)
  = line +:+ String nl (lazy_body term true rest).
Proof.
  intros Hterm Hline Hprefix.
  assert (Hfull : String.prefix term (line +:+ String nl rest) = false).
  { rewrite prefix_of_line; [exact Hprefix | exact Hterm |].
    reflexivity. }
  destruct line as [|c line].
  - rewrite append_nil_l in *. cbn [lazy_body andb]. rewrite Hfull, ascii_eqb_refl.
    reflexivity.
  - rewrite append_cons in *. cbn [lazy_body andb]. rewrite Hfull.
    cbn [one_line every] in Hline. apply andb_true_iff in Hline as [Hc Hline].
    unfold not_nl in Hc. apply negb_true_iff in Hc. rewrite Hc.
    rewrite (lazy_body_skip term line rest Hline). reflexivity.
Qed.

Lemma lazy_body_rest_of_line (term last : string) :
  one_line last = true -> lazy_body term false last = last.
Proof.
  induction last as [|c last IH]; intros Hlast; [reflexivity|].
  cbn [one_line every] in Hlast. apply andb_true_iff in Hlast as [Hc Hlast].
  unfold not_nl in Hc. apply negb_true_iff in Hc.
  cbn [lazy_body andb]. rewrite Hc, (IH Hlast). reflexivity.
Qed.

(** A last line without a line feed that does not start with the term
    belongs to the body. *)
Lemma lazy_body_last_line (term last : string) :
  one_line last = true -> String.prefix term last = false ->
  lazy_body term true last = last.
Proof.
  intros Hlast Hprefix. destruct last as [|c last]; [reflexivity|].
  cbn [lazy_body andb]. rewrite Hprefix.
  cbn [one_line every] in Hlast. apply andb_true_iff in Hlast as [Hc Hlast].
  unfold not_nl in Hc. apply negb_true_iff in Hc. rewrite Hc.
  rewrite (lazy_body_rest_of_line term last Hlast). reflexivity.
Qed.

(** The body ends where a line starts with the term. *)
Lemma lazy_body_stop (term rest : string) :
  String.prefix term rest = true -> lazy_body term true rest = EmptyString.
Proof.
  intros H. destruct rest as [|c rest]; [reflexivity|].
  cbn [lazy_body andb]. rewrite H. reflexivity.
Qed.

End LineFacts.

(** ** Section extraction (C2) *)

Section SectionExtraction.

Import Lines.

Variables heading term : string.
Hypothesis heading_one_line : one_line heading = true.
Hypothesis term_one_line : one_line term = true.

Lemma section_at_heading (rest : string) :
  section_at heading term (heading +:+ String nl rest)
  = Some (lazy_body term true rest).
Proof.
  unfold section_at.
  change (String nl rest) with (String nl EmptyString +:+ rest).
  rewrite <- append_assoc, prefix_append, slice_from_append. reflexivity.
Qed.

Lemma section_at_other_line (line rest : string) :
  one_line line = true -> line <> heading ->
  section_at heading term (line +:+ String nl rest) = None.
Proof.
  intros Hline Hne. unfold section_at.
  destruct (String.prefix _ _) eqn:E; [|reflexivity].
  exfalso. apply Hne. symmetry.
  apply (prefix_line_eq heading line rest heading_one_line Hline E).
Qed.

Lemma search_passes_lines (before : list string) (rest : string) :
  Forall (fun line => one_line line = true) before ->
  Forall (fun line => line <> heading) before ->
  search_bol (section_at heading term) (unlines before +:+ rest)
  = search_bol (section_at heading term) rest.
Proof.
  unfold search_bol.
  induction before as [|line before IH]; intros Hlines Hne; [reflexivity|].
  apply Forall_cons in Hlines as [Hline Hlines].
  apply Forall_cons in Hne as [Hne1 Hne].
  cbn [unlines]. rewrite append_assoc, append_cons.
  rewrite search_next_line.
  - apply IH; assumption.
  - exact Hline.
  - apply section_at_other_line; assumption.
Qed.

Lemma lazy_body_lines (body : list string) (rest : string) :
  Forall (fun line => one_line line = true) body ->
  Forall (fun line => String.prefix term line = false) body ->
  lazy_body term true (unlines body +:+ rest)
  = unlines body +:+ lazy_body term true rest.
Proof.
  induction body as [|line body IH]; intros Hlines Hfree; [reflexivity|].
  apply Forall_cons in Hlines as [Hline Hlines].
  apply Forall_cons in Hfree as [Hfree1 Hfree].
  cbn [unlines]. rewrite !append_assoc, !append_cons.
  rewrite lazy_body_next_line by assumption.
  rewrite IH by assumption. reflexivity.
Qed.

(** The section found is the one of the first line equal to the heading;
    its body is made of the lines after it, up to the first line that
    starts with the term or to the end of the text. *)
Lemma section_found (before body : list string) (last rest : string) :
  Forall (fun line => one_line line = true) before ->
  Forall (fun line => line <> heading) before ->
  Forall (fun line => one_line line = true) body ->
  Forall (fun line => String.prefix term line = false) body ->
  one_line last = true ->
  String.prefix term last = false ->
  rest = EmptyString \/ (last = EmptyString /\ String.prefix term rest = true) ->
  search_bol (section_at heading term)
    (unlines before +:+ heading +:+ String nl (unlines body +:+ last +:+ rest))
  = Some (unlines body +:+ last).
Proof.
  intros Hb1 Hb2 Hl1 Hl2 Hlast Hfree Hrest.
  rewrite search_passes_lines by assumption.
  unfold search_bol. apply search_found.
  rewrite section_at_heading. f_equal.
  rewrite lazy_body_lines by assumption. f_equal.
  destruct Hrest as [-> | [-> Hstop]].
  - rewrite append_nil_r. apply lazy_body_last_line; assumption.
  - rewrite append_nil_l. apply lazy_body_stop, Hstop.
Qed.

End SectionExtraction.

(** C2 (as amended).  The Unreleased body runs from just after the first
    line that is exactly [## [Unreleased]] to just before the next line
    that starts with [## [], or to the end of the text; the Roadmap
    Alignment body runs from just after the first line that is exactly
    [### Roadmap Alignment] to just before the next line that starts with
    [### ] (three markers and a space), or to the end of the text.  No
    other line ends a body, whatever heading it is. *)
Theorem section_body_extent (before body : list string) (last rest : string) :
  (Lines.section_layout "## [Unreleased]" "## [" before body last rest ->
   let changelog := Lines.section_text "## [Unreleased]" before body last rest in
   Governance.unreleased_match changelog = Some (Lines.unlines body +:+ last)
   /\ ReleaseNotes.extract_unreleased changelog
      = inr (Lines.unlines body +:+ last))
  /\ (Lines.section_layout "### Roadmap Alignment" "### " before body last rest ->
      Governance.block_match
        (Lines.section_text "### Roadmap Alignment" before body last rest)
      = Some (Lines.unlines body +:+ last)).
Proof.
  split.
  - intros (H1 & H2 & H3 & H4 & H5 & H6 & H7) changelog.
    assert (H : Governance.unreleased_match changelog
                = Some (Lines.unlines body +:+ last)).
    { apply section_found; first [reflexivity | assumption]. }
    split; [exact H|].
    unfold ReleaseNotes.extract_unreleased.
    unfold Governance.unreleased_match in H. rewrite H. reflexivity.
  - intros (H1 & H2 & H3 & H4 & H5 & H6 & H7).
    apply section_found; first [reflexivity | assumption].
Qed.

Lemma section_body_extent_witness :
  Governance.unreleased_match Fixtures.changelog
  = Some "### Roadmap Alignment
- Current roadmap phase: M3
- Roadmap last updated: 2024-05-01

### Security
- Patched the parser

### Fixed
- Thing two

".
Proof.
  refine (proj1 (proj1 (section_body_extent
            ["# Changelog"; ""]
            ["### Roadmap Alignment"; "- Current roadmap phase: M3";
             "- Roadmap last updated: 2024-05-01"; "";
             "### Security"; "- Patched the parser"; "";
             "### Fixed"; "- Thing two"; ""]
            ""
            "## [0.1.0]
### Added
- First release
") _)).
  unfold Lines.section_layout.
  do 6 (split; [repeat constructor; discriminate|]).
  right. split; reflexivity.
Defined.

(** C2 as stated fails.  In the first text a heading of rank 1 follows the
    Unreleased heading of rank 2: the body in the words of the claim stops
    before it, the body extracted runs on to the next line that starts with
    [## []].  In the second text a heading of rank 2 follows the alignment
    heading of rank 3 and is part of the block extracted. *)
Lemma heading_rank_counterexample :
  (Lines.stated_section "## [Unreleased]" 2 Fixtures.changelog_appendix
   = Some "### Added
- Thing one
"
   /\ Governance.unreleased_match Fixtures.changelog_appendix
      = Some "### Added
- Thing one
# Appendix
Not part of the release.
")
  /\ (Lines.stated_section "### Roadmap Alignment" 3 Fixtures.unreleased_notes
      = Some "- Current roadmap phase: M3
"
      /\ Governance.block_match Fixtures.unreleased_notes
         = Some "- Current roadmap phase: M3
## Notes
- Thing one
").
Proof. repeat split; vm_compute; reflexivity. Qed.

(** ** Roadmap metadata: a malformed date (C8) *)

Section Metadata.

Import Lines.










Lemma match_classes_split (classes : list (ascii -> bool)) (s d r : string) :
  match_classes classes s = Some (d, r) -> s = d +:+ r.
Proof.
  revert s d. induction classes as [|p classes IH]; intros s d H.
  - cbn in H. injection H as <- <-. reflexivity.
  - cbn [match_classes] in H. destruct s as [|c s]; [discriminate|].
    destruct (p c); [|discriminate].
    destruct (match_classes classes s) as [[d' r']|] eqn:E; [|discriminate].
    injection H as <- <-. rewrite append_cons, <- (IH s d' E). reflexivity.
Qed.








End Metadata.

(** ** The validators only add errors *)

Section Accumulation.

Import Governance.

Variable fs : gmap string string.

Lemma prefix_of_refl (errors : list string) : errors `prefix_of` errors.
Proof. exists []. symmetry. apply app_nil_r. Qed.

Lemma prefix_of_snoc (errors : list string) (e : string) :
  errors `prefix_of` errors ++ [e].
Proof. exists [e]. reflexivity. Qed.

Lemma prefix_of_trans' (a b c : list string) :
  a `prefix_of` b -> b `prefix_of` c -> a `prefix_of` c.
Proof.
  intros [x ->] [y ->]. exists (x ++ y). symmetry. apply app_assoc.
Qed.

Lemma read_text_extends (path : string) (errors : list string) :
  errors `prefix_of` snd (read_text fs path errors).
Proof.
  unfold read_text. destruct (fs !! path); cbn [snd].
  - apply prefix_of_refl.
  - apply prefix_of_snoc.
Qed.

Lemma validate_roadmap_links_extends (roadmap : string) (errors : list string) :
  errors `prefix_of` validate_roadmap_links fs roadmap errors.
Proof.
  unfold validate_roadmap_links.
  generalize (sorted_set (findall_links 0 roadmap)). intros links.
  revert errors. induction links as [|rel links IH]; intros errors.
  - apply prefix_of_refl.
  - cbn [foldl]. eapply prefix_of_trans'; [|apply IH].
    destruct (fs !! resolve_link rel);
      [apply prefix_of_refl | apply prefix_of_snoc].
Qed.

Lemma validate_plan_lifecycle_extends (errors : list string) :
  errors `prefix_of` validate_plan_lifecycle fs errors.
Proof.
  unfold validate_plan_lifecycle.
  pose proof (read_text_extends PLAN_LIFECYCLE_PATH errors) as Hread.
  destruct (read_text fs PLAN_LIFECYCLE_PATH errors) as [lifecycle errors'].
  cbn [snd] in Hread.
  destruct (is_empty lifecycle); [exact Hread|].
  eapply prefix_of_trans'; [exact Hread|].
  destruct (parse_table_rows lifecycle) as [|row rows].
  - apply prefix_of_snoc.
  - rewrite lifecycle_rows_errors. eexists. reflexivity.
Qed.

Lemma validate_release_template_extends (errors : list string) :
  errors `prefix_of` validate_release_template fs errors.
Proof.
  unfold validate_release_template.
  pose proof (read_text_extends RELEASE_TEMPLATE_PATH errors) as Hread.
  destruct (read_text fs RELEASE_TEMPLATE_PATH errors) as [template errors'].
  cbn [snd] in Hread.
  destruct (is_empty template); [exact Hread|].
  eapply prefix_of_trans'; [exact Hread|].
  generalize REQUIRED_TEMPLATE_HEADINGS. intros headings.
  clear Hread. revert errors'. induction headings as [|heading headings IH];
    intros errors'.
  - apply prefix_of_refl.
  - cbn [foldl]. eapply prefix_of_trans'; [|apply IH].
    destruct (contains heading template);
      [apply prefix_of_refl | apply prefix_of_snoc].
Qed.


End Accumulation.

Lemma main_reports (fs : gmap string string) (e : string) :
  In e (Governance.main_errors fs) ->
  fst (Governance.main fs) = 1
  /\ In ("- " +:+ e) (snd (Governance.main fs)).
Proof.
  unfold Governance.main. intros Hin.
  destruct (Governance.main_errors fs) as [|e0 errors]; [contradiction|].
  split; [reflexivity|]. cbn [snd]. right.
  apply (in_map (fun err => "- " +:+ err) _ _ Hin).
Qed.



(** A label line without a value lies outside the statement above: the
    white space that the pattern allows after the label runs over the line
    end, and a date at the start of the next line is taken. *)
Example date_on_the_next_line :
  Governance.date_match "**Last Updated:**
2024-05-01
" = Some "2024-05-01".
Proof. vm_compute. reflexivity. Qed.

(** * Further properties of the two scripts *)

(** ** White space at the ends of a text *)

Section Trimming.

Import Shapes Notes Lines.

Lemma lstrip_blank_prefix (ws s : string) :
  blank ws = true -> lstrip (ws +:+ s) = lstrip s.
Proof.
  unfold blank, lstrip. induction ws as [|c ws IH]; intros H; [reflexivity|].
  cbn [every] in H. apply andb_true_iff in H as [Hc H].
  rewrite append_cons. cbn [drop_while]. rewrite Hc. apply IH, H.
Qed.

Lemma lstrip_starts_nonspace (s : string) :
  starts_nonspace s = true -> lstrip s = s.
Proof.
  destruct s as [|c s]; [discriminate|]. cbn [starts_nonspace]. intros H.
  apply negb_true_iff in H. unfold lstrip. cbn [drop_while]. rewrite H.
  reflexivity.
Qed.

Lemma rstrip_blank_suffix (s ws : string) :
  ends_nonspace s = true -> blank ws = true -> rstrip (s +:+ ws) = s.
Proof.
  intros Hs Hws. unfold rstrip.
  assert (Hblank : drop_while_end isspace ws = EmptyString).
  { unfold blank in Hws. induction ws as [|c ws IH]; [reflexivity|].
    cbn [every] in Hws. apply andb_true_iff in Hws as [Hc Hws].
    cbn [drop_while_end]. rewrite (IH Hws), Hc. reflexivity. }
  induction s as [|c s IH]; [discriminate|].
  rewrite append_cons. cbn [drop_while_end].
  destruct s as [|d s].
  - rewrite append_nil_l, Hblank. unfold ends_nonspace in Hs. cbn in Hs.
    apply negb_true_iff in Hs. cbn. rewrite Hs. reflexivity.
  - rewrite IH by exact Hs. reflexivity.
Qed.

(** [strip] removes a padding of white space and nothing else. *)
Lemma strip_padding (before s after : string) :
  blank before = true -> blank after = true ->
  starts_nonspace s = true -> ends_nonspace s = true ->
  strip (before +:+ s +:+ after) = s.
Proof.
  intros Hb Ha Hs He. unfold strip.
  rewrite lstrip_blank_prefix by exact Hb.
  rewrite lstrip_starts_nonspace.
  - apply rstrip_blank_suffix; assumption.
  - destruct s as [|c s]; [discriminate|]. exact Hs.
Qed.

End Trimming.

(** ** Code-quoted paths *)

Section CodePaths.

Import Shapes Notes Lines Governance.

Lemma endswith_char_snoc (c : ascii) (s : string) :
  endswith_char c (s +:+ String c EmptyString) = true.
Proof.
  induction s as [|a s IH].
  - cbn. apply ascii_eqb_refl.
  - rewrite append_cons.
    destruct s as [|b s]; [cbn; apply ascii_eqb_refl | exact IH].
Qed.

Lemma drop_last_snoc (c : ascii) (s : string) :
  drop_last (s +:+ String c EmptyString) = s.
Proof.
  induction s as [|a s IH]; [reflexivity|].
  rewrite append_cons.
  destruct s as [|b s]; [reflexivity|].
  rewrite append_cons in *. cbn [drop_last] in *. rewrite IH. reflexivity.
Qed.

(** A text that ends with [c] is what [s[:-1]] leaves, followed by [c]. *)
Lemma endswith_char_split (c : ascii) (s : string) :
  endswith_char c s = true -> s = drop_last s +:+ String c EmptyString.
Proof.
  induction s as [|a s IH]; [discriminate|].
  destruct s as [|b s].
  - cbn. intros H. apply ascii_eqb_eq in H. subst a. reflexivity.
  - intros H. cbn [endswith_char] in H.
    change (drop_last (String a (String b s)))
      with (String a (drop_last (String b s))).
    rewrite append_cons, <- (IH H). reflexivity.
Qed.

Lemma quoted_ends (path : string) : ends_nonspace (quoted path) = true.
Proof.
  unfold quoted. apply ends_nonspace_append, ends_nonspace_append.
  reflexivity.
Qed.

Lemma quoted_cons (path : string) :
  quoted path = String "`"%char (path +:+ "`").
Proof. reflexivity. Qed.

Lemma quoted_snoc (path : string) :
  quoted path = ("`" +:+ path) +:+ "`".
Proof. unfold quoted. rewrite append_assoc. reflexivity. Qed.

(** The quotes are taken off again, and white space around them does not
    matter. *)
Lemma parse_code_path_quoted (before after path : string) :
  blank before = true -> blank after = true ->
  parse_code_path (before +:+ quoted path +:+ after) = Some path.
Proof.
  intros Hb Ha. unfold parse_code_path.
  rewrite (strip_padding before (quoted path) after Hb Ha eq_refl (quoted_ends path)).
  assert (H1 : String.eqb (quoted path) "-" = false) by reflexivity.
  assert (H2 : startswith (quoted path) "`" = true).
  { unfold startswith. rewrite quoted_cons, prefix_cons, prefix_nil. reflexivity. }
  assert (H3 : endswith_char "`"%char (quoted path) = true).
  { rewrite quoted_snoc. apply endswith_char_snoc. }
  assert (H4 : drop_last (slice_from 1 (quoted path)) = path).
  { rewrite quoted_cons. cbn [slice_from]. apply drop_last_snoc. }
  rewrite H1, H2, H3, H4. reflexivity.
Qed.

(** What a result of [parse_code_path] says about the cell. *)
Lemma parse_code_path_inv (cell path : string) :
  parse_code_path cell = Some path ->
  (strip cell = "-" /\ path = "-")
  \/ (strip cell = "`" /\ path = EmptyString)
  \/ strip cell = quoted path.
Proof.
  unfold parse_code_path.
  destruct (String.eqb (strip cell) "-") eqn:Hdash.
  - intros H. injection H as <-. apply String.eqb_eq in Hdash. left. split;
      [exact Hdash | reflexivity].
  - destruct (startswith (strip cell) "`") eqn:Hstart; [|discriminate].
    destruct (endswith_char "`"%char (strip cell)) eqn:Hend; [|discriminate].
    cbn [andb]. intros H. injection H as <-. right.
    unfold startswith in Hstart.
    destruct (strip cell) as [|c t]; [discriminate|].
    rewrite prefix_cons in Hstart. apply andb_true_iff in Hstart as [Hc _].
    apply ascii_eqb_eq in Hc. subst c. cbn [slice_from].
    destruct t as [|d t].
    + left. split; reflexivity.
    + right. cbn [endswith_char] in Hend.
      rewrite quoted_cons. f_equal. apply endswith_char_split, Hend.
Qed.

End CodePaths.

(** X1.  [parse_code_path] gives back the path that was put in code quotes:
    for every path, and whatever white space stands before and after the
    quotes in the cell, the result is that path. *)
Theorem code_path_round_trip (before after path : string) :
  Shapes.blank before = true -> Shapes.blank after = true ->
  Governance.parse_code_path (before +:+ Shapes.quoted path +:+ after)
  = Some path.
Proof. apply parse_code_path_quoted. Qed.

Lemma code_path_round_trip_witness :
  Governance.parse_code_path "  `2024/roadmap v2.md` " = Some "2024/roadmap v2.md".
Proof.
  refine (code_path_round_trip "  " " " "2024/roadmap v2.md" _ _); reflexivity.
Defined.

(** X2.  A result of [parse_code_path] comes from one of three cells only:
    the trimmed cell is the dash, and the result is the dash; or it is one
    lone backtick, and the result is the empty path; or it is the result in
    code quotes.  So the one cell other than [`p`] that yields a path [p]
    is the lone backtick, for the empty path. *)
Theorem code_path_origin (cell path : string) :
  Governance.parse_code_path cell = Some path ->
  (strip cell = "-" /\ path = "-")
  \/ (strip cell = "`" /\ path = EmptyString)
  \/ strip cell = Shapes.quoted path.
Proof. apply parse_code_path_inv. Qed.

Lemma code_path_origin_witness :
  (strip " `new.md`" = "-" /\ "new.md" = "-")
  \/ (strip " `new.md`" = "`" /\ "new.md" = EmptyString)
  \/ strip " `new.md`" = Shapes.quoted "new.md".
Proof.
  refine (code_path_origin " `new.md`" "new.md" _). reflexivity.
Defined.

(** X3.  A row whose plan cell, once trimmed, is the dash, a dash in code
    quotes, one backtick or two, or is not in code quotes at all, is
    reported with the invalid-plan-path error and nothing else: its status
    and its other cells are not looked at, no file is read, and the row is
    not counted as superseded. *)
Theorem invalid_plan_cell_row
  (fs : gmap string string) (errors : list string) (superseded_count : nat)
  (plan_cell status superseded_by_cell notes : string) :
  strip plan_cell = "-" \/ strip plan_cell = "`-`"
  \/ strip plan_cell = "`" \/ strip plan_cell = "``"
  \/ startswith (strip plan_cell) "`" = false
  \/ endswith_char "`"%char (strip plan_cell) = false ->
  Governance.lifecycle_row fs (errors, superseded_count)
    [plan_cell; status; superseded_by_cell; notes]
  = (errors ++ [Governance.invalid_path_error plan_cell], superseded_count).
Proof.
  intros Hcell.
  assert (Hno : Governance.no_path (Governance.parse_code_path plan_cell) = true).
  { unfold Governance.parse_code_path.
    destruct Hcell as [H|[H|[H|[H|[H|H]]]]]; try (rewrite H; reflexivity).
    - destruct (String.eqb (strip plan_cell) "-") eqn:E; [reflexivity|].
      rewrite H. reflexivity.
    - destruct (String.eqb (strip plan_cell) "-") eqn:E; [reflexivity|].
      rewrite H, andb_false_r. reflexivity. }
  unfold Governance.lifecycle_row.
  destruct (Governance.parse_code_path plan_cell) as [plan_rel|];
    [rewrite Hno|]; reflexivity.
Qed.

Lemma invalid_plan_cell_row_witness :
  Governance.lifecycle_row Fixtures.plans_citing ([], 0)
    ["old.md"; "Superseded"; "`new.md`"; "no quotes"]
  = (["Invalid plan path cell in PLAN_LIFECYCLE.md: old.md"], 0).
Proof.
  refine (invalid_plan_cell_row Fixtures.plans_citing [] 0
            "old.md" "Superseded" "`new.md`" "no quotes" _).
  do 4 right. left. reflexivity.
Defined.

(** ** The lifecycle loop, row by row *)

Lemma row_errors_app (fs : gmap string string) (rows1 rows2 : list (list string)) :
  Rows.row_errors fs (rows1 ++ rows2)
  = Rows.row_errors fs rows1 ++ Rows.row_errors fs rows2.
Proof. unfold Rows.row_errors. rewrite map_app, concat_app. reflexivity. Qed.

Lemma row_result_at_most_three (fs : gmap string string) (row : list string) :
  length (fst (Rows.row_result fs row)) <= 3.
Proof.
  unfold Rows.row_result, Governance.lifecycle_row, Governance.active_check.
  repeat case_match; subst; cbn [fst]; rewrite ?length_app; cbn [length app];
    try lia.
  all: match goal with
       | H : (String.eqb ?s "Superseded") = true |- _ =>
           apply String.eqb_eq in H; subst s
       end.
  all: cbn in *; try discriminate; lia.
Qed.

Lemma row_errors_length (fs : gmap string string) (rows : list (list string)) :
  length (Rows.row_errors fs rows) <= 3 * length rows.
Proof.
  unfold Rows.row_errors. induction rows as [|row rows IH]; [cbn; lia|].
  cbn [map concat length]. rewrite length_app.
  pose proof (row_result_at_most_three fs row). lia.
Qed.

(** X4.  The lifecycle loop judges every row on its own: the errors of a
    table are the errors of its rows in the order of the rows, each as if
    the row stood alone, and no error or early exit of one row changes what
    the following rows yield; the missing-history error closes the list
    exactly when no row of the table was counted.  A row yields at most
    three errors, so a table of n rows yields at most 3 n + 1. *)
Theorem lifecycle_rows_by_row
  (fs : gmap string string) (rows1 rows2 : list (list string))
  (errors : list string) :
  Governance.lifecycle_rows fs (rows1 ++ rows2) errors
  = errors ++ Rows.row_errors fs rows1 ++ Rows.row_errors fs rows2
    ++ (if existsb (Rows.counted fs) rows1 || existsb (Rows.counted fs) rows2
        then [] else [Governance.no_history_error])
  /\ (forall row, length (fst (Rows.row_result fs row)) <= 3)
  /\ length (Governance.lifecycle_rows fs (rows1 ++ rows2) errors)
     <= length errors + 3 * (length rows1 + length rows2) + 1.
Proof.
  assert (H : Governance.lifecycle_rows fs (rows1 ++ rows2) errors
              = errors ++ Rows.row_errors fs rows1 ++ Rows.row_errors fs rows2
                ++ (if existsb (Rows.counted fs) rows1
                       || existsb (Rows.counted fs) rows2
                    then [] else [Governance.no_history_error])).
  { rewrite lifecycle_rows_errors, row_errors_app, existsb_app, <- app_assoc.
    reflexivity. }
  split; [exact H|]. split; [apply row_result_at_most_three|].
  rewrite H, !length_app.
  pose proof (row_errors_length fs rows1). pose proof (row_errors_length fs rows2).
  destruct (existsb _ rows1 || existsb _ rows2); cbn [length]; lia.
Qed.

(** ** Missing, empty and row-less files *)

(** X5.  The lifecycle validator on a registry that cannot be checked row
    by row: a missing registry file gives the missing-file error and
    nothing else; a registry file that is there but empty gives no error at
    all; a registry with text but without a line that the table parser
    accepts gives the no-rows error and nothing else.  In none of the three
    cases is the missing-history error reported. *)
Theorem registry_without_rows (fs : gmap string string) (errors : list string) :
  (fs !! Governance.PLAN_LIFECYCLE_PATH = None ->
   Governance.validate_plan_lifecycle fs errors
   = errors ++ ["Missing required file: docs/plans/PLAN_LIFECYCLE.md"])
  /\ (fs !! Governance.PLAN_LIFECYCLE_PATH = Some EmptyString ->
      Governance.validate_plan_lifecycle fs errors = errors)
  /\ (forall lifecycle,
        fs !! Governance.PLAN_LIFECYCLE_PATH = Some lifecycle ->
        is_empty lifecycle = false ->
        Forall (fun line => Table.accepted line = false) (splitlines lifecycle) ->
        Governance.validate_plan_lifecycle fs errors
        = errors ++ [Governance.no_rows_error]).
Proof.
  unfold Governance.validate_plan_lifecycle, Governance.read_text.
  repeat apply conj.
  - intros ->. reflexivity.
  - intros ->. reflexivity.
  - intros lifecycle -> Hne Hlines. rewrite Hne.
    rewrite parse_table_rows_filter, (filter_accepted_none _ Hlines).
    reflexivity.
Qed.

Lemma registry_without_rows_witness :
  Governance.validate_plan_lifecycle Fixtures.repo_bare []
  = [Governance.no_rows_error].
Proof.
  refine (proj2 (proj2 (registry_without_rows Fixtures.repo_bare []))
            Fixtures.registry_bare _ _ _).
  - reflexivity.
  - reflexivity.
  - let lines := eval vm_compute in (splitlines Fixtures.registry_bare) in
    change (Forall (fun line => Table.accepted line = false) lines).
    repeat constructor.
Defined.

(** X6.  A file that exists but is empty is never reported, and it switches
    off the checks that would read it.  With an empty roadmap or an empty
    changelog the driver parses neither of the two: no metadata error, no
    missing-section error and no alignment error arise, whatever the other
    file holds.  When the roadmap, the changelog, the registry and the
    template all exist and are empty, the run passes with status 0. *)
Theorem empty_files_pass (fs : gmap string string) :
  (forall roadmap changelog,
     fs !! Governance.ROADMAP_PATH = Some roadmap ->
     fs !! Governance.CHANGELOG_PATH = Some changelog ->
     is_empty roadmap || is_empty changelog = true ->
     Governance.main_errors fs
     = Governance.validate_release_template fs
         (Governance.validate_plan_lifecycle fs
            (if is_empty roadmap then []
             else Governance.validate_roadmap_links fs roadmap [])))
  /\ (fs !! Governance.ROADMAP_PATH = Some EmptyString ->
      fs !! Governance.CHANGELOG_PATH = Some EmptyString ->
      fs !! Governance.PLAN_LIFECYCLE_PATH = Some EmptyString ->
      fs !! Governance.RELEASE_TEMPLATE_PATH = Some EmptyString ->
      Governance.main fs = (0, ["Docs governance checks passed."])).
Proof.
  split.
  - intros roadmap changelog Hr Hc Hempty.
    unfold Governance.main_errors, Governance.read_text. rewrite Hr, Hc.
    destruct (is_empty roadmap); cbn [negb andb]; [reflexivity|].
    cbn [orb] in Hempty. rewrite Hempty. reflexivity.
  - intros Hr Hc Hl Ht.
    unfold Governance.main, Governance.main_errors,
      Governance.validate_release_template, Governance.validate_plan_lifecycle,
      Governance.read_text.
    rewrite Hr, Hc, Hl, Ht. reflexivity.
Qed.

Lemma empty_files_pass_witness :
  Governance.main Fixtures.repo_blank = (0, ["Docs governance checks passed."]).
Proof.
  refine (proj2 (empty_files_pass Fixtures.repo_blank) _ _ _ _); reflexivity.
Defined.

(** ** The release-notes template *)

Section Containment.

Lemma prefix_split (a s : string) :
  String.prefix a s = true -> s = a +:+ slice_from (String.length a) s.
Proof.
  revert s. induction a as [|x a IH]; intros s H; [reflexivity|].
  destruct s as [|y s]; [discriminate|].
  rewrite prefix_cons in H. apply andb_true_iff in H as [Hxy H].
  apply ascii_eqb_eq in Hxy. subst y.
  rewrite append_cons. cbn [String.length slice_from]. f_equal. apply IH, H.
Qed.

Lemma contains_cons (needle : string) (c : ascii) (hay : string) :
  contains needle (String c hay)
  = String.prefix needle (String c hay) || contains needle hay.
Proof. reflexivity. Qed.

(** [needle in hay] holds exactly when [hay] is some text, the needle, and
    some text. *)
Lemma contains_infix (needle hay : string) :
  contains needle hay = true
  <-> exists before after, hay = before +:+ needle +:+ after.
Proof.
  split.
  - induction hay as [|c hay IH].
    + cbn [contains]. rewrite orb_false_r. intros H.
      exists EmptyString, (slice_from (String.length needle) EmptyString).
      apply prefix_split, H.
    + rewrite contains_cons. intros H. apply orb_true_iff in H as [H|H].
      * exists EmptyString, (slice_from (String.length needle) (String c hay)).
        apply prefix_split, H.
      * destruct (IH H) as (before & after & ->).
        exists (String c before), after. reflexivity.
  - intros (before & after & ->).
    induction before as [|c before IH].
    + rewrite append_nil_l.
      destruct (needle +:+ after) as [|c rest] eqn:E.
      * cbn [contains]. rewrite <- E, prefix_append. reflexivity.
      * rewrite contains_cons, <- E, prefix_append. reflexivity.
    + rewrite append_cons, contains_cons, IH. apply orb_true_r.
Qed.

End Containment.

Lemma template_loop (template : string) (headings : list string)
  (errors : list string) :
  foldl (fun errors heading =>
           if contains heading template then errors
           else errors ++
             ["Release notes template missing required heading '" +:+ heading +:+ "'"])
    errors headings
  = errors ++ map Shapes.template_error
      (List.filter (fun heading => negb (contains heading template)) headings).
Proof.
  revert errors. induction headings as [|heading headings IH]; intros errors.
  - cbn. rewrite app_nil_r. reflexivity.
  - cbn [foldl List.filter]. rewrite IH.
    destruct (contains heading template); cbn [negb map]; [reflexivity|].
    rewrite <- app_assoc. reflexivity.
Qed.

(** X7.  For a template that is there and not empty, the template validator
    reports exactly the required headings that the text does not contain,
    one error each, in the fixed order of the list of required headings.
    A heading counts as present when it occurs anywhere in the text, also
    inside a longer line; so nothing is reported exactly when each of the
    eight headings occurs somewhere, and never more than eight errors
    are. *)
Theorem template_missing_headings
  (fs : gmap string string) (template : string) (errors : list string) :
  fs !! Governance.RELEASE_TEMPLATE_PATH = Some template ->
  is_empty template = false ->
  let result := Governance.validate_release_template fs errors in
  result = errors ++ map Shapes.template_error (Shapes.missing_headings template)
  /\ (result = errors
      <-> forall heading,
            In heading Governance.REQUIRED_TEMPLATE_HEADINGS ->
            exists before after, template = before +:+ heading +:+ after)
  /\ length result <= length errors + 8.
Proof.
  intros Hfile Hne result.
  assert (H : result
              = errors ++ map Shapes.template_error (Shapes.missing_headings template)).
  { subst result.
    unfold Governance.validate_release_template, Governance.read_text.
    rewrite Hfile, Hne. apply template_loop. }
  split; [exact H|]. split.
  - rewrite H. unfold Shapes.missing_headings. split.
    + intros E heading Hin. apply contains_infix.
      destruct (contains heading template) eqn:Hc; [reflexivity|]. exfalso.
      assert (Hnil : map Shapes.template_error
                       (List.filter (fun h => negb (contains h template))
                          Governance.REQUIRED_TEMPLATE_HEADINGS) = []).
      { apply (app_inv_head errors). rewrite app_nil_r. exact E. }
      apply map_eq_nil in Hnil.
      assert (Hin' : In heading
                       (List.filter (fun h => negb (contains h template))
                          Governance.REQUIRED_TEMPLATE_HEADINGS)).
      { apply List.filter_In. split; [exact Hin|]. rewrite Hc. reflexivity. }
      rewrite Hnil in Hin'. contradiction.
    + intros Hall.
      assert (Hnil : List.filter (fun h => negb (contains h template))
                       Governance.REQUIRED_TEMPLATE_HEADINGS = []).
      { destruct (List.filter _ _) as [|h hs] eqn:E; [reflexivity|]. exfalso.
        assert (Hin : In h (h :: hs)) by (left; reflexivity).
        rewrite <- E in Hin. apply List.filter_In in Hin as [Hin Hc].
        apply Hall, contains_infix in Hin. rewrite Hin in Hc. discriminate. }
      rewrite Hnil. cbn. apply app_nil_r.
  - rewrite H, length_app, length_map. unfold Shapes.missing_headings.
    pose proof (List.filter_length_le
                  (fun h => negb (contains h template))
                  Governance.REQUIRED_TEMPLATE_HEADINGS) as Hle.
    cbn [length Governance.REQUIRED_TEMPLATE_HEADINGS] in Hle.
    change (length Governance.REQUIRED_TEMPLATE_HEADINGS) with 8 in Hle. lia.
Qed.

Lemma template_missing_headings_witness :
  Governance.validate_release_template Fixtures.repo_template []
  = map Shapes.template_error
      ["## Release Summary"; "### Changed"; "### Deprecated"; "### Removed";
       "### Fixed"; "### Security"].
Proof.
  refine (proj1 (template_missing_headings Fixtures.repo_template
                   Fixtures.template_short [] _ _)); reflexivity.
Defined.

(** ** Errors stay, and a missing file fails the run *)

Section Staying.

Import Governance.

Lemma prefix_of_In (a b : list string) (e : string) :
  a `prefix_of` b -> In e a -> In e b.
Proof. intros [x ->] Hin. apply in_or_app. left. exact Hin. Qed.

Lemma parse_roadmap_metadata_extends (roadmap : string) (errors : list string) :
  errors `prefix_of` snd (parse_roadmap_metadata roadmap errors).
Proof.
  unfold parse_roadmap_metadata. cbn [snd].
  destruct (phase_match roadmap), (date_match roadmap).
  - apply prefix_of_refl.
  - apply prefix_of_snoc.
  - apply prefix_of_snoc.
  - eapply prefix_of_trans'; apply prefix_of_snoc.
Qed.

Lemma extract_unreleased_extends (changelog : string) (errors : list string) :
  errors `prefix_of` snd (extract_unreleased changelog errors).
Proof.
  unfold extract_unreleased. destruct (unreleased_match changelog); cbn [snd].
  - apply prefix_of_refl.
  - apply prefix_of_snoc.
Qed.

Lemma validate_roadmap_alignment_block_extends
  (roadmap_phase roadmap_last_updated unreleased : string) (errors : list string) :
  errors `prefix_of`
    validate_roadmap_alignment_block roadmap_phase roadmap_last_updated
      unreleased errors.
Proof.
  unfold validate_roadmap_alignment_block.
  destruct (block_match unreleased) as [block|]; [|apply prefix_of_snoc].
  destruct (block_phase_match block) as [p|],
           (block_updated_match block) as [d|];
    repeat match goal with
           | |- context [String.eqb ?a ?b] => destruct (String.eqb a b)
           end;
    repeat first [ apply prefix_of_refl
                 | apply prefix_of_snoc
                 | eapply prefix_of_trans'; [|apply prefix_of_snoc] ].
Qed.

Lemma check_alignment_extends (roadmap changelog : string) (errors : list string) :
  errors `prefix_of` check_alignment roadmap changelog errors.
Proof.
  unfold check_alignment.
  pose proof (parse_roadmap_metadata_extends roadmap errors) as H1.
  destruct (parse_roadmap_metadata roadmap errors) as [[phase updated] errors1].
  cbn [snd] in H1.
  pose proof (extract_unreleased_extends changelog errors1) as H2.
  destruct (extract_unreleased changelog errors1) as [unreleased errors2].
  cbn [snd] in H2.
  eapply prefix_of_trans'; [exact H1|].
  eapply prefix_of_trans'; [exact H2|].
  destruct (_ && _); [|apply prefix_of_refl].
  apply validate_roadmap_alignment_block_extends.
Qed.

(** The errors of the first two reads are kept by the rest of the run. *)
Lemma main_errors_reads (fs : gmap string string) :
  snd (read_text fs CHANGELOG_PATH (snd (read_text fs ROADMAP_PATH [])))
    `prefix_of` main_errors fs.
Proof.
  unfold main_errors.
  destruct (read_text fs ROADMAP_PATH []) as [roadmap errors1].
  cbn [snd].
  destruct (read_text fs CHANGELOG_PATH errors1) as [changelog errors2].
  cbn [snd].
  eapply prefix_of_trans'; [|apply validate_release_template_extends].
  eapply prefix_of_trans'; [|apply validate_plan_lifecycle_extends].
  destruct (negb (is_empty roadmap)); cbn [andb].
  - destruct (negb (is_empty changelog)).
    + eapply prefix_of_trans'; [|apply check_alignment_extends].
      apply validate_roadmap_links_extends.
    + apply validate_roadmap_links_extends.
  - apply prefix_of_refl.
Qed.

End Staying.

(** X8.  Each of the four files that the validator reads is required: when
    one of them does not exist, the error list of the run holds the
    message "Missing required file: " followed by its path, the exit
    status is 1 and the message is among the lines printed, whatever the
    other files hold. *)
Theorem missing_file_fails_run (fs : gmap string string) (path : string) :
  In path [Governance.ROADMAP_PATH; Governance.CHANGELOG_PATH;
           Governance.PLAN_LIFECYCLE_PATH; Governance.RELEASE_TEMPLATE_PATH] ->
  fs !! path = None ->
  In ("Missing required file: " +:+ path) (Governance.main_errors fs)
  /\ fst (Governance.main fs) = 1
  /\ In ("- Missing required file: " +:+ path) (snd (Governance.main fs)).
Proof.
  intros Hpath Hnone.
  assert (Hin : In ("Missing required file: " +:+ path) (Governance.main_errors fs)).
  { cbn [In] in Hpath. destruct Hpath as [<-|[<-|[<-|[<-|[]]]]].
    - apply (prefix_of_In _ _ _ (main_errors_reads fs)).
      apply (prefix_of_In _ _ _ (read_text_extends fs _ _)).
      unfold Governance.read_text. rewrite Hnone. cbn [snd].
      left. reflexivity.
    - apply (prefix_of_In _ _ _ (main_errors_reads fs)).
      unfold Governance.read_text at 1. rewrite Hnone. cbn [snd].
      apply in_or_app. right. left. reflexivity.
    - unfold Governance.main_errors.
      destruct (Governance.read_text fs Governance.ROADMAP_PATH []) as [roadmap errors1].
      destruct (Governance.read_text fs Governance.CHANGELOG_PATH errors1)
        as [changelog errors2].
      apply (prefix_of_In _ _ _ (validate_release_template_extends fs _)).
      unfold Governance.validate_plan_lifecycle, Governance.read_text.
      rewrite Hnone. cbn [is_empty].
      apply in_or_app. right. left. reflexivity.
    - unfold Governance.main_errors.
      destruct (Governance.read_text fs Governance.ROADMAP_PATH []) as [roadmap errors1].
      destruct (Governance.read_text fs Governance.CHANGELOG_PATH errors1)
        as [changelog errors2].
      unfold Governance.validate_release_template, Governance.read_text.
      rewrite Hnone. cbn [is_empty].
      apply in_or_app. right. left. reflexivity. }
  split; [exact Hin|].
  destruct (main_reports fs _ Hin) as [Hst Hpr]. split; [exact Hst|exact Hpr].
Qed.

Lemma missing_file_fails_run_witness :
  fst (Governance.main Fixtures.repo_template) = 1
  /\ In "- Missing required file: CHANGELOG.md"
       (snd (Governance.main Fixtures.repo_template)).
Proof.
  refine (proj2 (missing_file_fails_run Fixtures.repo_template
                   Governance.CHANGELOG_PATH _ _)).
  - right. left. reflexivity.
  - reflexivity.
Defined.

(** ** The links of the roadmap *)

Section LinkOrder.

Import Governance.

Lemma ltb_trans (a b c : string) :
  Shapes.before a b -> Shapes.before b c -> Shapes.before a c.
Proof.
  unfold Shapes.before, String.ltb. intros H1 H2.
  destruct (String.compare a b) eqn:E1; try discriminate.
  destruct (String.compare b c) eqn:E2; try discriminate.
  apply OrderedTypeEx.String_as_OT.cmp_lt in E1, E2.
  pose proof (OrderedTypeEx.String_as_OT.lt_trans _ _ _ E1 E2) as H.
  apply OrderedTypeEx.String_as_OT.cmp_lt in H.
  change (String.compare a c = Lt) in H. rewrite H. reflexivity.
Qed.

Lemma ltb_irrefl (a : string) : ~ Shapes.before a a.
Proof.
  unfold Shapes.before, String.ltb.
  pose proof (String.compare_antisym a a) as H.
  destruct (String.compare a a); discriminate.
Qed.

Lemma ltb_total (a b : string) :
  String.eqb a b = false -> String.ltb a b = false -> Shapes.before b a.
Proof.
  unfold Shapes.before, String.ltb. intros Hne Hlt.
  rewrite (String.compare_antisym b a).
  destruct (String.compare a b) eqn:E; try discriminate.
  - apply String.compare_eq_iff in E. subst.
    rewrite String.eqb_refl in Hne. discriminate.
  - reflexivity.
Qed.

Lemma insert_sorted_In (x y : string) (xs : list string) :
  In y (insert_sorted x xs) <-> y = x \/ In y xs.
Proof.
  induction xs as [|z xs IH]; cbn [insert_sorted In].
  - intuition congruence.
  - destruct (String.eqb x z) eqn:Exz.
    + apply String.eqb_eq in Exz. subst z. cbn [In]. intuition congruence.
    + destruct (String.ltb x z); cbn [In]; [intuition congruence|].
      rewrite IH. intuition congruence.
Qed.

Lemma sorted_set_In (y : string) (xs : list string) :
  In y (sorted_set xs) <-> In y xs.
Proof.
  unfold sorted_set. induction xs as [|x xs IH]; cbn [foldr In]; [tauto|].
  rewrite insert_sorted_In, IH. intuition congruence.
Qed.

Lemma insert_sorted_sorted (x : string) (xs : list string) :
  Sorted.StronglySorted Shapes.before xs ->
  Sorted.StronglySorted Shapes.before (insert_sorted x xs).
Proof.
  induction xs as [|z xs IH]; intros Hs; cbn [insert_sorted].
  - constructor; [constructor | constructor].
  - destruct (String.eqb x z) eqn:Exz; [exact Hs|].
    apply Sorted.StronglySorted_inv in Hs as [Hs Hall].
    destruct (String.ltb x z) eqn:Hlt.
    + constructor; [constructor; assumption|].
      constructor; [exact Hlt|].
      rewrite List.Forall_forall in Hall |- *. intros y Hy.
      apply (ltb_trans x z y); [exact Hlt | apply Hall, Hy].
    + constructor; [apply IH, Hs|].
      rewrite List.Forall_forall in Hall |- *. intros y Hy.
      apply insert_sorted_In in Hy as [->|Hy].
      * apply ltb_total; assumption.
      * apply Hall, Hy.
Qed.

Lemma sorted_set_sorted (xs : list string) :
  Sorted.StronglySorted Shapes.before (sorted_set xs).
Proof.
  unfold sorted_set. induction xs as [|x xs IH]; cbn [foldr].
  - constructor.
  - apply insert_sorted_sorted, IH.
Qed.

Lemma sorted_NoDup (xs : list string) :
  Sorted.StronglySorted Shapes.before xs -> List.NoDup xs.
Proof.
  induction 1 as [|x xs Hs IH Hall]; constructor; [|exact IH].
  intros Hin. rewrite List.Forall_forall in Hall.
  apply (ltb_irrefl x), Hall, Hin.
Qed.

Lemma links_loop (fs : gmap string string) (links : list string)
  (errors : list string) :
  foldl (fun errors rel =>
           match fs !! resolve_link rel with
           | None => errors ++ ["Roadmap link target does not exist: " +:+ rel]
           | Some _ => errors
           end)
    errors links
  = errors ++ map Shapes.link_error (List.filter (Shapes.target_missing fs) links).
Proof.
  revert errors. induction links as [|rel links IH]; intros errors.
  - cbn. rewrite app_nil_r. reflexivity.
  - cbn [foldl List.filter]. rewrite IH. unfold Shapes.target_missing at 2.
    destruct (fs !! resolve_link rel); cbn [map]; [reflexivity|].
    rewrite <- app_assoc. reflexivity.
Qed.

End LinkOrder.

(** X9.  The link validator reports each distinct plan link of the roadmap
    whose target file does not exist exactly once, however often the
    roadmap repeats the link, and in ascending order of the link texts:
    the list of links it walks has the same members as the list of
    matches, is strictly ascending and therefore free of duplicates, and
    the errors added are the messages for the members whose target is
    missing, in that order. *)
Theorem roadmap_links_once_in_order
  (fs : gmap string string) (roadmap : string) (errors : list string) :
  let links := Governance.sorted_set (Governance.findall_links 0 roadmap) in
  Governance.validate_roadmap_links fs roadmap errors
  = errors ++ map Shapes.link_error (List.filter (Shapes.target_missing fs) links)
  /\ (forall rel, In rel links <-> In rel (Governance.findall_links 0 roadmap))
  /\ Sorted.StronglySorted Shapes.before links
  /\ List.NoDup links
  /\ List.NoDup (List.filter (Shapes.target_missing fs) links).
Proof.
  intros links. split; [apply links_loop|].
  split; [intros rel; apply sorted_set_In|].
  split; [apply sorted_set_sorted|].
  assert (Hnd : List.NoDup links) by apply sorted_NoDup, sorted_set_sorted.
  split; [exact Hnd|]. apply List.NoDup_filter, Hnd.
Qed.

Example roadmap_links_once_in_order_example :
  Governance.validate_roadmap_links ∅ Fixtures.roadmap_linked []
  = ["Roadmap link target does not exist: ../plans/new.md";
     "Roadmap link target does not exist: ../plans/old.md"].
Proof. vm_compute. reflexivity. Qed.

Section LinkShape.

Import Governance.

Lemma take_while_split (p : ascii -> bool) (s : string) :
  s = take_while p s +:+ slice_from (String.length (take_while p s)) s.
Proof.
  induction s as [|c s IH]; [reflexivity|]. cbn [take_while].
  destruct (p c).
  - rewrite append_cons. cbn [String.length slice_from]. f_equal. exact IH.
  - reflexivity.
Qed.

Lemma take_while_every (p : ascii -> bool) (s : string) :
  Lines.every p (take_while p s) = true.
Proof.
  induction s as [|c s IH]; [reflexivity|]. cbn [take_while].
  destruct (p c) eqn:Hc; [|reflexivity].
  cbn [Lines.every]. rewrite Hc, IH. reflexivity.
Qed.

Lemma slice_split (n : nat) (s : string) :
  s = slice_to n s +:+ slice_from n s.
Proof.
  revert s. induction n as [|n IH]; intros [|c s]; try reflexivity.
  cbn [slice_to slice_from]. rewrite append_cons. f_equal. apply IH.
Qed.

Lemma every_slice_to (p : ascii -> bool) (n : nat) (s : string) :
  Lines.every p s = true -> Lines.every p (slice_to n s) = true.
Proof.
  revert s. induction n as [|n IH]; intros [|c s] H; try reflexivity.
  cbn [Lines.every] in H. apply andb_true_iff in H as [Hc H].
  cbn [slice_to Lines.every]. rewrite Hc, (IH s H). reflexivity.
Qed.

Lemma slice_to_nonempty (n : nat) (s : string) :
  0 < n -> 0 < String.length s -> is_empty (slice_to n s) = false.
Proof.
  destruct n as [|n]; [lia|]. destruct s as [|c s]; cbn; [lia|reflexivity].
Qed.

(** A match of the link pattern at the start of a text, read back. *)
Lemma link_at_Some (s rel : string) (n : nat) :
  link_at s = Some (rel, n) ->
  exists name tail,
    rel = "../plans/" +:+ name +:+ ".md"
    /\ is_empty name = false
    /\ Lines.every not_rparen name = true
    /\ s = "(" +:+ rel +:+ ")" +:+ tail.
Proof.
  unfold link_at.
  destruct (String.prefix "(../plans/" s) eqn:Hpre; [|discriminate].
  set (rest := slice_from 10 s).
  set (run := take_while not_rparen rest).
  destruct (4 <=? String.length run)%nat eqn:Hlen; cbn [andb]; [|discriminate].
  destruct (String.eqb (slice_from (String.length run - 3) run) ".md") eqn:Hmd;
    cbn [andb]; [|discriminate].
  destruct (String.prefix ")" (slice_from (String.length run) rest)) eqn:Hpar;
    [|discriminate].
  intros H. injection H as <- <-.
  apply Nat.leb_le in Hlen. apply String.eqb_eq in Hmd.
  exists (slice_to (String.length run - 3) run).
  exists (slice_from 1 (slice_from (String.length run) rest)).
  assert (Hrun : run = slice_to (String.length run - 3) run +:+ ".md").
  { rewrite <- Hmd. apply slice_split. }
  split; [rewrite <- Hrun; reflexivity|].
  split; [apply slice_to_nonempty; lia|].
  split; [apply every_slice_to, take_while_every|].
  apply prefix_split in Hpre, Hpar.
  change (slice_from (String.length "(../plans/") s) with rest in Hpre.
  cbn [String.length] in Hpar.
  rewrite Hpre at 1. rewrite (take_while_split not_rparen rest) at 1.
  fold run. rewrite Hpar at 1.
  change "(../plans/" with ("(" +:+ "../plans/").
  rewrite <- !append_assoc. reflexivity.
Qed.

Lemma findall_links_found (skip : nat) (s rel : string) :
  In rel (findall_links skip s) ->
  exists name before after,
    rel = "../plans/" +:+ name +:+ ".md"
    /\ is_empty name = false
    /\ Lines.every not_rparen name = true
    /\ s = before +:+ "(" +:+ rel +:+ ")" +:+ after.
Proof.
  revert skip. induction s as [|c s IH]; intros skip; [intros []|].
  assert (Hstep : forall k, In rel (findall_links k s) ->
            exists name before after,
              rel = "../plans/" +:+ name +:+ ".md"
              /\ is_empty name = false
              /\ Lines.every not_rparen name = true
              /\ String c s = before +:+ "(" +:+ rel +:+ ")" +:+ after).
  { intros k Hin. destruct (IH k Hin) as (name & before & after & H1 & H2 & H3 & H4).
    exists name, (String c before), after. repeat split; try assumption.
    rewrite append_cons. f_equal. exact H4. }
  cbn [findall_links]. destruct skip as [|k]; [|apply Hstep].
  destruct (link_at (String c s)) as [[g n]|] eqn:Hlink; [|apply Hstep].
  intros [<-|Hin]; [|apply (Hstep _ Hin)].
  destruct (link_at_Some _ _ _ Hlink) as (name & tail & H1 & H2 & H3 & H4).
  exists name, EmptyString, tail. repeat split; try assumption.
Qed.

End LinkShape.

(** X10.  Every link that the link validator checks is a text that the
    roadmap holds between an opening and a closing parenthesis; it is the
    prefix [../plans/], a name of at least one character without a closing
    parenthesis, and [.md]; and the file whose existence is checked for it
    is [docs/plans/] followed by that name and [.md]. *)
Theorem roadmap_link_shape (roadmap rel : string) :
  In rel (Governance.sorted_set (Governance.findall_links 0 roadmap)) ->
  exists name,
    rel = "../plans/" +:+ name +:+ ".md"
    /\ is_empty name = false
    /\ Lines.every Governance.not_rparen name = true
    /\ contains ("(" +:+ rel +:+ ")") roadmap = true
    /\ Governance.resolve_link rel = "docs/plans/" +:+ name +:+ ".md".
Proof.
  intros Hin. apply (proj1 (sorted_set_In _ _)) in Hin.
  destruct (findall_links_found 0 roadmap rel Hin)
    as (name & before & after & H1 & H2 & H3 & H4).
  exists name. repeat split; try assumption.
  - apply contains_infix. exists before, after.
    rewrite H4, <- !append_assoc. reflexivity.
  - rewrite H1. reflexivity.
Qed.

Lemma roadmap_link_shape_witness :
  exists name,
    "../plans/old.md" = "../plans/" +:+ name +:+ ".md"
    /\ is_empty name = false
    /\ Lines.every Governance.not_rparen name = true
    /\ contains ("(" +:+ "../plans/old.md" +:+ ")") Fixtures.roadmap_linked = true
    /\ Governance.resolve_link "../plans/old.md" = "docs/plans/" +:+ name +:+ ".md".
Proof.
  refine (roadmap_link_shape Fixtures.roadmap_linked "../plans/old.md" _).
  vm_compute. right. left. reflexivity.
Defined.

(** ** A changelog without an Unreleased section *)

Section NoSection.

Import Lines.

Lemma every_append (p : ascii -> bool) (a b : string) :
  every p (a +:+ b) = every p a && every p b.
Proof.
  induction a as [|c a IH]; [reflexivity|].
  rewrite append_cons. cbn [every]. rewrite IH, andb_assoc. reflexivity.
Qed.

(** A heading pattern needs the line feed after the heading. *)
Lemma section_at_unterminated (heading term last : string) :
  one_line last = true -> section_at heading term last = None.
Proof.
  intros Hlast. unfold section_at.
  destruct (String.prefix _ last) eqn:E; [|reflexivity].
  apply prefix_split in E. rewrite E in Hlast. unfold one_line in Hlast.
  rewrite !every_append in Hlast. cbn in Hlast.
  rewrite andb_false_r in Hlast. discriminate.
Qed.

Lemma section_missing (heading term : string) (lines : list string)
  (last : string) :
  one_line heading = true ->
  Forall (fun line => one_line line = true) lines ->
  Forall (fun line => line <> heading) lines ->
  one_line last = true ->
  search_bol (section_at heading term) (unlines lines +:+ last) = None.
Proof.
  intros Hh Hlines Hne Hlast.
  rewrite (search_passes_lines heading term Hh lines last Hlines Hne).
  apply search_last_line; [exact Hlast|].
  apply section_at_unterminated, Hlast.
Qed.

End NoSection.

(** X11.  A changelog has no Unreleased section for either script when no
    line of it that ends in a line feed is exactly [## [Unreleased]]: the
    heading as the last line of the text without a line feed after it, the
    heading followed by a carriage return or by a space, or an indented
    heading do not count.  The validator then adds its missing-section
    error and takes the body as empty, and the generator raises its
    [ValueError]. *)
Theorem unreleased_needs_whole_line (lines : list string) (last : string)
  (errors : list string) :
  Forall (fun line => Lines.one_line line = true) lines ->
  Forall (fun line => line <> "## [Unreleased]") lines ->
  Lines.one_line last = true ->
  let changelog := Lines.unlines lines +:+ last in
  Governance.extract_unreleased changelog errors
  = (EmptyString, errors ++ ["CHANGELOG.md is missing a [Unreleased] section"])
  /\ ReleaseNotes.extract_unreleased changelog
     = inl (ReleaseNotes.ValueError
              "CHANGELOG.md is missing a [Unreleased] section").
Proof.
  intros Hlines Hne Hlast changelog.
  assert (H : search_bol (section_at "## [Unreleased]" "## [") changelog = None).
  { apply section_missing; first [reflexivity | assumption]. }
  unfold Governance.extract_unreleased, Governance.unreleased_match,
    ReleaseNotes.extract_unreleased.
  rewrite H. split; reflexivity.
Qed.

Lemma unreleased_needs_whole_line_witness :
  Governance.extract_unreleased Fixtures.changelog_unterminated []
  = (EmptyString, ["CHANGELOG.md is missing a [Unreleased] section"])
  /\ ReleaseNotes.extract_unreleased Fixtures.changelog_unterminated
     = inl (ReleaseNotes.ValueError
              "CHANGELOG.md is missing a [Unreleased] section").
Proof.
  refine (unreleased_needs_whole_line ["# Changelog"; ""] "## [Unreleased]" []
            _ _ _).
  - repeat constructor.
  - repeat constructor; discriminate.
  - reflexivity.
Defined.

(** ** From the validator to the generator *)

Section Handover.

Import Governance.

Lemma prefix_of_nil (errors : list string) : errors `prefix_of` [] -> errors = [].
Proof.
  intros [x H]. destruct errors; [reflexivity | discriminate].
Qed.

(** A run of the alignment stage that leaves no error has found the two
    metadata lines and the Unreleased section. *)
Lemma check_alignment_nil (roadmap changelog : string) (errors : list string) :
  check_alignment roadmap changelog errors = [] ->
  exists p d unreleased,
    phase_match roadmap = Some p
    /\ date_match roadmap = Some d
    /\ unreleased_match changelog = Some unreleased.
Proof.
  intros Hnil.
  assert (Hpre : Kinds.parsing_errors roadmap changelog errors = []).
  { apply prefix_of_nil.
    assert (H : Kinds.parsing_errors roadmap changelog errors
                  `prefix_of` check_alignment roadmap changelog errors).
    { rewrite check_alignment_cases.
      destruct (Kinds.all_present roadmap changelog).
      - apply validate_roadmap_alignment_block_extends.
      - apply prefix_of_refl. }
    rewrite Hnil in H. exact H. }
  unfold Kinds.parsing_errors, extract_unreleased, parse_roadmap_metadata in Hpre.
  destruct (unreleased_match changelog) as [unreleased|]; cbn [snd] in Hpre;
    [|apply app_eq_nil in Hpre as [_ Hpre]; discriminate].
  destruct (phase_match roadmap) as [p|], (date_match roadmap) as [d|];
    try (apply app_eq_nil in Hpre as [_ Hpre]; discriminate).
  exists p, d, unreleased. repeat split.
Qed.

End Handover.

(** X12.  What the validator lets pass, the generator can use: when the
    roadmap and the changelog are there and not empty and the validator
    finds no error at all, the generator called on the same two files
    raises nothing in its four steps and reaches its write with the notes
    rendered from the phase and the date that the validator parsed and
    from the Unreleased body that it extracted. *)
Theorem passing_docs_generate
  (fs : gmap string string) (roadmap changelog version output : string) :
  fs !! Governance.ROADMAP_PATH = Some roadmap ->
  fs !! Governance.CHANGELOG_PATH = Some changelog ->
  is_empty roadmap = false ->
  is_empty changelog = false ->
  Governance.main_errors fs = [] ->
  ReleaseNotes.generate
    (ReleaseNotes.Args version Governance.CHANGELOG_PATH Governance.ROADMAP_PATH
       output) fs
  = inr (ReleaseNotes.render_release_notes version
           (Kinds.parsed_phase roadmap) (Kinds.parsed_updated roadmap)
           (ReleaseNotes.collect_section_items
              (Kinds.unreleased_body changelog))).
Proof.
  intros Hr Hc Hre Hce Hnil.
  assert (Halign : Governance.check_alignment roadmap changelog
                     (Governance.validate_roadmap_links fs roadmap []) = []).
  { apply prefix_of_nil.
    assert (Hpre : Governance.check_alignment roadmap changelog
                     (Governance.validate_roadmap_links fs roadmap [])
                     `prefix_of` Governance.main_errors fs).
    { unfold Governance.main_errors, Governance.read_text.
      rewrite Hr, Hc, Hre, Hce. cbn [negb andb].
      eapply prefix_of_trans'; [|apply validate_release_template_extends].
      apply validate_plan_lifecycle_extends. }
    rewrite Hnil in Hpre. exact Hpre. }
  destruct (check_alignment_nil _ _ _ Halign) as (p & d & unreleased & Hp & Hd & Hu).
  unfold Kinds.parsed_phase, Kinds.parsed_updated, Kinds.unreleased_body,
    Governance.parse_roadmap_metadata, Governance.extract_unreleased.
  rewrite Hp, Hd, Hu. cbn [fst snd Governance.group_or_empty].
  unfold Governance.phase_match in Hp. unfold Governance.date_match in Hd.
  unfold Governance.unreleased_match in Hu.
  unfold ReleaseNotes.generate, ReleaseNotes.read_text.
  cbn [ReleaseNotes.changelog ReleaseNotes.roadmap ReleaseNotes.version
       ReleaseNotes.output].
  rewrite Hc, Hr. simpl.
  unfold ReleaseNotes.extract_unreleased. rewrite Hu. simpl.
  unfold ReleaseNotes.parse_roadmap_metadata. rewrite Hp, Hd. simpl.
  reflexivity.
Qed.

Lemma passing_docs_generate_witness :
  ReleaseNotes.generate
    (ReleaseNotes.Args "v0.3.0" Governance.CHANGELOG_PATH Governance.ROADMAP_PATH
       "notes.md") Fixtures.repo_passing
  = inr (ReleaseNotes.render_release_notes "v0.3.0"
           (Kinds.parsed_phase Fixtures.roadmap)
           (Kinds.parsed_updated Fixtures.roadmap)
           (ReleaseNotes.collect_section_items
              (Kinds.unreleased_body Fixtures.changelog))).
Proof.
  refine (passing_docs_generate Fixtures.repo_passing Fixtures.roadmap
            Fixtures.changelog "v0.3.0" "notes.md" _ _ _ _ _);
    vm_compute; reflexivity.
Defined.

(** ** Running the generator again *)



(** ** What the collector files *)

Section Collecting.

Import ReleaseNotes.

Lemma fresh_items_lookup (sections : list string) (key : string)
  (entries : list string) :
  foldr (fun section items => <[section := []]> items)
    (∅ : gmap string (list string)) sections !! key = Some entries ->
  In key sections /\ entries = [].
Proof.
  induction sections as [|section sections IH]; cbn [foldr].
  - rewrite lookup_empty. discriminate.
  - intros H. apply lookup_insert_Some in H as [[<- <-]|[_ H]].
    + split; [left|]; reflexivity.
    + destruct (IH H) as [Hin ->]. split; [right; exact Hin | reflexivity].
Qed.

Lemma fresh_items_keys (sections : list string) (key : string) :
  In key sections ->
  is_Some (foldr (fun section items => <[section := []]> items)
             (∅ : gmap string (list string)) sections !! key).
Proof.
  induction sections as [|section sections IH]; cbn [foldr In]; [intros []|].
  intros Hin. apply lookup_insert_is_Some.
  destruct (decide (section = key)) as [E|E]; [left; exact E|].
  right. split; [exact E|]. apply IH. destruct Hin; [contradiction | assumption].
Qed.

Lemma empty_items_collected : Shapes.collected [] (empty_items, None).
Proof.
  unfold Shapes.collected, empty_items. cbn [fst snd]. repeat split.
  - intros [entries H]. apply (fresh_items_lookup _ _ _ H).
  - apply fresh_items_keys.
  - discriminate.
  - destruct (fresh_items_lookup _ _ _ H) as [_ ->]. apply sublist_nil_l.
  - destruct (fresh_items_lookup _ _ _ H) as [_ ->]. constructor.
Qed.

Lemma collect_line_collected (done : list string)
  (st : gmap string (list string) * option string) (raw_line : string) :
  Shapes.collected done st ->
  Shapes.collected (done ++ [raw_line]) (collect_line st raw_line).
Proof.
  destruct st as [items current]. unfold Shapes.collected. cbn [fst snd].
  intros (Hkeys & Hcur & Hentries).
  assert (Hkeep : forall key entries,
            items !! key = Some entries ->
            entries `sublist_of` map rstrip (done ++ [raw_line])
            /\ Forall Shapes.entry entries).
  { intros key entries H. destruct (Hentries key entries H) as [Hsub Hall].
    split; [|exact Hall]. rewrite map_app. apply sublist_inserts_r, Hsub. }
  unfold collect_line.
  destruct (heading_match (rstrip raw_line)) as [g|] eqn:Hhead; cbn [fst snd].
  { split; [exact Hkeys|]. split; [|exact Hkeep].
    intros section. destruct (items !! strip g) eqn:Hg; [|discriminate].
    intros [= <-]. apply Hkeys. rewrite Hg. eexists. reflexivity. }
  destruct current as [section|]; cbn [fst snd];
    [|split; [exact Hkeys|]; split; [exact Hcur | exact Hkeep]].
  destruct (bullet_match (rstrip raw_line)) eqn:Hbullet; cbn [fst snd];
    [|split; [exact Hkeys|]; split; [exact Hcur | exact Hkeep]].
  pose proof (Hcur section eq_refl) as Hsection.
  split; [|split; [exact Hcur|]].
  - intros key. rewrite lookup_insert_is_Some, Hkeys.
    split; [intros [<-|[_ H]]; assumption|].
    intros H. destruct (decide (section = key)) as [E|E]; [left|right]; tauto.
  - intros key entries H.
    apply lookup_insert_Some in H as [[_ <-]|[_ H]]; [|apply (Hkeep key entries H)].
    destruct (proj2 (Hkeys section) Hsection) as [old Hold].
    rewrite Hold. cbn [default].
    destruct (Hentries section old Hold) as [Hsub Hall]. split.
    + rewrite map_app. apply sublist_app; [exact Hsub | reflexivity].
    + apply Forall_app. split; [exact Hall|].
      apply Forall_cons. split; [split; assumption | constructor].
Qed.

Lemma collect_lines_collected (lines done : list string)
  (st : gmap string (list string) * option string) :
  Shapes.collected done st ->
  Shapes.collected (done ++ lines) (foldl collect_line st lines).
Proof.
  revert done st. induction lines as [|line lines IH]; intros done st H.
  - rewrite app_nil_r. exact H.
  - cbn [foldl]. change (line :: lines) with ([line] ++ lines).
    rewrite app_assoc. apply IH, collect_line_collected, H.
Qed.

End Collecting.

(** X14.  The collector returns a dictionary whose keys are exactly the six
    categories, whatever the Unreleased body holds.  Every list in it is
    made of lines of the body with the white space at their end removed,
    in the order of the body and never out of anything else; and every
    entry is a bullet line (optional white space, a dash, white space) that
    is not a heading. *)
Theorem collected_entries_are_body_lines (unreleased : string) :
  let items := ReleaseNotes.collect_section_items unreleased in
  (forall key, is_Some (items !! key) <-> In key ReleaseNotes.SECTIONS)
  /\ (forall key entries,
        items !! key = Some entries ->
        entries `sublist_of` map rstrip (splitlines unreleased)
        /\ Forall Shapes.entry entries).
Proof.
  pose proof (collect_lines_collected (splitlines unreleased) []
                (ReleaseNotes.empty_items, None) empty_items_collected) as H.
  destruct H as (Hkeys & _ & Hentries). split; [exact Hkeys | exact Hentries].
Qed.

Lemma collect_line_idle (raw_line : string) :
  Shapes.no_category raw_line ->
  ReleaseNotes.collect_line (ReleaseNotes.empty_items, None) raw_line
  = (ReleaseNotes.empty_items, None).
Proof.
  unfold Shapes.no_category, ReleaseNotes.collect_line.
  destruct (ReleaseNotes.heading_match (rstrip raw_line)) as [g|]; [|reflexivity].
  intros Hno.
  destruct (ReleaseNotes.empty_items !! strip g) as [entries|] eqn:E;
    [|reflexivity].
  exfalso. apply Hno. apply (fresh_items_lookup _ _ _ E).
Qed.

(** X15.  The collector knows the categories by their exact names only.
    When no heading line of the Unreleased body names one of the six
    categories (after trimming), as with [### added] in lower case or with
    bullets that stand under no heading, nothing is collected: the result
    is the dictionary of six empty lists, and each category of the notes
    shows the placeholder. *)
Theorem unrecognised_headings_collect_nothing (unreleased : string) :
  Forall Shapes.no_category (splitlines unreleased) ->
  ReleaseNotes.collect_section_items unreleased = ReleaseNotes.empty_items
  /\ forall section,
       In section ReleaseNotes.SECTIONS ->
       Notes.category_block (ReleaseNotes.collect_section_items unreleased) section
       = ["### " +:+ section; "- None"].
Proof.
  intros Hlines.
  assert (H : ReleaseNotes.collect_section_items unreleased
              = ReleaseNotes.empty_items).
  { unfold ReleaseNotes.collect_section_items.
    induction (splitlines unreleased) as [|line lines IH]; [reflexivity|].
    apply Forall_cons in Hlines as [Hline Hlines].
    cbn [foldl]. rewrite (collect_line_idle line Hline). apply IH, Hlines. }
  split; [exact H|]. intros section Hin. rewrite H.
  unfold Notes.category_block.
  destruct (ReleaseNotes.empty_items !! section) as [entries|] eqn:E;
    cbn [default]; [|reflexivity].
  destruct (fresh_items_lookup _ _ _ E) as [_ ->]. reflexivity.
Qed.

Lemma unrecognised_headings_collect_nothing_witness :
  ReleaseNotes.collect_section_items Fixtures.unreleased_unrecognised
  = ReleaseNotes.empty_items.
Proof.
  refine (proj1 (unrecognised_headings_collect_nothing
                   Fixtures.unreleased_unrecognised _)).
  let lines := eval vm_compute in (splitlines Fixtures.unreleased_unrecognised) in
  change (Forall Shapes.no_category lines).
  repeat constructor; vm_compute; first [exact I | intuition discriminate].
Defined.

(** ** Reading the roadmap metadata back *)

Section Labels.

Import Lines.

Variable label : string.
Hypothesis label_one_line : one_line label = true.

Lemma labelled_other_line {A} (m : string -> option A) (line rest : string) :
  String.prefix label line = false ->
  labelled label m (line +:+ String nl rest) = None.
Proof.
  intros Hline. unfold labelled.
  rewrite (prefix_of_line label line (String nl rest) label_one_line eq_refl), Hline.
  reflexivity.
Qed.

Lemma search_passes_unlabelled {A} (m : string -> option A)
  (before : list string) (rest : string) :
  Forall (fun line => one_line line = true) before ->
  Forall (fun line => String.prefix label line = false) before ->
  search_bol (labelled label m) (unlines before +:+ rest)
  = search_bol (labelled label m) rest.
Proof.
  unfold search_bol.
  induction before as [|line before IH]; intros Hlines Hne; [reflexivity|].
  apply Forall_cons in Hlines as [Hline Hlines].
  apply Forall_cons in Hne as [Hother Hne].
  cbn [unlines]. rewrite append_assoc, append_cons.
  rewrite search_next_line.
  - apply IH; assumption.
  - exact Hline.
  - apply labelled_other_line, Hother.
Qed.

Lemma labelled_here {A} (m : string -> option A) (rest : string) :
  labelled label m (label +:+ rest) = m rest.
Proof.
  unfold labelled. rewrite prefix_append, slice_from_append. reflexivity.
Qed.

(** The label at a line start, after lines that do not start with it. *)
Lemma search_label {A} (m : string -> option A) (before : list string)
  (rest : string) (r : A) :
  Forall (fun line => one_line line = true) before ->
  Forall (fun line => String.prefix label line = false) before ->
  m rest = Some r ->
  search_bol (labelled label m) (unlines before +:+ label +:+ rest) = Some r.
Proof.
  intros Hlines Hne Hm.
  rewrite (search_passes_unlabelled m before _ Hlines Hne).
  apply search_found. rewrite labelled_here. exact Hm.
Qed.

End Labels.

Section Values.

Import Lines Shapes.

Lemma drop_blank_prefix (ws s : string) :
  blank ws = true -> starts_nonspace s = true ->
  drop_while isspace (ws +:+ s) = s.
Proof.
  intros Hws Hs.
  change (drop_while isspace (ws +:+ s)) with (lstrip (ws +:+ s)).
  rewrite (lstrip_blank_prefix ws s Hws). apply lstrip_starts_nonspace, Hs.
Qed.

Lemma take_line (value rest : string) :
  one_line value = true -> at_eol rest = true ->
  take_while not_nl (value +:+ rest) = value.
Proof.
  intros Hvalue Hrest. induction value as [|c value IH].
  - rewrite append_nil_l. destruct rest as [|c rest]; [reflexivity|].
    cbn [at_eol] in Hrest. cbn [take_while]. unfold not_nl. rewrite Hrest.
    reflexivity.
  - cbn [one_line every] in Hvalue. apply andb_true_iff in Hvalue as [Hc Hvalue].
    rewrite append_cons. cbn [take_while]. rewrite Hc. f_equal.
    apply IH, Hvalue.
Qed.

Lemma starts_nonspace_append (s t : string) :
  starts_nonspace s = true -> starts_nonspace (s +:+ t) = true.
Proof. destruct s as [|c s]; [discriminate|]. intros H. exact H. Qed.

Lemma spaces_then_rest_value (ws value rest : string) :
  blank ws = true -> starts_nonspace value = true ->
  one_line value = true -> at_eol rest = true ->
  spaces_then_rest (ws +:+ value +:+ rest) = Some value.
Proof.
  intros Hws Hstart Hline Hrest. unfold spaces_then_rest.
  rewrite (drop_blank_prefix ws (value +:+ rest) Hws
             (starts_nonspace_append value rest Hstart)).
  destruct value as [|c value]; [discriminate|].
  rewrite append_cons. rewrite <- (append_cons c value rest).
  rewrite (take_line _ rest Hline Hrest). reflexivity.
Qed.

Lemma drop_blank (ws : string) :
  blank ws = true -> drop_while isspace ws = EmptyString.
Proof.
  unfold blank. induction ws as [|c ws IH]; [reflexivity|].
  cbn [every]. intros H. apply andb_true_iff in H as [Hc H].
  cbn [drop_while]. rewrite Hc. apply IH, H.
Qed.

Lemma last_not_nl_every (p : ascii -> bool) (s : string) (c : ascii) :
  every p s = true -> last_not_nl s = Some c -> p c = true.
Proof.
  induction s as [|a s IH]; [discriminate|].
  cbn [every last_not_nl]. intros H. apply andb_true_iff in H as [Ha H].
  destruct (last_not_nl s) as [x|].
  - intros [= <-]. apply IH; [exact H | reflexivity].
  - destruct (ascii_eqb a nl); [discriminate|]. intros [= <-]. exact Ha.
Qed.

Lemma strip_space (c : ascii) :
  isspace c = true -> strip (String c EmptyString) = EmptyString.
Proof.
  intros Hc. unfold strip, lstrip, rstrip. cbn [drop_while]. rewrite Hc.
  reflexivity.
Qed.

Lemma match_classes_append (classes : list (ascii -> bool)) (d rest : string) :
  match_classes classes d = Some (d, EmptyString) ->
  match_classes classes (d +:+ rest) = Some (d, rest).
Proof.
  revert d. induction classes as [|p classes IH]; intros d.
  - cbn [match_classes]. intros [= <- _]. reflexivity.
  - destruct d as [|c d]; [discriminate|]. cbn [match_classes].
    rewrite append_cons. cbn [match_classes].
    destruct (p c); [|discriminate].
    destruct (match_classes classes d) as [[d' r]|] eqn:E; [|discriminate].
    intros [= -> ->]. rewrite (IH d E). reflexivity.
Qed.

Lemma is_date_match (d : string) :
  is_date d = true -> match_classes DATE d = Some (d, EmptyString).
Proof.
  unfold is_date.
  destruct (match_classes DATE d) as [[d' r]|] eqn:E; [|discriminate].
  destruct r; [|discriminate]. intros _.
  pose proof (match_classes_split _ _ _ _ E) as Hd.
  rewrite append_nil_r in Hd. subst d'. reflexivity.
Qed.

Lemma match_classes_every (q : ascii -> bool) (classes : list (ascii -> bool))
  (s d r : string) :
  Forall (fun p => forall c, p c = true -> q c = true) classes ->
  match_classes classes s = Some (d, r) -> every q d = true.
Proof.
  intros Hclasses. revert s d r.
  induction Hclasses as [|p classes Hp _ IH]; intros s d r.
  - cbn [match_classes]. intros [= <- _]. reflexivity.
  - destruct s as [|c s]; [discriminate|]. cbn [match_classes].
    destruct (p c) eqn:Hc; [|discriminate].
    destruct (match_classes classes s) as [[d' r']|] eqn:E; [|discriminate].
    intros [= <- _]. cbn [every]. rewrite (Hp c Hc), (IH _ _ _ E). reflexivity.
Qed.

Lemma strip_no_space (s : string) :
  every (fun c => negb (isspace c)) s = true -> strip s = s.
Proof.
  intros H. unfold strip.
  assert (Hl : lstrip s = s).
  { destruct s as [|c s]; [reflexivity|]. cbn [every] in H.
    apply andb_true_iff in H as [Hc _]. apply negb_true_iff in Hc.
    unfold lstrip. cbn [drop_while]. rewrite Hc. reflexivity. }
  rewrite Hl. unfold rstrip. induction s as [|c s IH]; [reflexivity|].
  cbn [every] in H. apply andb_true_iff in H as [Hc H].
  apply negb_true_iff in Hc. cbn [drop_while_end].
  rewrite IH, Hc, andb_false_r; [reflexivity | exact H |].
  destruct s as [|a s]; [reflexivity|]. cbn [every] in H.
  apply andb_true_iff in H as [Ha _]. apply negb_true_iff in Ha.
  unfold lstrip. cbn [drop_while]. rewrite Ha. reflexivity.
Qed.

Lemma date_no_space (d : string) :
  is_date d = true -> every (fun c => negb (isspace c)) d = true.
Proof.
  intros Hd. apply is_date_match in Hd.
  apply (match_classes_every _ DATE d d EmptyString); [|exact Hd].
  unfold DATE.
  repeat (apply List.Forall_cons;
          [intros c Hc;
           first [ rewrite (digit_not_space c Hc); reflexivity
                 | apply ascii_eqb_eq in Hc; subst c; reflexivity ]|]).
  apply List.Forall_nil.
Qed.

Lemma date_starts_nonspace (d : string) :
  is_date d = true -> starts_nonspace d = true.
Proof.
  intros Hd. pose proof (date_no_space d Hd) as H.
  destruct d as [|c d]; [discriminate|].
  cbn [every] in H. apply andb_true_iff in H as [Hc _]. exact Hc.
Qed.

Lemma spaces_then_date_value (ws d rest : string) :
  blank ws = true -> is_date d = true -> at_eol rest = true ->
  spaces_then_date (ws +:+ d +:+ rest) = Some d.
Proof.
  intros Hws Hd Hrest. unfold spaces_then_date.
  rewrite (drop_blank_prefix ws (d +:+ rest) Hws
             (starts_nonspace_append d rest (date_starts_nonspace d Hd))).
  rewrite (match_classes_append DATE d rest (is_date_match d Hd)), Hrest.
  reflexivity.
Qed.

End Values.

(** X16.  The phase of the roadmap is read back from its label line: after
    lines that do not start with the label, the line start
    [**Current Phase:**], any white space and a value that starts with a
    character other than white space and runs to the end of its line, the
    parser returns the value without the white space at its end.  The
    white space between the label and the value may hold line ends, so a
    label that stands alone on its line takes the following text line as
    its value. *)
Theorem phase_read_back (before : list string) (ws value rest : string) :
  Forall (fun line => Lines.one_line line = true) before ->
  Forall (fun line => String.prefix "**Current Phase:**" line = false) before ->
  Shapes.blank ws = true ->
  Shapes.starts_nonspace value = true ->
  Lines.one_line value = true ->
  at_eol rest = true ->
  let roadmap :=
    Lines.unlines before +:+ "**Current Phase:**" +:+ ws +:+ value +:+ rest in
  Governance.phase_match roadmap = Some value
  /\ Kinds.parsed_phase roadmap = rstrip value
  /\ is_empty (Kinds.parsed_phase roadmap) = false.
Proof.
  intros Hlines Hne Hws Hstart Hline Hrest roadmap.
  assert (H : Governance.phase_match roadmap = Some value).
  { apply search_label; try assumption; [reflexivity|].
    apply spaces_then_rest_value; assumption. }
  split; [exact H|].
  assert (Hphase : Kinds.parsed_phase roadmap = rstrip value).
  { unfold Kinds.parsed_phase, Governance.parse_roadmap_metadata.
    cbn [fst]. rewrite H. cbn [Governance.group_or_empty]. unfold strip.
    rewrite (lstrip_starts_nonspace value Hstart). reflexivity. }
  split; [exact Hphase|]. rewrite Hphase.
  destruct value as [|c value]; [discriminate|].
  cbn [Shapes.starts_nonspace] in Hstart. apply negb_true_iff in Hstart.
  unfold rstrip. cbn [drop_while_end]. rewrite Hstart, andb_false_r.
  reflexivity.
Qed.

Lemma phase_read_back_witness :
  Governance.phase_match "# Roadmap
**Current Phase:**

M3 (beta)  
**Last Updated:** 2024-05-01
" = Some "M3 (beta)  "
  /\ Kinds.parsed_phase "# Roadmap
**Current Phase:**

M3 (beta)  
**Last Updated:** 2024-05-01
" = rstrip "M3 (beta)  "
  /\ is_empty (Kinds.parsed_phase "# Roadmap
**Current Phase:**

M3 (beta)  
**Last Updated:** 2024-05-01
") = false.
Proof.
  refine (phase_read_back ["# Roadmap"] "

" "M3 (beta)  " "
**Last Updated:** 2024-05-01
" _ _ _ _ _ _); try reflexivity; repeat constructor.
Defined.

(** X17.  The date of the roadmap is read back from its label line: after
    lines that do not start with the label, the line start
    [**Last Updated:**], any white space and a date of the shape
    YYYY-MM-DD that ends its line, the parser returns exactly that date,
    and no missing-date error is added. *)
Theorem date_read_back (before : list string) (ws date rest : string)
  (errors : list string) :
  Forall (fun line => Lines.one_line line = true) before ->
  Forall (fun line => String.prefix "**Last Updated:**" line = false) before ->
  Shapes.blank ws = true ->
  Lines.is_date date = true ->
  at_eol rest = true ->
  let roadmap :=
    Lines.unlines before +:+ "**Last Updated:**" +:+ ws +:+ date +:+ rest in
  Governance.date_match roadmap = Some date
  /\ Kinds.parsed_updated roadmap = date
  /\ ~ In Governance.missing_date_error
         (snd (Governance.parse_roadmap_metadata roadmap [])).
Proof.
  intros Hlines Hne Hws Hdate Hrest roadmap.
  assert (H : Governance.date_match roadmap = Some date).
  { apply search_label; try assumption; [reflexivity|].
    apply spaces_then_date_value; assumption. }
  split; [exact H|]. split.
  - unfold Kinds.parsed_updated, Governance.parse_roadmap_metadata.
    cbn [fst snd]. rewrite H. cbn [Governance.group_or_empty].
    apply strip_no_space, date_no_space, Hdate.
  - unfold Governance.parse_roadmap_metadata. cbn [snd]. rewrite H.
    destruct (Governance.phase_match roadmap); cbn [app In].
    + tauto.
    + intros [E|[]]. discriminate E.
Qed.

Lemma date_read_back_witness :
  Governance.date_match Fixtures.roadmap = Some "2024-05-01"
  /\ Kinds.parsed_updated Fixtures.roadmap = "2024-05-01"
  /\ ~ In Governance.missing_date_error
         (snd (Governance.parse_roadmap_metadata Fixtures.roadmap [])).
Proof.
  refine (date_read_back ["# Roadmap"; "**Current Phase:** M3"] " "
            "2024-05-01" "
" [] _ _ _ _ _); try reflexivity; repeat constructor.
Defined.

(** X18.  A phase label that is followed by white space only, up to the end
    of the roadmap, counts as present although it gives no phase: when
    that white space holds a character other than a line feed, the phase
    pattern matches on one such character, the parsed phase is empty, no
    missing-phase error is added, and the driver skips the alignment
    validator. *)
Theorem blank_phase_is_not_reported
  (before : list string) (ws : string) (c : ascii) :
  Forall (fun line => Lines.one_line line = true) before ->
  Forall (fun line => String.prefix "**Current Phase:**" line = false) before ->
  Shapes.blank ws = true ->
  last_not_nl ws = Some c ->
  let roadmap := Lines.unlines before +:+ "**Current Phase:**" +:+ ws in
  Governance.phase_match roadmap = Some (String c EmptyString)
  /\ Kinds.parsed_phase roadmap = EmptyString
  /\ (forall errors,
        ~ In Governance.missing_phase_error errors ->
        ~ In Governance.missing_phase_error
            (snd (Governance.parse_roadmap_metadata roadmap errors)))
  /\ (forall changelog errors,
        Governance.check_alignment roadmap changelog errors
        = Kinds.parsing_errors roadmap changelog errors).
Proof.
  intros Hlines Hne Hws Hlast roadmap.
  assert (H : Governance.phase_match roadmap = Some (String c EmptyString)).
  { apply search_label; try assumption; [reflexivity|].
    unfold spaces_then_rest. rewrite (drop_blank ws Hws), Hlast. reflexivity. }
  assert (Hphase : Kinds.parsed_phase roadmap = EmptyString).
  { unfold Kinds.parsed_phase, Governance.parse_roadmap_metadata.
    cbn [fst]. rewrite H. cbn [Governance.group_or_empty].
    apply strip_space, (last_not_nl_every isspace ws c Hws Hlast). }
  split; [exact H|]. split; [exact Hphase|]. split.
  - intros errors Hnot. unfold Governance.parse_roadmap_metadata. cbn [snd].
    rewrite H. destruct (Governance.date_match roadmap); [exact Hnot|].
    rewrite in_app_iff. cbn [In]. intros [Hin|[E|[]]]; [tauto | discriminate E].
  - intros changelog errors. rewrite check_alignment_cases.
    unfold Kinds.all_present. rewrite Hphase. reflexivity.
Qed.

Lemma blank_phase_is_not_reported_witness :
  Governance.phase_match Fixtures.roadmap_blank_phase = Some " "
  /\ Kinds.parsed_phase Fixtures.roadmap_blank_phase = EmptyString
  /\ (forall errors,
        ~ In Governance.missing_phase_error errors ->
        ~ In Governance.missing_phase_error
            (snd (Governance.parse_roadmap_metadata
                    Fixtures.roadmap_blank_phase errors)))
  /\ (forall changelog errors,
        Governance.check_alignment Fixtures.roadmap_blank_phase changelog errors
        = Kinds.parsing_errors Fixtures.roadmap_blank_phase changelog errors).
Proof.
  refine (blank_phase_is_not_reported
            ["# Roadmap"; "**Last Updated:** 2024-05-01"] " " " "%char _ _ _ _);
    try reflexivity; repeat constructor.
Defined.

(** ** The notes and the template *)

Section NotesAndTemplate.

Import ReleaseNotes Notes.

(** Every line of a joined list is a part of the joined text. *)
Lemma join_infix (sep line : string) (lines : list string) :
  In line lines ->
  exists before after, join sep lines = before +:+ line +:+ after.
Proof.
  induction lines as [|l lines IH]; [intros []|].
  intros [->|Hin].
  - exists EmptyString. destruct lines as [|l' lines].
    + exists EmptyString. cbn [join]. rewrite append_nil_r. reflexivity.
    + exists (sep +:+ join sep (l' :: lines)). reflexivity.
  - destruct (IH Hin) as (before & after & E).
    destruct lines as [|l' lines]; [destruct Hin|].
    exists (l +:+ sep +:+ before), after.
    change (join sep (l :: l' :: lines))
      with (l +:+ sep +:+ join sep (l' :: lines)).
    rewrite E, !append_assoc. reflexivity.
Qed.

Lemma is_empty_append (a b : string) :
  is_empty b = false -> is_empty (a +:+ b) = false.
Proof. destruct a; [intros H; exact H | reflexivity]. Qed.

Lemma drop_while_end_append (p : ascii -> bool) (a b : string) :
  drop_while_end p (a +:+ b)
  = if is_empty (drop_while_end p b) then drop_while_end p a
    else a +:+ drop_while_end p b.
Proof.
  induction a as [|c a IH].
  - rewrite append_nil_l. destruct (drop_while_end p b); reflexivity.
  - rewrite append_cons. cbn [drop_while_end]. rewrite IH.
    destruct (is_empty (drop_while_end p b)) eqn:E; [reflexivity|].
    rewrite (is_empty_append a _ E). reflexivity.
Qed.

(** Trimming at the end keeps everything up to a part that ends in a
    character other than white space. *)
Lemma rstrip_keeps (a h b : string) :
  ends_nonspace h = true ->
  exists b', rstrip (a +:+ h +:+ b) = a +:+ h +:+ b'.
Proof.
  intros Hh. unfold rstrip.
  rewrite <- append_assoc, drop_while_end_append.
  destruct (is_empty (drop_while_end isspace b)).
  - exists EmptyString. rewrite append_nil_r.
    apply (rstrip_fixed (a +:+ h)), ends_nonspace_append, Hh.
  - exists (drop_while_end isspace b). rewrite append_assoc. reflexivity.
Qed.

Lemma section_loop_keeps (items : gmap string (list string))
  (sections : list string) (lines : list string) (line : string) :
  In line lines ->
  In line (foldl (fun lines section => lines ++ section_lines items section)
             lines sections).
Proof.
  revert lines. induction sections as [|s sections IH]; intros lines Hin;
    [exact Hin|].
  cbn [foldl]. apply IH, in_or_app. left. exact Hin.
Qed.

Lemma section_loop_headings (items : gmap string (list string))
  (sections : list string) (lines : list string) (section : string) :
  In section sections ->
  In ("### " +:+ section)
     (foldl (fun lines section => lines ++ section_lines items section)
        lines sections).
Proof.
  revert lines. induction sections as [|s sections IH]; intros lines;
    [intros []|].
  cbn [foldl]. intros [->|Hin]; [|apply IH, Hin].
  apply section_loop_keeps, in_or_app. right. left. reflexivity.
Qed.

Lemma required_heading_rendered (version phase updated : string)
  (items : gmap string (list string)) (heading : string) :
  In heading Governance.REQUIRED_TEMPLATE_HEADINGS ->
  In heading (render_lines version phase updated items)
  /\ ends_nonspace heading = true.
Proof.
  intros Hin. unfold render_lines.
  cbn [In Governance.REQUIRED_TEMPLATE_HEADINGS] in Hin.
  destruct Hin as [<-|[<-|Hin]].
  - split; [|reflexivity]. apply in_or_app. left. left. reflexivity.
  - split; [|reflexivity]. apply in_or_app. left.
    do 5 right. left. reflexivity.
  - assert (Hs : exists section,
               In section SECTIONS /\ heading = "### " +:+ section).
    { destruct Hin as [<-|[<-|[<-|[<-|[<-|[<-|[]]]]]]];
        eexists; (split; [|reflexivity]); cbn; tauto. }
    destruct Hs as (section & Hsection & ->). split.
    + apply in_or_app. right. apply section_loop_headings, Hsection.
    + cbn [In SECTIONS] in Hsection.
      destruct Hsection as [<-|[<-|[<-|[<-|[<-|[<-|[]]]]]]]; reflexivity.
Qed.

Lemma required_heading_contained (version phase updated : string)
  (items : gmap string (list string)) (heading : string) :
  In heading Governance.REQUIRED_TEMPLATE_HEADINGS ->
  contains heading (render_release_notes version phase updated items) = true.
Proof.
  intros Hin.
  destruct (required_heading_rendered version phase updated items heading Hin)
    as [Hline Hends].
  destruct (join_infix (String nl EmptyString) heading _ Hline)
    as (before & after & E).
  destruct (rstrip_keeps before heading after Hends) as (after' & E').
  apply contains_infix. exists before, (after' +:+ String nl EmptyString).
  unfold render_release_notes. rewrite E, E', !append_assoc. reflexivity.
Qed.

End NotesAndTemplate.

(** X19.  The notes that the generator renders follow the template that the
    validator asks for: for every version, phase, date and dictionary of
    entries, the rendered text contains each of the eight required
    headings, so the template validator run on the rendered text as the
    template adds no error. *)
Theorem rendered_notes_have_required_headings
  (version phase updated : string) (items : gmap string (list string))
  (fs : gmap string string) (errors : list string) :
  let notes := ReleaseNotes.render_release_notes version phase updated items in
  (forall heading,
     In heading Governance.REQUIRED_TEMPLATE_HEADINGS ->
     contains heading notes = true)
  /\ (fs !! Governance.RELEASE_TEMPLATE_PATH = Some notes ->
      Governance.validate_release_template fs errors = errors).
Proof.
  intros notes.
  assert (H : forall heading,
            In heading Governance.REQUIRED_TEMPLATE_HEADINGS ->
            contains heading notes = true).
  { intros heading. apply required_heading_contained. }
  split; [exact H|]. intros Hfile.
  unfold Governance.validate_release_template, Governance.read_text.
  rewrite Hfile.
  assert (Hne : is_empty notes = false).
  { subst notes. unfold ReleaseNotes.render_release_notes.
    apply is_empty_append. reflexivity. }
  rewrite Hne, template_loop.
  assert (Hnil : List.filter (fun heading => negb (contains heading notes))
                   Governance.REQUIRED_TEMPLATE_HEADINGS = []).
  { destruct (List.filter _ _) as [|h hs] eqn:E; [reflexivity|]. exfalso.
    assert (Hin : In h (h :: hs)) by (left; reflexivity).
    rewrite <- E in Hin. apply List.filter_In in Hin as [Hin Hc].
    rewrite (H h Hin) in Hc. discriminate. }
  rewrite Hnil. apply app_nil_r.
Qed.

(** ** Rows that are not superseded *)

(** X20.  The verdict on a row whose plan cell names a path in code quotes,
    by status.  When the plan file does not exist, the row yields the
    invalid-status error if its status is not one of the three known
    ones, then the missing-file error, and nothing else, whatever the
    status.  When the file exists: an Archived row yields nothing, and
    the text of its plan is not looked at; an Active row yields the
    missing-marker error exactly when the plan text lacks the Active
    marker; a row with an unknown status (the names are case-sensitive)
    yields the invalid-status error only.  None of these rows counts as
    superseded unless its status is Superseded and its file exists. *)
Theorem row_verdict_by_status
  (fs : gmap string string) (plan_cell status superseded_by_cell notes : string)
  (plan_rel : string) :
  Governance.parse_code_path plan_cell = Some plan_rel ->
  is_empty plan_rel = false ->
  plan_rel <> "-" ->
  let row := [plan_cell; status; superseded_by_cell; notes] in
  let status_errors :=
    if Governance.mem status Governance.LIFECYCLE_STATUSES then []
    else [Governance.invalid_status_error status plan_rel] in
  (fs !! Governance.plans_path plan_rel = None ->
   Rows.row_result fs row
   = (status_errors ++ [Governance.missing_file_error plan_rel], 0))
  /\ (forall plan_text,
        fs !! Governance.plans_path plan_rel = Some plan_text ->
        (status = "Archived" -> Rows.row_result fs row = ([], 0))
        /\ (status = "Active" ->
            Rows.row_result fs row
            = (if contains "**Lifecycle:** Active" plan_text then []
               else [Governance.active_marker_error plan_rel], 0))
        /\ (Governance.mem status Governance.LIFECYCLE_STATUSES = false ->
            Rows.row_result fs row
            = ([Governance.invalid_status_error status plan_rel], 0))).
Proof.
  intros Hcell Hne Hdash row status_errors.
  assert (Hpath : Governance.no_path (Some plan_rel) = false).
  { cbn [Governance.no_path]. rewrite Hne. cbn [orb].
    apply String.eqb_neq, Hdash. }
  subst row status_errors.
  unfold Rows.row_result, Governance.lifecycle_row. rewrite Hcell, Hpath.
  split.
  - intros Hfile. rewrite Hfile.
    destruct (Governance.mem status Governance.LIFECYCLE_STATUSES); reflexivity.
  - intros plan_text Hfile. rewrite Hfile. repeat split.
    + intros ->. reflexivity.
    + intros ->. cbn [Governance.mem Governance.LIFECYCLE_STATUSES existsb].
      unfold Governance.active_check.
      destruct (contains "**Lifecycle:** Active" plan_text); reflexivity.
    + intros Hmem. rewrite Hmem.
      assert (Hs : String.eqb status "Superseded" = false).
      { destruct (String.eqb status "Superseded") eqn:E; [|reflexivity].
        apply String.eqb_eq in E. subst status. discriminate Hmem. }
      assert (Ha : String.eqb status "Active" = false).
      { destruct (String.eqb status "Active") eqn:E; [|reflexivity].
        apply String.eqb_eq in E. subst status. discriminate Hmem. }
      rewrite Hs. unfold Governance.active_check. rewrite Ha. reflexivity.
Qed.

Lemma row_verdict_by_status_witness :
  Rows.row_result Fixtures.repo_active ["`draft.md`"; "Active"; "-"; "in progress"]
  = (["Active plan missing lifecycle marker: docs/plans/draft.md"], 0).
Proof.
  refine (proj1 (proj2 (proj2 (row_verdict_by_status Fixtures.repo_active
            "`draft.md`" "Active" "-" "in progress" "draft.md" _ _ _)
            Fixtures.draft_plan _)) _);
    first [reflexivity | discriminate].
Defined.

(** ** An alignment block that agrees with the roadmap *)

Section AlignedBlock.

Import Lines Shapes.

Lemma is_date_one_line (date : string) :
  is_date date = true -> one_line date = true.
Proof.
  intros Hd. apply is_date_match in Hd.
  apply (match_classes_every not_nl DATE date date EmptyString); [|exact Hd].
  unfold DATE.
  repeat (apply List.Forall_cons;
          [intros c Hc; unfold not_nl;
           destruct (ascii_eqb c nl) eqn:E; [|reflexivity];
           apply ascii_eqb_eq in E; subst c; discriminate Hc|]).
  apply List.Forall_nil.
Qed.

Lemma labelled_line_one_line (label value : string) :
  one_line label = true -> one_line value = true ->
  one_line (label +:+ value) = true.
Proof.
  intros Hl Hv. unfold one_line. rewrite every_append.
  unfold one_line in Hl, Hv. rewrite Hl, Hv. reflexivity.
Qed.

Lemma block_phase_found (phase : string) (others : list string) :
  starts_nonspace phase = true -> one_line phase = true ->
  Governance.block_phase_match
    (unlines (("- Current roadmap phase: " +:+ phase) :: others))
  = Some phase.
Proof.
  intros Hstart Hline.
  change (unlines (("- Current roadmap phase: " +:+ phase) :: others))
    with (("- Current roadmap phase: " +:+ phase) +:+ String nl (unlines others)).
  rewrite append_assoc.
  change (Governance.block_phase_match
            (unlines [] +:+ "- Current roadmap phase:"
             +:+ (" " +:+ phase +:+ String nl (unlines others))) = Some phase).
  apply search_label; [reflexivity | constructor | constructor |].
  apply spaces_then_rest_value; [reflexivity | exact Hstart | exact Hline |].
  reflexivity.
Qed.

Lemma block_updated_found (phase date : string) (others : list string) :
  one_line phase = true -> is_date date = true ->
  Governance.block_updated_match
    (unlines (("- Current roadmap phase: " +:+ phase)
              :: ("- Roadmap last updated: " +:+ date) :: others))
  = Some date.
Proof.
  intros Hline Hdate.
  assert (E : unlines (("- Current roadmap phase: " +:+ phase)
                       :: ("- Roadmap last updated: " +:+ date) :: others)
              = unlines ["- Current roadmap phase: " +:+ phase]
                +:+ "- Roadmap last updated:"
                +:+ (" " +:+ date +:+ String nl (unlines others))).
  { cbn [unlines]. rewrite !append_assoc. reflexivity. }
  rewrite E. apply search_label.
  - reflexivity.
  - constructor; [|constructor].
    apply labelled_line_one_line; [reflexivity | exact Hline].
  - constructor; [reflexivity | constructor].
  - apply spaces_then_date_value; [reflexivity | exact Hdate | reflexivity].
Qed.

End AlignedBlock.

(** X21.  An alignment block written as the validator expects passes.  Let
    the Unreleased body hold, after lines that are not the block heading,
    the line [### Roadmap Alignment], the line of the phase
    ([- Current roadmap phase: ] and the phase), the line of the date
    ([- Roadmap last updated: ] and the date), any further lines that do
    not start with [### ], and then the end of the text or a line that
    starts with [### ].  When the phase is one line of text with no white
    space at its ends and the date has the shape YYYY-MM-DD, the alignment
    validator called with that phase and that date adds no error. *)
Theorem aligned_block_passes
  (before more : list string) (phase date rest : string) (errors : list string) :
  Forall (fun line => Lines.one_line line = true) before ->
  Forall (fun line => line <> "### Roadmap Alignment") before ->
  Forall (fun line => Lines.one_line line = true) more ->
  Forall (fun line => String.prefix "### " line = false) more ->
  Shapes.starts_nonspace phase = true ->
  Notes.ends_nonspace phase = true ->
  Lines.one_line phase = true ->
  Lines.is_date date = true ->
  rest = EmptyString \/ String.prefix "### " rest = true ->
  let unreleased :=
    Lines.unlines before +:+ "### Roadmap Alignment"
    +:+ String nl
          (Lines.unlines (("- Current roadmap phase: " +:+ phase)
                          :: ("- Roadmap last updated: " +:+ date) :: more)
           +:+ rest) in
  Governance.validate_roadmap_alignment_block phase date unreleased errors
  = errors.
Proof.
  intros Hbefore Hne Hmore Hterm Hstart Hend Hline Hdate Hrest unreleased.
  set (body := ("- Current roadmap phase: " +:+ phase)
               :: ("- Roadmap last updated: " +:+ date) :: more).
  assert (Hblock : Governance.block_match unreleased = Some (Lines.unlines body)).
  { rewrite <- (append_nil_r (Lines.unlines body)).
    subst unreleased. fold body.
    change (Lines.unlines body +:+ rest)
      with (Lines.unlines body +:+ EmptyString +:+ rest).
    apply section_found; try assumption; try reflexivity.
    - subst body. apply Forall_cons. split.
      + apply labelled_line_one_line; [reflexivity | exact Hline].
      + apply Forall_cons. split; [|exact Hmore].
        apply labelled_line_one_line;
          [reflexivity | apply is_date_one_line, Hdate].
    - subst body. apply Forall_cons. split; [reflexivity|].
      apply Forall_cons. split; [reflexivity | exact Hterm].
    - destruct Hrest as [->|Hrest]; [left; reflexivity|].
      right. split; [reflexivity | exact Hrest]. }
  rewrite (alignment_block_errors phase date unreleased (Lines.unlines body)
             phase date errors Hblock
             (block_phase_found phase _ Hstart Hline)
             (block_updated_found phase date more Hline Hdate)).
  assert (Hp : strip phase = phase).
  { unfold strip. rewrite (lstrip_starts_nonspace phase Hstart).
    apply rstrip_fixed, Hend. }
  rewrite Hp, (strip_no_space date (date_no_space date Hdate)),
    !String.eqb_refl.
  cbn [app]. apply app_nil_r.
Qed.

Lemma aligned_block_passes_witness :
  Governance.validate_roadmap_alignment_block "M3" "2024-05-01"
    "### Roadmap Alignment
- Current roadmap phase: M3
- Roadmap last updated: 2024-05-01

### Security
- Patched the parser
" [] = [].
Proof.
  refine (aligned_block_passes [] [""] "M3" "2024-05-01"
            "### Security
- Patched the parser
" [] _ _ _ _ _ _ _ _ _);
    first [reflexivity | right; reflexivity | repeat constructor].
Defined.

(** ** Reading a table row back *)

Section TableLines.

Import Lines Shapes Notes.

Lemma split_no_separator (sep : ascii) (s : string) :
  every (fun c => negb (ascii_eqb c sep)) s = true -> split sep s = [s].
Proof.
  induction s as [|c s IH]; [reflexivity|].
  cbn [every]. intros H. apply andb_true_iff in H as [Hc H].
  apply negb_true_iff in Hc. cbn [split]. rewrite Hc, (IH H). reflexivity.
Qed.

Lemma split_at_separator (sep : ascii) (a b : string) :
  every (fun c => negb (ascii_eqb c sep)) a = true ->
  split sep (a +:+ String sep b) = a :: split sep b.
Proof.
  induction a as [|c a IH].
  - intros _. rewrite append_nil_l. cbn [split]. rewrite ascii_eqb_refl.
    reflexivity.
  - cbn [every]. intros H. apply andb_true_iff in H as [Hc H].
    apply negb_true_iff in Hc. rewrite append_cons. cbn [split].
    rewrite Hc, (IH H). reflexivity.
Qed.

Lemma padded_no_pipe (cell : string) :
  cell_text cell = true ->
  every (fun c => negb (ascii_eqb c "|"%char)) (" " +:+ cell +:+ " ") = true.
Proof.
  unfold cell_text. intros H. apply andb_true_iff in H as [_ H].
  rewrite !every_append, H. reflexivity.
Qed.

Lemma split_padded_cells (cells : list string) :
  cells <> [] ->
  Forall (fun cell => cell_text cell = true) cells ->
  split "|"%char (padded_cells cells)
  = map (fun cell => " " +:+ cell +:+ " ") cells.
Proof.
  induction cells as [|cell cells IH]; [contradiction|].
  intros _ Hall. apply Forall_cons in Hall as [Hcell Hall].
  destruct cells as [|cell' cells].
  - cbn [padded_cells map]. apply split_no_separator, padded_no_pipe, Hcell.
  - change (padded_cells (cell :: cell' :: cells))
      with (" " +:+ cell +:+ " |" +:+ padded_cells (cell' :: cells)).
    change (" " +:+ cell +:+ " |" +:+ padded_cells (cell' :: cells))
      with (" " +:+ (cell +:+ " " +:+ String "|"%char (padded_cells (cell' :: cells)))).
    assert (E : " " +:+ (cell +:+ " " +:+ String "|"%char (padded_cells (cell' :: cells)))
                = (" " +:+ cell +:+ " ")
                  +:+ String "|"%char (padded_cells (cell' :: cells))).
    { rewrite !append_assoc. reflexivity. }
    rewrite E, split_at_separator by (apply padded_no_pipe, Hcell).
    rewrite IH by (first [discriminate | exact Hall]). reflexivity.
Qed.

Lemma padded_cells_ends (cells : list string) :
  cells <> [] -> last_char (padded_cells cells) = Some " "%char.
Proof.
  induction cells as [|cell cells IH]; [contradiction|]. intros _.
  destruct cells as [|cell' cells].
  - cbn [padded_cells]. rewrite !last_char_append. reflexivity.
  - change (padded_cells (cell :: cell' :: cells))
      with (" " +:+ cell +:+ " |" +:+ padded_cells (cell' :: cells)).
    rewrite !last_char_append, IH by discriminate. reflexivity.
Qed.

Lemma padded_cells_starts (cells : list string) :
  cells <> [] -> exists rest, padded_cells cells = String " "%char rest.
Proof.
  destruct cells as [|cell cells]; [contradiction|]. intros _.
  destruct cells as [|cell' cells]; eexists; reflexivity.
Qed.

Lemma strip_char_table_line (cells : list string) :
  cells <> [] ->
  strip_char "|"%char (table_line cells) = padded_cells cells.
Proof.
  intros Hne. unfold strip_char, table_line.
  destruct (padded_cells_starts cells Hne) as (rest & E).
  assert (Hdrop : drop_while (ascii_eqb "|"%char) ("|" +:+ padded_cells cells +:+ "|")
                  = padded_cells cells +:+ "|").
  { rewrite E. reflexivity. }
  rewrite Hdrop, drop_while_end_append.
  cbn [drop_while_end is_empty ascii_eqb Ascii.eqb andb].
  change (is_empty (if Ascii.eqb "|" "|" then EmptyString else "|")) with true.
  cbn iota.
  apply drop_while_end_fixed.
  rewrite (padded_cells_ends cells Hne). reflexivity.
Qed.

Lemma strip_padded_cell (cell : string) :
  cell_text cell = true -> strip (" " +:+ cell +:+ " ") = cell.
Proof.
  unfold cell_text, trimmed. intros H. apply andb_true_iff in H as [H _].
  destruct cell as [|c cell]; [reflexivity|]. cbn [is_empty orb] in H.
  apply andb_true_iff in H as [Hs He].
  apply (strip_padding " " (String c cell) " "); first [reflexivity | assumption].
Qed.

Lemma strip_table_line (indent trailing : string) (cells : list string) :
  blank indent = true -> blank trailing = true ->
  strip (indent +:+ table_line cells +:+ trailing) = table_line cells.
Proof.
  intros Hi Ht. apply strip_padding; try assumption; [reflexivity|].
  unfold table_line. apply ends_nonspace_append, ends_nonspace_append.
  reflexivity.
Qed.

(** The cells of a table line are the cells written. *)
Lemma cells_of_table_line (indent trailing : string) (cells : list string) :
  blank indent = true -> blank trailing = true ->
  cells <> [] ->
  Forall (fun cell => cell_text cell = true) cells ->
  Table.cells_of (indent +:+ table_line cells +:+ trailing) = cells.
Proof.
  intros Hi Ht Hne Hall. unfold Table.cells_of, Governance.line_cells.
  rewrite (strip_table_line indent trailing cells Hi Ht).
  rewrite (strip_char_table_line cells Hne), (split_padded_cells cells Hne Hall).
  rewrite map_map. clear Hne.
  induction Hall as [|cell cells Hcell _ IH]; [reflexivity|].
  cbn [map]. rewrite (strip_padded_cell cell Hcell), IH. reflexivity.
Qed.

End TableLines.

(** X22.  A table row is read back as written.  A line made of optional
    white space, a pipe, four or more cells each between single spaces and
    followed by a pipe, and optional white space is accepted by the table
    parser, and the row it adds holds the first four cells exactly,
    provided that the cells hold no pipe and no white space at their ends
    and that the first cell is neither [Plan] nor a run of dashes.  Cells
    after the fourth are dropped. *)
Theorem table_row_round_trip
  (rows : list (list string)) (indent trailing : string)
  (cell1 cell2 cell3 cell4 : string) (more : list string) :
  Shapes.blank indent = true ->
  Shapes.blank trailing = true ->
  Forall (fun cell => Shapes.cell_text cell = true)
    (cell1 :: cell2 :: cell3 :: cell4 :: more) ->
  cell1 <> "Plan" ->
  only_char "-"%char cell1 = false ->
  Governance.parse_table_line rows
    (indent +:+ Shapes.table_line (cell1 :: cell2 :: cell3 :: cell4 :: more)
     +:+ trailing)
  = rows ++ [[cell1; cell2; cell3; cell4]].
Proof.
  intros Hi Ht Hall Hplan Hdash.
  set (cells := cell1 :: cell2 :: cell3 :: cell4 :: more).
  assert (Hcells : Table.cells_of (indent +:+ Shapes.table_line cells +:+ trailing)
                   = cells).
  { apply cells_of_table_line; try assumption. discriminate. }
  rewrite parse_table_line_accepted.
  unfold Table.accepted, Table.row_of, Table.first_cell, Table.candidate.
  rewrite Hcells, (strip_table_line indent trailing cells Hi Ht).
  subst cells. cbn [hd length take Nat.leb]. rewrite Hdash.
  apply String.eqb_neq in Hplan. rewrite Hplan. reflexivity.
Qed.

Lemma table_row_round_trip_witness :
  Governance.parse_table_line []
    "  | `old.md` | Superseded | `new.md` | replaced | extra |  "
  = [["`old.md`"; "Superseded"; "`new.md`"; "replaced"]].
Proof.
  refine (table_row_round_trip [] "  " "  "
            "`old.md`" "Superseded" "`new.md`" "replaced" ["extra"] _ _ _ _ _);
    first [reflexivity | discriminate | repeat constructor].
Defined.

(** ** The first plan link of the roadmap *)

Section FirstLink.

Import Governance Lines Shapes.

Lemma take_while_append (p : ascii -> bool) (a b : string) :
  every p a = true -> take_while p (a +:+ b) = a +:+ take_while p b.
Proof.
  induction a as [|c a IH]; [reflexivity|].
  cbn [every]. intros H. apply andb_true_iff in H as [Hc H].
  rewrite !append_cons. cbn [take_while]. rewrite Hc, (IH H). reflexivity.
Qed.

Lemma length_append (a b : string) :
  String.length (a +:+ b) = String.length a + String.length b.
Proof.
  induction a as [|c a IH]; [reflexivity|].
  rewrite append_cons. cbn [String.length]. rewrite IH. reflexivity.
Qed.

(** The link pattern matches where a link is written. *)
Lemma link_at_link (name post : string) :
  is_empty name = false ->
  every not_rparen name = true ->
  exists n,
    link_at ("(../plans/" +:+ (name +:+ ".md") +:+ ")" +:+ post)
    = Some ("../plans/" +:+ name +:+ ".md", n).
Proof.
  intros Hne Hname. unfold link_at.
  rewrite prefix_append. cbv zeta.
  assert (Hrest : slice_from 10
                    ("(../plans/" +:+ (name +:+ ".md") +:+ ")" +:+ post)
                  = (name +:+ ".md") +:+ ")" +:+ post).
  { apply (slice_from_append "(../plans/"). }
  rewrite !Hrest.
  assert (Hrun : take_while not_rparen ((name +:+ ".md") +:+ ")" +:+ post)
                 = name +:+ ".md").
  { rewrite take_while_append.
    - cbn [take_while]. change (not_rparen ")") with false. cbn iota.
      apply append_nil_r.
    - rewrite every_append, Hname. reflexivity. }
  rewrite Hrun.
  assert (F1 : (4 <=? String.length (name +:+ ".md"))%nat = true).
  { apply Nat.leb_le. rewrite length_append.
    destruct name; [discriminate|]. cbn [String.length]. lia. }
  assert (F2 : slice_from (String.length (name +:+ ".md") - 3) (name +:+ ".md")
               = ".md").
  { rewrite length_append. cbn [String.length].
    replace (String.length name + 3 - 3) with (String.length name) by lia.
    apply slice_from_append. }
  rewrite F1, F2, slice_from_append, String.eqb_refl.
  change (")" +:+ post) with (String ")"%char post).
  rewrite prefix_cons, prefix_nil.
  eexists. reflexivity.
Qed.

Lemma prefix_before_paren (pattern text rest : string) :
  every not_lparen pattern = true ->
  String.prefix pattern text = false ->
  String.prefix pattern (text +:+ String "("%char rest) = false.
Proof.
  revert text. induction pattern as [|q pattern IH]; intros text Hq Hpre.
  - rewrite prefix_nil in Hpre. discriminate.
  - cbn [every] in Hq. apply andb_true_iff in Hq as [Hq1 Hq].
    destruct text as [|b text].
    + rewrite append_nil_l, prefix_cons.
      unfold not_lparen in Hq1. apply negb_true_iff in Hq1. rewrite Hq1.
      reflexivity.
    + rewrite append_cons, prefix_cons. rewrite prefix_cons in Hpre.
      destruct (ascii_eqb q b); [|reflexivity]. cbn [andb] in *.
      apply IH; assumption.
Qed.

(** Where the text before holds no start of a link, no match begins in
    it. *)
Lemma findall_links_before (pre rest : string) :
  contains "(../plans/" pre = false ->
  findall_links 0 (pre +:+ String "("%char rest)
  = findall_links 0 (String "("%char rest).
Proof.
  induction pre as [|c pre IH]; [reflexivity|].
  rewrite contains_cons. intros H. apply orb_false_iff in H as [Hhere H].
  rewrite append_cons. cbn [findall_links].
  assert (Hnone : link_at (String c (pre +:+ String "("%char rest)) = None).
  { unfold link_at. rewrite <- append_cons.
    change "(../plans/" with (String "("%char "../plans/") in Hhere |- *.
    rewrite prefix_cons in Hhere. rewrite append_cons, prefix_cons.
    destruct (ascii_eqb "(" c); [|reflexivity]. cbn [andb] in *.
    rewrite (prefix_before_paren "../plans/" pre rest eq_refl Hhere).
    reflexivity. }
  rewrite Hnone. apply IH, H.
Qed.

End FirstLink.

(** X23.  The first plan link of the roadmap is always checked.  When the
    text before it holds no start [(../plans/] of a link and the name
    holds no closing parenthesis, the link [(../plans/NAME.md)] is among
    the links that the validator walks; so when [docs/plans/NAME.md] does
    not exist the run reports it, and when it exists no error names this
    link. *)
Theorem first_plan_link_is_checked
  (fs : gmap string string) (pre name post : string) (errors : list string) :
  contains "(../plans/" pre = false ->
  is_empty name = false ->
  Lines.every Governance.not_rparen name = true ->
  let link := "../plans/" +:+ name +:+ ".md" in
  let roadmap := pre +:+ "(" +:+ link +:+ ")" +:+ post in
  In link (Governance.sorted_set (Governance.findall_links 0 roadmap))
  /\ (fs !! ("docs/plans/" +:+ name +:+ ".md") = None ->
      In (Shapes.link_error link)
         (Governance.validate_roadmap_links fs roadmap errors))
  /\ (is_Some (fs !! ("docs/plans/" +:+ name +:+ ".md")) ->
      ~ In (Shapes.link_error link) errors ->
      ~ In (Shapes.link_error link)
          (Governance.validate_roadmap_links fs roadmap errors)).
Proof.
  intros Hpre Hne Hname link roadmap.
  assert (Hroadmap : roadmap
                     = pre +:+ String "("%char
                         ("../plans/" +:+ (name +:+ ".md") +:+ ")" +:+ post)).
  { subst roadmap link.
    change ("(" +:+ ("../plans/" +:+ name +:+ ".md") +:+ ")" +:+ post)
      with (String "("%char (("../plans/" +:+ name +:+ ".md") +:+ ")" +:+ post)).
    change ("../plans/" +:+ name +:+ ".md")
      with ("../plans/" +:+ (name +:+ ".md")).
    rewrite (append_assoc "../plans/"). reflexivity. }
  assert (Hfound : In link (Governance.sorted_set
                              (Governance.findall_links 0 roadmap))).
  { apply sorted_set_In. rewrite Hroadmap, findall_links_before by exact Hpre.
    destruct (link_at_link name post Hne Hname) as (n & Hlink).
    cbn [Governance.findall_links].
    change (String "("%char ("../plans/" +:+ (name +:+ ".md") +:+ ")" +:+ post))
      with ("(../plans/" +:+ (name +:+ ".md") +:+ ")" +:+ post).
    rewrite Hlink. left. reflexivity. }
  assert (Hresolve : Governance.resolve_link link
                     = "docs/plans/" +:+ name +:+ ".md") by reflexivity.
  split; [exact Hfound|].
  unfold Governance.validate_roadmap_links. rewrite links_loop. split.
  - intros Hmissing. apply in_or_app. right. apply in_map.
    apply List.filter_In. split; [exact Hfound|].
    unfold Shapes.target_missing. rewrite Hresolve, Hmissing. reflexivity.
  - intros [text Hfile] Hnot Hin. apply in_app_or in Hin as [Hin|Hin];
      [exact (Hnot Hin)|].
    apply in_map_iff in Hin as (rel & Hrel & Hin).
    apply List.filter_In in Hin as [_ Hmiss].
    assert (rel = link).
    { unfold Shapes.link_error in Hrel.
      revert Hrel. generalize "Roadmap link target does not exist: ".
      intros label. induction label as [|c label IH]; intros E.
      - exact E.
      - rewrite !append_cons in E. injection E as E. apply IH, E. }
    subst rel. unfold Shapes.target_missing in Hmiss.
    rewrite Hresolve, Hfile in Hmiss. discriminate.
Qed.

Lemma first_plan_link_is_checked_witness :
  In "../plans/old.md"
    (Governance.sorted_set (Governance.findall_links 0 Fixtures.roadmap_linked))
  /\ In "Roadmap link target does not exist: ../plans/old.md"
       (Governance.validate_roadmap_links ∅ Fixtures.roadmap_linked []).
Proof.
  pose proof (first_plan_link_is_checked ∅ "See [the old plan]" "old"
                ", [the new plan](../plans/new.md)
and again [the old one](../plans/old.md).
" [] eq_refl eq_refl eq_refl) as H.
  split; [exact (proj1 H) | exact (proj1 (proj2 H) eq_refl)].
Defined.
